(** * Salesapex rehash engine: deal structuring, vehicle eligibility, ranking
      and the bank-first compliance filter

    A shallow embedding of [shared/rehash.ts], [shared/deals.ts],
    [shared/lenders.ts], [shared/bankFirstTriage.ts] and the hook
    [client/src/hooks/useBankFirstTriage.ts], followed by the properties
    proved about it.

    Modelling conventions.
    - A TypeScript [number] that carries money, a rate, a percentage or a
      multiplier is an exact rational ([Q]); results are compared with [==].
      This serves the properties of order and of structure, which rounding
      to binary64 preserves.  A statement that depends on the last digit of
      a product is made about the binary64 evaluation of the function
      instead ([Binary64], over the Standard Library's [SpecFloat]).  Model
      years, ages and loan terms are integers ([Z]).
    - A string is a sequence of 8-bit characters; [trim] and [toLowerCase]
      are those of JavaScript on ASCII text, and a statement whose truth
      depends on them is made for ASCII makes ([isAsciiText]).
    - An object literal indexed by a string is an association list; where
      the string is free, a statement excludes the property names inherited
      from [Object.prototype] ([objectPrototypeKeys]).
    - [new Date().getFullYear()] is an input named [currentYear]: the code
      reads the clock, the embedding receives the year that was read.
    - Text assembled from template literals is kept as the constructor of the
      template together with the values interpolated into it.
    - [Array.prototype.sort] is a stable sort; it is modelled by a stable
      insertion sort driven by the same comparator. *)

From Stdlib Require Import ZArith QArith Qround Qminmax Qabs Qpower.
From Stdlib Require Import List String Ascii Bool Lia Lqa.
From Stdlib Require Import Permutation Sorted DecimalString SpecFloat.
Import ListNotations.

Local Open Scope string_scope.
Local Open Scope list_scope.
Local Open Scope Q_scope.

(* ================================================================= *)
(** ** Numbers *)

(** [Math.round]: nearest integer, halves rounded towards +infinity. *)
Definition Math_round (x : Q) : Z := Qfloor (x + (1 # 2)).

(** [Math.ceil]. *)
Definition Math_ceil (x : Q) : Z := Qceiling x.

(** [Math.max], [Math.min] and [Math.abs] on finite numbers. *)
Definition Math_max (x y : Q) : Q := Qmax x y.
Definition Math_min (x y : Q) : Q := Qmin x y.
Definition Math_abs (x : Q) : Q := Qabs x.

(** The comparison operators of the source, as booleans. *)
Definition Qleb (x y : Q) : bool := Qle_bool x y.
Definition Qltb (x y : Q) : bool := negb (Qle_bool y x).
Definition Qgtb (x y : Q) : bool := Qltb y x.
Definition Qgeb (x y : Q) : bool := Qleb y x.
Definition Qeqb (x y : Q) : bool := Qeq_bool x y.

(** [a / b >= c] as the source evaluates it, division by zero included:
    a positive number over zero is +Infinity, which passes every threshold,
    while 0/0 (NaN) and a negative number over zero (-Infinity) fail it. *)
Definition div_geb (a b c : Q) : bool :=
  if Qeqb b 0 then Qltb 0 a else Qgeb (a / b) c.

(* ================================================================= *)
(** ** Strings *)

(** [String.prototype.toLowerCase] on the ASCII letters. *)
Definition lower_ascii (c : ascii) : ascii :=
  let n := N_of_ascii c in
  if ((65 <=? n) && (n <=? 90))%N then ascii_of_N (n + 32) else c.

Fixpoint toLowerCase (s : string) : string :=
  match s with
  | EmptyString => EmptyString
  | String c r => String (lower_ascii c) (toLowerCase r)
  end.

(** White space removed by [String.prototype.trim] (the ASCII part: tab, line
    feed, vertical tab, form feed, carriage return, space). *)
Definition is_ws (c : ascii) : bool :=
  let n := N_of_ascii c in
  (((9 <=? n) && (n <=? 13)) || (n =? 32))%N.

Fixpoint trimStart (s : string) : string :=
  match s with
  | EmptyString => EmptyString
  | String c r => if is_ws c then trimStart r else s
  end.

Fixpoint trimEnd (s : string) : string :=
  match s with
  | EmptyString => EmptyString
  | String c r =>
      match trimEnd r with
      | EmptyString => if is_ws c then EmptyString else String c EmptyString
      | r' => String c r'
      end
  end.

Definition trim (s : string) : string := trimEnd (trimStart s).

(** [a.toLowerCase() === b.toLowerCase()]. *)
Definition sameMake (a b : string) : bool :=
  String.eqb (toLowerCase a) (toLowerCase b).

(** [x || fallback] on an optional string: [undefined] and [''] are falsy. *)
Definition orDefault (x : option string) (fallback : string) : string :=
  match x with
  | Some s => if String.eqb s "" then fallback else s
  | None => fallback
  end.

(* ================================================================= *)
(** ** Data model ([shared/deals.ts], [shared/lenders.ts]) *)

Inductive CreditTier := deep_subprime | subprime | near_prime | prime.

Definition CreditTier_eqb (a b : CreditTier) : bool :=
  match a, b with
  | deep_subprime, deep_subprime | subprime, subprime
  | near_prime, near_prime | prime, prime => true
  | _, _ => false
  end.

Record BackendProducts := {
  gap : bool;
  vsc : bool;
  otherProductsTotal : Q
}.

Inductive WarrantyReason := reason_age | reason_mileage | reason_both.

Module RiskAssessment.
Record t := mk {
  isUpsideDown : bool;
  ltvPercent : Q;
  isOutOfWarranty : bool;
  outOfWarrantyReason : option WarrantyReason;
  vehicleAgeYears : Z;
  vehicleMileage : Q;
  recommendGap : bool;
  recommendVsc : bool
}.
End RiskAssessment.

Record DealInput := {
  vehicleId : string;
  vehicleYear : Z;
  vehicleMake : string;
  vehicleMileage : Q;
  vehiclePrice : Q;
  vehicleCost : Q;
  taxRate : Q;
  fees : Q;
  downPayment : Q;
  tradeAllowance : Q;
  tradePayoff : Q;
  backendProducts : BackendProducts;
  customerCreditTier : CreditTier;
  targetPayment : Q;
  paymentTolerance : Q;
  preferredTermMonths : option Z;
  monthlyIncome : option Q
}.

(** [{ ...deal, downPayment: down }] *)
Definition withDownPayment (deal : DealInput) (down : Q) : DealInput :=
  {| vehicleId := vehicleId deal;
     vehicleYear := vehicleYear deal;
     vehicleMake := vehicleMake deal;
     vehicleMileage := vehicleMileage deal;
     vehiclePrice := vehiclePrice deal;
     vehicleCost := vehicleCost deal;
     taxRate := taxRate deal;
     fees := fees deal;
     downPayment := down;
     tradeAllowance := tradeAllowance deal;
     tradePayoff := tradePayoff deal;
     backendProducts := backendProducts deal;
     customerCreditTier := customerCreditTier deal;
     targetPayment := targetPayment deal;
     paymentTolerance := paymentTolerance deal;
     preferredTermMonths := preferredTermMonths deal;
     monthlyIncome := monthlyIncome deal |}.

(** The rejection reasons pushed by [isVehicleEligible]; each constructor is
    one template literal with its interpolated values. *)
Inductive EligibilityReason :=
| VehicleTooOld (vehicleAge maxAge : Z) (lenderName : string)
| MileageTooHigh (mileage maxMileage : Q) (lenderName : string)
| MakeNotEligible (make lenderName : string).

(** The warnings pushed by [isVehicleEligible]. *)
Inductive VehicleWarning :=
| PenaltyWarning (reason make : string) (year : Z) (penaltyPercent : Q)
| BonusWarning (reason make : string) (bonusPercent : Q)
| TheftRiskWarning (make : string) (year : Z).

Module VehicleEligibilityResult.
Record t := mk {
  isEligible : bool;
  reasons : list EligibilityReason;
  advanceMultiplier : Q;
  warnings : list VehicleWarning
}.
End VehicleEligibilityResult.

Record LenderTierPricing := {
  creditTier : CreditTier;
  minApr : Q;
  maxApr : Q;
  minDownPct : Q;
  baseAdvancePercent : Q;
  maxAdvancePercent : Q;
  maxLtvPercent : Q
}.

Record VehicleRestrictions := {
  maxAge : Z;
  maxMileage : Q;
  excludedMakes : list string
}.

Record YearRange := { range_start : Z; range_end : Z }.

Module VehiclePreference.
Record t := mk {
  make : string;
  multiplier : Q;
  reason : option string;
  yearRange : option YearRange
}.
End VehiclePreference.

Record DealConstraintsResult := {
  isValid : bool;
  constraint_reasons : list string
}.

Record LenderConfig := {
  id : string;
  name : string;
  active : bool;
  allowedTerms : list Z;
  minAmountFinanced : Q;
  maxAmountFinanced : Q;
  maxBackendTotal : Q;
  maxBackendPercentOfAmount : Q;
  maxVehicleAgeYears : Z;
  maxMiles : Q;
  lenderFeePercent : Q;
  pricingGrid : list LenderTierPricing;
  vehicleRestrictions : VehicleRestrictions;
  vehiclePreferences : list VehiclePreference.t;
  validateDeal : DealInput -> Q -> DealConstraintsResult
}.

Inductive OptimizationLevel := optimal | vsc_stripped | all_stripped.

Module BackendScenario.
Record t := mk {
  label : string;
  value : Q;
  hasGap : bool;
  hasVsc : bool;
  optimizationLevel : OptimizationLevel
}.
End BackendScenario.

(** The PTI warning template with its interpolated values. *)
Record PtiWarning := {
  warn_ptiPercent : Q;
  warn_limitPercent : Q;
  warn_creditTier : CreditTier;
  warn_requiredIncome : Q
}.

Module PtiResult.
Record t := mk {
  ptiPercent : option Q;
  ptiWarning : option PtiWarning;
  ptiExceedsLimit : bool;
  requiredIncome : option Z
}.
End PtiResult.

(** Lines of [adjustments]. *)
Inductive Adjustment :=
| AdjLenderTermApr (lenderName : string) (term : Z) (apr : Q)
| AdjIncreasedDown (fromDown toDown : Q)
| AdjProducts (productParts : list string) (total : Q)
| AdjNoProducts
| AdjAdvanceReduced (adjustmentPercent : Q)
| AdjAdvanceIncreased (bonusPercent : Q)
| AdjPtiWarning (w : PtiWarning).

(** Sentences of the smart note, joined by ['. '] in the source. *)
Inductive NoteSentence :=
| NoteGapHighLtv (ltvPercent : Q)
| NoteVscMileage (mileage : Q)
| NoteVscAge (age : Z)
| NoteVscBoth (age : Z) (mileage : Q)
| NoteGapMaxProtection
| NoteVscExtendedCoverage
| NoteRemovedVsc
| NoteGapRetained
| NoteProductsRemoved
| NoteNoProducts
| NoteOptimalCoverage
| NoteVehicleWarning (w : VehicleWarning).

Module DealCandidate.
Record t := mk {
  lenderId : string;
  lenderName : string;
  termMonths : Z;
  apr : Q;
  amountFinanced : Q;
  payment : Q;
  netCheckToDealer : Q;
  dealerFrontGross : Q;
  dealerBackEndGross : Q;
  dealerProfit : Q;
  totalDown : Q;
  backendTotal : Q;
  ltv : Q;
  withinGuidelines : bool;
  reasons : list string;
  adjustments : list Adjustment;
  hasGap : bool;
  hasVsc : bool;
  smartNote : list NoteSentence;
  riskAssessment : option RiskAssessment.t;
  optimizationLevel : OptimizationLevel;
  vehicleWarnings : list VehicleWarning;
  advanceMultiplier : Q;
  ptiPercent : option Q;
  ptiWarning : option PtiWarning;
  ptiExceedsLimit : bool;
  requiredIncome : option Z
}.
End DealCandidate.

Module RehashResult.
Record t := mk {
  bestDeal : option DealCandidate.t;
  allCandidates : list DealCandidate.t;
  riskAssessment : RiskAssessment.t
}.
End RehashResult.

(* ================================================================= *)
(** ** Constants of [shared/rehash.ts] *)

Definition GAP_PRICE : Q := 900.
Definition VSC_PRICE : Q := 1800.

Definition WARRANTY_AGE_THRESHOLD : Z := 3.
Definition WARRANTY_MILEAGE_THRESHOLD : Q := 36000.

Definition THEFT_RISK_YEAR_START : Z := 2011.
Definition THEFT_RISK_YEAR_END : Z := 2021.
Definition THEFT_RISK_MAKES : list string := ["Kia"; "Hyundai"].

(** A [Record<number, number>] read at an integer key. *)
Fixpoint lookupZ {V : Type} (k : Z) (m : list (Z * V)) : option V :=
  match m with
  | [] => None
  | (k', v) :: m' => if (k =? k')%Z then Some v else lookupZ k m'
  end.

(** A [Record<string, V>] read at a string key: the own properties of the
    table (the members an object literal inherits are listed in
    [objectPrototypeKeys] below). *)
Fixpoint lookupS {V : Type} (k : string) (m : list (string * V)) : option V :=
  match m with
  | [] => None
  | (k', v) :: m' => if String.eqb k k' then Some v else lookupS k m'
  end.

Definition DEPRECIATION_SCHEDULE : list (Z * Q) :=
  [ (0%Z, 1.00); (1%Z, 0.85); (2%Z, 0.78); (3%Z, 0.72); (4%Z, 0.66);
    (5%Z, 0.60); (6%Z, 0.55); (7%Z, 0.50); (8%Z, 0.46); (9%Z, 0.42);
    (10%Z, 0.38) ].

Record MileageBracket := { maxMiles_b : Q; factor : Q }.

Definition MILEAGE_DEPRECIATION_BRACKETS : list MileageBracket :=
  [ {| maxMiles_b := 30000; factor := 1.00 |};
    {| maxMiles_b := 60000; factor := 0.95 |};
    {| maxMiles_b := 90000; factor := 0.90 |};
    {| maxMiles_b := 120000; factor := 0.85 |};
    {| maxMiles_b := 150000; factor := 0.80 |};
    {| maxMiles_b := 180000; factor := 0.75 |} ].

Definition PTI_LIMITS (tier : CreditTier) : Q :=
  match tier with
  | deep_subprime => 0.25
  | subprime => 0.18
  | near_prime => 0.15
  | prime => 0.12
  end.

(** [LenderAdvanceConfig]: the [type] tag with the fields its branch of
    [estimateNetCheckAndProfit] reads.  A field read through [?.] or [??] is
    optional; a field read through [!] is required. *)
Record TierAdvances := { platinum : Q; gold : Q; standard : Q }.
Record NumRange := { range_min : Q; range_max : Q }.

Inductive AdvanceType :=
| cost_based (tierAdvances : option TierAdvances) (dealerTierPenalty : option Q)
| payment_based (paymentMultiplierRange : NumRange)
| risk_adjusted (baseAdvance : option Q) (riskAdjustmentRange : NumRange).

Record LenderAdvanceConfig := {
  advanceType : AdvanceType;
  docFee : Q;
  originationFee : Q;
  holdbackPercent : Q;
  miscFees : Q
}.

Definition LENDER_ADVANCE_CONFIGS : list (string * LenderAdvanceConfig) :=
  [ ("westlake",
     {| advanceType :=
          cost_based (Some {| platinum := 1.12; gold := 1.10; standard := 1.08 |})
                     (Some 0.025);
        docFee := 799; originationFee := 595;
        holdbackPercent := 0.02; miscFees := 150 |});
    ("western_funding",
     {| advanceType := payment_based {| range_min := 1.20; range_max := 1.45 |};
        docFee := 695; originationFee := 495;
        holdbackPercent := 0.025; miscFees := 125 |});
    ("uac",
     {| advanceType :=
          risk_adjusted (Some 1.10) {| range_min := -0.10; range_max := 0.08 |};
        docFee := 650; originationFee := 450;
        holdbackPercent := 0.018; miscFees := 100 |}) ].

(* ================================================================= *)
(** ** Helper functions *)

(** [calculateBookValue]: retail price to book value. *)
Definition calculateBookValue (retailPrice : Q) (vehicleAge : Z) (mileage : Q) : Z :=
  let ageYears := Z.min vehicleAge 10 in
  let ageFactor :=
    match lookupZ ageYears DEPRECIATION_SCHEDULE with
    | Some f => f
    | None => 0.35
    end in
  let mileageBracket :=
    find (fun b => Qleb mileage (maxMiles_b b)) MILEAGE_DEPRECIATION_BRACKETS in
  let mileageFactor :=
    match mileageBracket with
    | Some b => factor b
    | None => 0.70
    end in
  let bookValue := retailPrice * ageFactor * mileageFactor in
  Math_round bookValue.

(** [calculateMonthlyPayment]: standard amortisation. *)
Definition calculateMonthlyPayment (amountFinanced apr : Q) (termMonths : Z) : Q :=
  let monthlyRate := apr / 100 / 12 in
  if Qeqb monthlyRate 0 then amountFinanced / inject_Z termMonths
  else
    let numerator := monthlyRate * amountFinanced in
    let denominator := 1 - Qpower (1 + monthlyRate) (- termMonths) in
    numerator / denominator.

Definition tierScores (tier : CreditTier) : Q :=
  match tier with
  | prime => 30
  | near_prime => 15
  | subprime => 0
  | deep_subprime => -20
  end.

Definition includes (l : list string) (s : string) : bool :=
  existsb (String.eqb s) l.

(** [calculateRiskScore] (the lender argument is unused in the source). *)
Definition calculateRiskScore (currentYear : Z) (deal : DealInput)
    (lender : LenderConfig) : Q :=
  let score := 50 in
  let score := score + tierScores (customerCreditTier deal) in
  let score :=
    if div_geb (downPayment deal) (vehiclePrice deal) 0.20 then score + 15
    else if div_geb (downPayment deal) (vehiclePrice deal) 0.15 then score + 10
    else if div_geb (downPayment deal) (vehiclePrice deal) 0.10 then score + 5
    else score in
  let vehicleAge := (currentYear - vehicleYear deal)%Z in
  let score :=
    if (vehicleAge >? 10)%Z then score - 15
    else if (vehicleAge >? 7)%Z then score - 10
    else if (vehicleAge >? 5)%Z then score - 5
    else score in
  let score :=
    if Qgtb (vehicleMileage deal) 150000 then score - 15
    else if Qgtb (vehicleMileage deal) 120000 then score - 10
    else if Qgtb (vehicleMileage deal) 90000 then score - 5
    else score in
  let make := toLowerCase (vehicleMake deal) in
  let preferredMakes := ["toyota"; "honda"; "lexus"; "subaru"] in
  let riskyMakes := ["kia"; "hyundai"; "nissan"; "dodge"] in
  let score := if includes preferredMakes make then score + 10 else score in
  let score := if includes riskyMakes make then score - 10 else score in
  Math_max 0 (Math_min 100 score).

Definition getPtiLimit (tier : CreditTier) : Q := PTI_LIMITS tier.

Definition calculatePTI (payment income : Q) : Q :=
  if Qleb income 0 then 0 else payment / income.

Definition calculateRequiredIncome (payment ptiLimit : Q) : Q :=
  if Qleb ptiLimit 0 then 0 else payment / ptiLimit.

(** [evaluatePTI]; [!monthlyIncome] holds for [undefined] and for 0. *)
Definition evaluatePTI (payment : Q) (monthlyIncome : option Q)
    (tier : CreditTier) : PtiResult.t :=
  let ptiLimit := getPtiLimit tier in
  let requiredIncome := calculateRequiredIncome payment ptiLimit in
  let withoutIncome :=
    PtiResult.mk None None false (Some (Math_ceil requiredIncome)) in
  match monthlyIncome with
  | None => withoutIncome
  | Some income =>
      if Qeqb income 0 || Qleb income 0 then withoutIncome
      else
        let pti := calculatePTI payment income in
        let ptiPercent := pti * 100 in
        let ptiExceedsLimit := Qgtb pti ptiLimit in
        let ptiWarning :=
          if ptiExceedsLimit then
            Some {| warn_ptiPercent := ptiPercent;
                    warn_limitPercent := ptiLimit * 100;
                    warn_creditTier := tier;
                    warn_requiredIncome := requiredIncome |}
          else None in
        PtiResult.mk (Some ptiPercent) ptiWarning ptiExceedsLimit
                     (Some (Math_ceil requiredIncome))
  end.

(* ================================================================= *)
(** ** Vehicle eligibility *)

Definition inYearRange (year : Z) (r : YearRange) : bool :=
  ((range_start r <=? year) && (year <=? range_end r))%Z.

(** One iteration of the loop over [lender.vehiclePreferences]; the state is
    the pair of the two variables the loop updates. *)
Definition preferenceStep (deal : DealInput) (normalizedMake : string)
    (st : Q * list VehicleWarning) (pref : VehiclePreference.t)
    : Q * list VehicleWarning :=
  let '(advanceMultiplier, warnings) := st in
  let makeMatches := sameMake (VehiclePreference.make pref) normalizedMake in
  if negb makeMatches then st
  else
    let yearInRange :=
      match VehiclePreference.yearRange pref with
      | Some r => inYearRange (vehicleYear deal) r
      | None => true
      end in
    if yearInRange then
      let m := VehiclePreference.multiplier pref in
      let advanceMultiplier := Math_min advanceMultiplier m in
      if Qltb m 1 then
        (advanceMultiplier,
         warnings ++ [PenaltyWarning
                        (orDefault (VehiclePreference.reason pref) "Risk Adjustment")
                        normalizedMake (vehicleYear deal) ((1 - m) * 100)])
      else if Qgtb m 1 then
        (advanceMultiplier,
         warnings ++ [BonusWarning
                        (orDefault (VehiclePreference.reason pref) "Preferred Make")
                        normalizedMake ((m - 1) * 100)])
      else (advanceMultiplier, warnings)
    else st.

Definition applyPreferences (deal : DealInput) (normalizedMake : string)
    (preferences : list VehiclePreference.t) : Q * list VehicleWarning :=
  fold_left (preferenceStep deal normalizedMake) preferences (1, []).

(** [preferences.some(p => ...)] of the theft-risk check: a preference of the
    same make that carries a year range containing the vehicle year. *)
Definition hasTheftPenalty (deal : DealInput) (normalizedMake : string)
    (preferences : list VehiclePreference.t) : bool :=
  existsb (fun p =>
             sameMake (VehiclePreference.make p) normalizedMake &&
             match VehiclePreference.yearRange p with
             | Some r => inYearRange (vehicleYear deal) r
             | None => false
             end) preferences.

Definition isVehicleEligible (currentYear : Z) (deal : DealInput)
    (lender : LenderConfig) : VehicleEligibilityResult.t :=
  let vehicleAge := (currentYear - vehicleYear deal)%Z in
  let normalizedMake := trim (vehicleMake deal) in
  let restrictions := vehicleRestrictions lender in
  let reasons :=
    (if (vehicleAge >? maxAge restrictions)%Z
     then [VehicleTooOld vehicleAge (maxAge restrictions) (name lender)]
     else [])
    ++ (if Qgtb (vehicleMileage deal) (maxMileage restrictions)
        then [MileageTooHigh (vehicleMileage deal) (maxMileage restrictions)
                             (name lender)]
        else [])
    ++ (if existsb (fun excluded => sameMake excluded normalizedMake)
                   (excludedMakes restrictions)
        then [MakeNotEligible normalizedMake (name lender)]
        else []) in
  let preferences := vehiclePreferences lender in
  let '(advanceMultiplier, warnings) :=
    applyPreferences deal normalizedMake preferences in
  let isTheftRiskMake :=
    existsb (fun make => sameMake make normalizedMake) THEFT_RISK_MAKES in
  let isTheftRiskYear :=
    ((THEFT_RISK_YEAR_START <=? vehicleYear deal) &&
     (vehicleYear deal <=? THEFT_RISK_YEAR_END))%Z in
  let '(advanceMultiplier, warnings) :=
    if isTheftRiskMake && isTheftRiskYear then
      if negb (hasTheftPenalty deal normalizedMake preferences)
         && Qeqb advanceMultiplier 1
      then (0.90, warnings ++ [TheftRiskWarning normalizedMake (vehicleYear deal)])
      else (advanceMultiplier, warnings)
    else (advanceMultiplier, warnings) in
  VehicleEligibilityResult.mk
    (Nat.eqb (List.length reasons) 0) reasons advanceMultiplier warnings.

(* ================================================================= *)
(** ** Risk assessment *)

Definition assessRisk (currentYear : Z) (deal : DealInput) : RiskAssessment.t :=
  let vehicleAgeYears := (currentYear - vehicleYear deal)%Z in
  let bookValue :=
    calculateBookValue (vehiclePrice deal) vehicleAgeYears (vehicleMileage deal) in
  let taxableBase := vehiclePrice deal in
  let tax := taxableBase * taxRate deal in
  let baseAmountFinanced := taxableBase + tax + fees deal in
  let totalDown := downPayment deal + tradeAllowance deal - tradePayoff deal in
  let preliminaryAmountFinanced := Math_max (baseAmountFinanced - totalDown) 0 in
  let ltvPercent :=
    if (bookValue >? 0)%Z
    then (preliminaryAmountFinanced / inject_Z bookValue) * 100
    else 0 in
  let isUpsideDown := Qgtb ltvPercent 100 in
  let isOverAge := (vehicleAgeYears >? WARRANTY_AGE_THRESHOLD)%Z in
  let isOverMileage := Qgtb (vehicleMileage deal) WARRANTY_MILEAGE_THRESHOLD in
  let isOutOfWarranty := isOverAge || isOverMileage in
  let outOfWarrantyReason :=
    if isOverAge && isOverMileage then Some reason_both
    else if isOverAge then Some reason_age
    else if isOverMileage then Some reason_mileage
    else None in
  RiskAssessment.mk isUpsideDown ltvPercent isOutOfWarranty outOfWarrantyReason
                    vehicleAgeYears (vehicleMileage deal)
                    isUpsideDown isOutOfWarranty.

(* ================================================================= *)
(** ** Smart note *)

Definition generateSmartNote (hasGap hasVsc : bool)
    (riskAssessment : RiskAssessment.t) (optimizationLevel : OptimizationLevel)
    : list NoteSentence :=
  let upsideDown := RiskAssessment.isUpsideDown riskAssessment in
  let outOfWarranty := RiskAssessment.isOutOfWarranty riskAssessment in
  let age := RiskAssessment.vehicleAgeYears riskAssessment in
  let miles := RiskAssessment.vehicleMileage riskAssessment in
  let notes :=
    match optimizationLevel with
    | optimal =>
        (if hasGap && upsideDown
         then [NoteGapHighLtv (RiskAssessment.ltvPercent riskAssessment)]
         else [])
        ++ (if hasVsc && outOfWarranty then
              match RiskAssessment.outOfWarrantyReason riskAssessment with
              | Some reason_mileage => [NoteVscMileage miles]
              | Some reason_age => [NoteVscAge age]
              | Some reason_both => [NoteVscBoth age miles]
              | None => []
              end
            else [])
        ++ (if hasGap && negb upsideDown then [NoteGapMaxProtection] else [])
        ++ (if hasVsc && negb outOfWarranty then [NoteVscExtendedCoverage] else [])
    | vsc_stripped =>
        [NoteRemovedVsc] ++ (if hasGap then [NoteGapRetained] else [])
    | all_stripped => [NoteProductsRemoved]
    end in
  if Nat.eqb (List.length notes) 0 then
    if negb hasGap && negb hasVsc then [NoteNoProducts] else [NoteOptimalCoverage]
  else notes.

(* ================================================================= *)
(** ** Amount financed, APR *)

Definition computeAmountFinanced (deal : DealInput) (backendTotal : Q) : Q :=
  let taxableBase := vehiclePrice deal in
  let tax := taxableBase * taxRate deal in
  let gross := taxableBase + tax + fees deal + backendTotal in
  let totalDown := downPayment deal + tradeAllowance deal - tradePayoff deal in
  Math_max (gross - totalDown) 0.

Definition findTierRow (lender : LenderConfig) (tier : CreditTier)
    : option LenderTierPricing :=
  find (fun p => CreditTier_eqb (creditTier p) tier) (pricingGrid lender).

Definition pickApr (lender : LenderConfig) (tier : CreditTier) : option Q :=
  match findTierRow lender tier with
  | None => None
  | Some row => Some ((minApr row + maxApr row) / 2)
  end.

(* ================================================================= *)
(** ** Net check and profit *)

Module NetCheck.
Record t := mk {
  netCheckToDealer : Q;
  dealerFrontGross : Q;
  dealerBackEndGross : Q;
  dealerProfit : Q;
  totalDown : Q;
  ltv : Q;
  bookValue : Z
}.
End NetCheck.

(** [Math.min(amountFinanced, maxAdvanceByCost, maxAdvanceByLtv)] *)
Definition calculateFallbackAdvance (deal : DealInput) (tierRow : LenderTierPricing)
    (amountFinanced : Q) (bookValue : Z) (advanceMultiplier : Q) : Q :=
  let baseAdvance :=
    (baseAdvancePercent tierRow / 100) * vehicleCost deal * advanceMultiplier in
  let maxAdvanceByCost :=
    (maxAdvancePercent tierRow / 100) * vehicleCost deal * advanceMultiplier in
  let maxAdvanceByLtv :=
    (maxLtvPercent tierRow / 100) * inject_Z bookValue * advanceMultiplier in
  Math_min (Math_min amountFinanced maxAdvanceByCost) maxAdvanceByLtv.

(** The [switch (advanceConfig.type)] of [estimateNetCheckAndProfit]. *)
Definition grossAdvanceFor (currentYear : Z) (deal : DealInput)
    (lender : LenderConfig) (advanceConfig : LenderAdvanceConfig)
    (amountFinanced advanceMultiplier : Q) : Q :=
  match advanceType advanceConfig with
  | cost_based tierAdvances _ =>
      let tierMultiplier :=
        match tierAdvances with Some t => standard t | None => 1.08 end in
      let costBasedAdvance := vehicleCost deal * tierMultiplier * advanceMultiplier in
      Math_min amountFinanced costBasedAdvance
  | payment_based range =>
      let creditMultiplier :=
        match customerCreditTier deal with
        | deep_subprime => range_min range
        | subprime => (range_min range + range_max range) / 2
        | near_prime => range_max range * 0.95
        | prime => range_max range
        end in
      let paymentBasedAdvance :=
        vehicleCost deal * creditMultiplier * advanceMultiplier in
      Math_min amountFinanced paymentBasedAdvance
  | risk_adjusted baseAdvance range =>
      let riskScore := calculateRiskScore currentYear deal lender in
      let riskAdjustment :=
        range_min range + ((riskScore / 100) * (range_max range - range_min range)) in
      let baseAdvance := match baseAdvance with Some b => b | None => 1.10 end in
      let riskAdjustedMultiplier := baseAdvance + riskAdjustment in
      let riskBasedAdvance :=
        vehicleCost deal * riskAdjustedMultiplier * advanceMultiplier in
      Math_min amountFinanced riskBasedAdvance
  end.

Definition estimateNetCheckAndProfit (currentYear : Z) (deal : DealInput)
    (lender : LenderConfig) (tierRow : LenderTierPricing)
    (amountFinanced backendTotal advanceMultiplier : Q) : NetCheck.t :=
  let vehicleAge := (currentYear - vehicleYear deal)%Z in
  let bookValue :=
    calculateBookValue (vehiclePrice deal) vehicleAge (vehicleMileage deal) in
  let ltv :=
    if (bookValue >? 0)%Z then (amountFinanced / inject_Z bookValue) * 100
    else 999 in
  let grossAdvance :=
    match lookupS (id lender) LENDER_ADVANCE_CONFIGS with
    | Some advanceConfig =>
        let grossAdvance :=
          grossAdvanceFor currentYear deal lender advanceConfig
                          amountFinanced advanceMultiplier in
        let totalFees :=
          docFee advanceConfig + originationFee advanceConfig
          + miscFees advanceConfig in
        let holdback := grossAdvance * holdbackPercent advanceConfig in
        grossAdvance - totalFees - holdback
    | None =>
        let grossAdvance :=
          calculateFallbackAdvance deal tierRow amountFinanced bookValue
                                   advanceMultiplier in
        let lenderFee := (lenderFeePercent lender / 100) * amountFinanced in
        grossAdvance - lenderFee
    end in
  let netCheck := Math_max (grossAdvance - tradePayoff deal) 0 in
  let totalDown := downPayment deal + tradeAllowance deal - tradePayoff deal in
  let frontGross := vehiclePrice deal - vehicleCost deal in
  let backGross := backendTotal in
  let dealerProfit := netCheck + totalDown - vehicleCost deal - fees deal in
  NetCheck.mk netCheck frontGross backGross dealerProfit totalDown ltv bookValue.

(* ================================================================= *)
(** ** The rehash engine *)

(** [buildSmartScenarios], the closure of [runRehash] over [deal],
    [riskAssessment] and [lender]. *)
Definition buildSmartScenarios (deal : DealInput)
    (riskAssessment : RiskAssessment.t) (lender : LenderConfig)
    : list BackendScenario.t :=
  let other := otherProductsTotal (backendProducts deal) in
  let optimalGap :=
    RiskAssessment.recommendGap riskAssessment || gap (backendProducts deal) in
  let optimalVsc :=
    RiskAssessment.recommendVsc riskAssessment || vsc (backendProducts deal) in
  let optimalValue :=
    Math_min ((if optimalGap then GAP_PRICE else 0)
              + (if optimalVsc then VSC_PRICE else 0) + other)
             (maxBackendTotal lender) in
  let scenarios :=
    [BackendScenario.mk "Optimal Coverage" optimalValue optimalGap optimalVsc
                        optimal] in
  let scenarios :=
    if optimalVsc then
      let vscStrippedValue :=
        Math_min ((if optimalGap then GAP_PRICE else 0) + other)
                 (maxBackendTotal lender) in
      scenarios ++ [BackendScenario.mk "GAP Only" vscStrippedValue optimalGap
                                       false vsc_stripped]
    else scenarios in
  scenarios ++ [BackendScenario.mk "No Products" other false false all_stripped].

(** The LTV test inside the search loop. *)
Definition loopLtv (currentYear : Z) (deal : DealInput) (amountFinanced : Q) : Q :=
  let bookValue :=
    calculateBookValue (vehiclePrice deal) (currentYear - vehicleYear deal)%Z
                       (vehicleMileage deal) in
  if (bookValue >? 0)%Z then (amountFinanced / inject_Z bookValue) * 100
  else 999.

(** The body of the innermost [forEach]: at most one candidate is pushed. *)
Definition buildCandidate (currentYear : Z) (deal : DealInput)
    (riskAssessment : RiskAssessment.t) (lender : LenderConfig)
    (eligibility : VehicleEligibilityResult.t) (tierRow : LenderTierPricing)
    (apr : Q) (term : Z) (down : Q) (scenario : BackendScenario.t)
    : option DealCandidate.t :=
  let modifiedDeal := withDownPayment deal down in
  let amountFinanced :=
    computeAmountFinanced modifiedDeal (BackendScenario.value scenario) in
  if Qltb amountFinanced (minAmountFinanced lender)
     || Qgtb amountFinanced (maxAmountFinanced lender) then None
  else
  let backendPct :=
    if Qgtb amountFinanced 0
    then (BackendScenario.value scenario / amountFinanced) * 100
    else 999 in
  if Qgtb backendPct (maxBackendPercentOfAmount lender) then None
  else
  let check := validateDeal lender modifiedDeal amountFinanced in
  if negb (isValid check) then None
  else
  let ltv := loopLtv currentYear deal amountFinanced in
  if Qgtb ltv (maxLtvPercent tierRow) then None
  else
  let payment := calculateMonthlyPayment amountFinanced apr term in
  let est :=
    estimateNetCheckAndProfit currentYear modifiedDeal lender tierRow
      amountFinanced (BackendScenario.value scenario)
      (VehicleEligibilityResult.advanceMultiplier eligibility) in
  let am := VehicleEligibilityResult.advanceMultiplier eligibility in
  let productParts :=
    (if BackendScenario.hasGap scenario then ["GAP"] else [])
    ++ (if BackendScenario.hasVsc scenario then ["VSC"] else []) in
  let ptiResult :=
    evaluatePTI payment (monthlyIncome deal) (customerCreditTier deal) in
  let adjustments :=
    [AdjLenderTermApr (name lender) term apr]
    ++ (if negb (Qeqb down (downPayment deal))
        then [AdjIncreasedDown (downPayment deal) down] else [])
    ++ (if (0 <? List.length productParts)%nat
        then [AdjProducts productParts (BackendScenario.value scenario)]
        else [AdjNoProducts])
    ++ (if negb (Qeqb am 1) then
          if Qltb am 1 then [AdjAdvanceReduced ((1 - am) * 100)]
          else [AdjAdvanceIncreased ((am - 1) * 100)]
        else [])
    ++ (match PtiResult.ptiExceedsLimit ptiResult, PtiResult.ptiWarning ptiResult with
        | true, Some w => [AdjPtiWarning w]
        | _, _ => []
        end) in
  let smartNote :=
    generateSmartNote (BackendScenario.hasGap scenario)
                      (BackendScenario.hasVsc scenario) riskAssessment
                      (BackendScenario.optimizationLevel scenario)
    ++ map NoteVehicleWarning (VehicleEligibilityResult.warnings eligibility) in
  Some (DealCandidate.mk
          (id lender) (name lender) term apr amountFinanced payment
          (NetCheck.netCheckToDealer est) (NetCheck.dealerFrontGross est)
          (NetCheck.dealerBackEndGross est) (NetCheck.dealerProfit est)
          (NetCheck.totalDown est) (BackendScenario.value scenario)
          (NetCheck.ltv est) true (constraint_reasons check) adjustments
          (BackendScenario.hasGap scenario) (BackendScenario.hasVsc scenario)
          smartNote (Some riskAssessment)
          (BackendScenario.optimizationLevel scenario)
          (VehicleEligibilityResult.warnings eligibility) am
          (PtiResult.ptiPercent ptiResult) (PtiResult.ptiWarning ptiResult)
          (PtiResult.ptiExceedsLimit ptiResult)
          (PtiResult.requiredIncome ptiResult)).

Definition optionToList {A : Type} (o : option A) : list A :=
  match o with Some a => [a] | None => [] end.

(** The body of [activeLenders.forEach]: the candidates one lender pushes, in
    the order of the three nested [forEach] loops. *)
Definition lenderCandidates (currentYear : Z) (deal : DealInput)
    (riskAssessment : RiskAssessment.t) (lender : LenderConfig)
    : list DealCandidate.t :=
  let eligibility := isVehicleEligible currentYear deal lender in
  if negb (VehicleEligibilityResult.isEligible eligibility) then []
  else
  let vehicleAge := (currentYear - vehicleYear deal)%Z in
  if (vehicleAge >? maxVehicleAgeYears lender)%Z then []
  else if Qgtb (vehicleMileage deal) (maxMiles lender) then []
  else
  match findTierRow lender (customerCreditTier deal) with
  | None => []
  | Some tierRow =>
      match pickApr lender (customerCreditTier deal) with
      | None => []
      | Some apr =>
          let terms := allowedTerms lender in
          let backendScenarios := buildSmartScenarios deal riskAssessment lender in
          let downOptions :=
            [downPayment deal; downPayment deal + 500; downPayment deal + 1000] in
          flat_map (fun term =>
            flat_map (fun down =>
              flat_map (fun scenario =>
                optionToList
                  (buildCandidate currentYear deal riskAssessment lender
                                  eligibility tierRow apr term down scenario))
                backendScenarios)
              downOptions)
            terms
      end
  end.

(** The candidates pushed before selection and ranking. *)
Definition generateCandidates (currentYear : Z) (deal : DealInput)
    (lenders : list LenderConfig) : list DealCandidate.t :=
  let riskAssessment := assessRisk currentYear deal in
  let activeLenders := filter active lenders in
  flat_map (lenderCandidates currentYear deal riskAssessment) activeLenders.

(** [Array.prototype.sort(compareFn)]: [compareFn a b > 0] puts [b] first,
    otherwise the earlier element stays first (stability). *)
Fixpoint sortInsert {A : Type} (compareFn : A -> A -> Q) (x : A) (l : list A)
    : list A :=
  match l with
  | [] => [x]
  | y :: l' =>
      if Qgtb (compareFn x y) 0 then y :: sortInsert compareFn x l'
      else x :: l
  end.

Definition Array_sort {A : Type} (compareFn : A -> A -> Q) (l : list A) : list A :=
  fold_right (sortInsert compareFn) [] l.

(** The comparator handed to [pool.sort]. *)
Definition compareCandidates (deal : DealInput) (a b : DealCandidate.t) : Q :=
  if negb (Qeqb (DealCandidate.netCheckToDealer b) (DealCandidate.netCheckToDealer a))
  then DealCandidate.netCheckToDealer b - DealCandidate.netCheckToDealer a
  else
    let aGap := Math_abs (DealCandidate.payment a - targetPayment deal) in
    let bGap := Math_abs (DealCandidate.payment b - targetPayment deal) in
    aGap - bGap.

Definition withinPaymentWindow (deal : DealInput) (c : DealCandidate.t) : bool :=
  let targetLow := targetPayment deal - paymentTolerance deal in
  let targetHigh := targetPayment deal + paymentTolerance deal in
  Qgeb (DealCandidate.payment c) targetLow
  && Qleb (DealCandidate.payment c) targetHigh.

(** The pool that is ranked: the window if it holds a candidate, else all. *)
Definition selectPool (deal : DealInput) (candidates : list DealCandidate.t)
    : list DealCandidate.t :=
  let withinPayment := filter (withinPaymentWindow deal) candidates in
  if (0 <? List.length withinPayment)%nat then withinPayment else candidates.

Definition runRehash (currentYear : Z) (deal : DealInput)
    (lenders : list LenderConfig) : RehashResult.t :=
  let riskAssessment := assessRisk currentYear deal in
  let candidates := generateCandidates currentYear deal lenders in
  let pool := selectPool deal candidates in
  let sorted := Array_sort (compareCandidates deal) pool in
  let bestDeal :=
    if (0 <? List.length sorted)%nat then nth_error sorted 0 else None in
  RehashResult.mk bestDeal sorted riskAssessment.

(* ================================================================= *)
(** ** Compliance filter ([shared/bankFirstTriage.ts]) *)

Record BankRules := {
  ltvCap : Q;
  mandatoryVsc : bool;
  mandatoryGap : bool;
  maxPaymentToIncome : option Q
}.

Inductive Violation :=
| LtvExceedsCap (ltv cap : Q)
| MandatoryVscMissing
| MandatoryGapMissing
| PtiExceedsLimit (ptiPercent ptiLimit : Q).

(** A number used as a condition: [undefined], [null] and 0 are falsy. *)
Definition truthy (x : option Q) : option Q :=
  match x with
  | Some v => if Qeqb v 0 then None else Some v
  | None => None
  end.

(** The violations collected for one deal by the loop body. *)
Definition dealViolations (rules : BankRules) (deal : DealCandidate.t)
    : list Violation :=
  (if Qgtb (DealCandidate.ltv deal) (ltvCap rules)
   then [LtvExceedsCap (DealCandidate.ltv deal) (ltvCap rules)] else [])
  ++ (if mandatoryVsc rules && negb (DealCandidate.hasVsc deal)
      then [MandatoryVscMissing] else [])
  ++ (if mandatoryGap rules && negb (DealCandidate.hasGap deal)
      then [MandatoryGapMissing] else [])
  ++ (match truthy (maxPaymentToIncome rules), truthy (DealCandidate.ptiPercent deal) with
      | Some maxPti, Some pti =>
          let ptiLimit := maxPti * 100 in
          if Qgtb pti ptiLimit then [PtiExceedsLimit pti ptiLimit] else []
      | _, _ => []
      end).

Module ComplianceResult.
Record t := mk {
  validDeals : list DealCandidate.t;
  rejectedDeals : list (DealCandidate.t * list Violation)
}.
End ComplianceResult.

Definition complianceStep (rules : BankRules) (acc : ComplianceResult.t)
    (deal : DealCandidate.t) : ComplianceResult.t :=
  let violations := dealViolations rules deal in
  if Nat.eqb (List.length violations) 0 then
    ComplianceResult.mk (ComplianceResult.validDeals acc ++ [deal])
                        (ComplianceResult.rejectedDeals acc)
  else
    ComplianceResult.mk (ComplianceResult.validDeals acc)
                        (ComplianceResult.rejectedDeals acc ++ [(deal, violations)]).

Definition filterCompliantDeals (deals : list DealCandidate.t) (rules : BankRules)
    : ComplianceResult.t :=
  fold_left (complianceStep rules) deals (ComplianceResult.mk [] []).

Definition ltvCaps : list (string * Q) :=
  [("prime", 130); ("near_prime", 125); ("subprime", 120); ("deep_subprime", 115)].

Definition ptiLimits : list (string * Q) :=
  [("prime", 0.12); ("near_prime", 0.15); ("subprime", 0.18);
   ("deep_subprime", 0.25)].

Definition determineBankRules (vehicleMileage ltvPercent : Q) (creditTier : string)
    : BankRules :=
  let HIGH_MILEAGE_THRESHOLD := 100000 in
  let HIGH_LTV_THRESHOLD := 110 in
  {| ltvCap := match truthy (lookupS creditTier ltvCaps) with
               | Some cap => cap
               | None => 120
               end;
     mandatoryVsc := Qgtb vehicleMileage HIGH_MILEAGE_THRESHOLD;
     mandatoryGap := Qgtb ltvPercent HIGH_LTV_THRESHOLD;
     maxPaymentToIncome := lookupS creditTier ptiLimits |}.

(* ================================================================= *)
(** ** The shipped lender configurations ([LENDERS]) *)

Definition tierPricing (tier : CreditTier)
    (minApr maxApr minDownPct baseAdvance maxAdvance maxLtv : Q)
    : LenderTierPricing :=
  {| creditTier := tier; minApr := minApr; maxApr := maxApr;
     minDownPct := minDownPct; baseAdvancePercent := baseAdvance;
     maxAdvancePercent := maxAdvance; maxLtvPercent := maxLtv |}.

(** A preference for every model year, and one with a [yearRange]. *)
Definition preference (make : string) (multiplier : Q) (reason : string)
    : VehiclePreference.t :=
  VehiclePreference.mk make multiplier (Some reason) None.

Definition preferenceYears (make : string) (multiplier : Q) (reason : string)
    (first last : Z) : VehiclePreference.t :=
  VehiclePreference.mk make multiplier (Some reason)
    (Some {| range_start := first; range_end := last |}).

Definition constraintResult (reasons : list string) : DealConstraintsResult :=
  {| isValid := Nat.eqb (List.length reasons) 0; constraint_reasons := reasons |}.

Definition westlake : LenderConfig :=
  {| id := "westlake";
     name := "Westlake Financial";
     active := true;
     allowedTerms := [36; 48; 60; 72]%Z;
     minAmountFinanced := 5000;
     maxAmountFinanced := 45000;
     maxBackendTotal := 3500;
     maxBackendPercentOfAmount := 25;
     maxVehicleAgeYears := 20;
     maxMiles := 180000;
     lenderFeePercent := 3.0;
     pricingGrid :=
       [ tierPricing deep_subprime 22 27 0.1 115 145 145;
         tierPricing subprime 18 23 0.1 115 140 140;
         tierPricing near_prime 12 18 0.05 110 130 130;
         tierPricing prime 8 12 0.0 105 120 120 ];
     vehicleRestrictions :=
       {| maxAge := 20; maxMileage := 180000;
          excludedMakes := ["Daewoo"; "Ferrari"] |};
     vehiclePreferences :=
       [ preference "Toyota" 1.03 "Preferred Make Bonus";
         preference "Honda" 1.08 "Preferred Make Bonus";
         preference "Subaru" 1.05 "Reliability Bonus";
         preference "Lexus" 1.08 "Luxury Preferred";
         preference "Acura" 1.06 "Luxury Preferred";
         preferenceYears "Kia" 0.90 "Theft Risk Penalty" 2011 2021;
         preferenceYears "Hyundai" 0.90 "Theft Risk Penalty" 2011 2021;
         preference "Nissan" 0.88 "CVT Risk";
         preference "Dodge" 0.85 "Depreciation Risk";
         preference "Jeep" 0.88 "Reliability Risk";
         preferenceYears "Ford" 0.85 "Focus/Fiesta Transmission Risk" 2012 2018;
         preference "Chevrolet" 0.90 "Cruze Risk";
         preference "BMW" 0.85 "Luxury Maintenance Risk";
         preference "Mercedes" 0.85 "Luxury Maintenance Risk" ];
     validateDeal := fun deal amountFinanced =>
       constraintResult
         ((if Qltb amountFinanced 5000
           then ["Below Westlake minimum amount financed ($5,000)"] else [])
          ++ (if Qgtb amountFinanced 45000
              then ["Above Westlake maximum amount financed ($45,000)"] else [])
          ++ (if Qltb (downPayment deal) (vehiclePrice deal * 0.05)
              then ["Down payment below 5% minimum for Westlake"] else [])) |}.

Definition western_funding : LenderConfig :=
  {| id := "western_funding";
     name := "Western Funding";
     active := true;
     allowedTerms := [48; 60; 72; 84]%Z;
     minAmountFinanced := 4000;
     maxAmountFinanced := 40000;
     maxBackendTotal := 4000;
     maxBackendPercentOfAmount := 30;
     maxVehicleAgeYears := 15;
     maxMiles := 180000;
     lenderFeePercent := 2.5;
     pricingGrid :=
       [ tierPricing deep_subprime 24 29 0.08 120 150 150;
         tierPricing subprime 20 25 0.08 115 145 145;
         tierPricing near_prime 14 20 0.05 110 135 135;
         tierPricing prime 9 14 0.0 105 125 125 ];
     vehicleRestrictions :=
       {| maxAge := 15; maxMileage := 180000;
          excludedMakes := ["Land Rover"; "Jaguar"; "Saab"; "Suzuki"] |};
     vehiclePreferences :=
       [ preference "Toyota" 1.06 "Preferred Make Bonus";
         preference "Honda" 1.05 "Preferred Make Bonus";
         preference "Subaru" 1.04 "Preferred Make Bonus";
         preference "Lexus" 1.06 "Luxury Preferred Make";
         preferenceYears "Kia" 0.88 "High Theft Risk Penalty" 2011 2021;
         preferenceYears "Hyundai" 0.88 "High Theft Risk Penalty" 2011 2021;
         preference "Nissan" 0.90 "CVT Reliability Risk";
         preference "Dodge" 0.90 "High Depreciation Risk";
         preference "Chrysler" 0.88 "Reliability Risk" ];
     validateDeal := fun deal amountFinanced =>
       constraintResult
         ((if Qltb amountFinanced 4000
           then ["Below Western Funding minimum amount financed ($4,000)"] else [])
          ++ (if Qgtb amountFinanced 40000
              then ["Above Western Funding maximum amount financed ($40,000)"]
              else [])) |}.

Definition uac : LenderConfig :=
  {| id := "uac";
     name := "United Auto Credit";
     active := true;
     allowedTerms := [36; 48; 60; 72]%Z;
     minAmountFinanced := 5000;
     maxAmountFinanced := 50000;
     maxBackendTotal := 3000;
     maxBackendPercentOfAmount := 20;
     maxVehicleAgeYears := 15;
     maxMiles := 150000;
     lenderFeePercent := 2.0;
     pricingGrid :=
       [ tierPricing deep_subprime 23 28 0.1 115 140 140;
         tierPricing subprime 19 24 0.1 112 135 135;
         tierPricing near_prime 14 20 0.05 108 125 125;
         tierPricing prime 9 14 0.0 105 120 120 ];
     vehicleRestrictions :=
       {| maxAge := 15; maxMileage := 150000; excludedMakes := ["Land Rover"] |};
     vehiclePreferences :=
       [ preference "Toyota" 1.05 "Preferred Make Bonus";
         preference "Honda" 1.05 "Preferred Make Bonus";
         preference "Subaru" 1.08 "High Reliability Bonus";
         preference "Lexus" 1.10 "Luxury Low-Mile Bonus";
         preference "Acura" 1.10 "Luxury Low-Mile Bonus";
         preference "Mazda" 1.02 "Reliability Bonus";
         preferenceYears "Kia" 0.85 "Theft Risk Penalty" 2011 2022;
         preferenceYears "Hyundai" 0.85 "Theft Risk Penalty" 2011 2022;
         preference "Nissan" 0.90 "CVT Transmission Risk";
         preference "Dodge" 0.88 "Depreciation Risk";
         preference "Jeep" 0.88 "Reliability Risk";
         preference "Ford" 0.90 "Model-Specific Risk";
         preference "BMW" 0.88 "Luxury Maintenance Risk";
         preference "Mercedes" 0.88 "Luxury Maintenance Risk";
         preference "Audi" 0.85 "Luxury Maintenance Risk";
         preference "Volkswagen" 0.90 "Reliability Risk";
         preference "Mitsubishi" 0.85 "Depreciation Risk" ];
     validateDeal := fun deal amountFinanced =>
       constraintResult
         ((if Qltb (downPayment deal) 500
           then ["UAC requires at least $500 down payment"] else [])
          ++ (if Qltb amountFinanced 5000
              then ["Below UAC minimum amount financed ($5,000)"] else [])
          ++ (if Qgtb amountFinanced 50000
              then ["Above UAC maximum amount financed ($50,000)"] else [])) |}.

Definition LENDERS : list LenderConfig := [westlake; western_funding; uac].

(* ================================================================= *)
(** ** Sample inputs *)

(** The deal of the specification's worked example; the make is not given
    there and is supplied by [sampleDealOf]. *)
Definition sampleDealOf (make : string) (year : Z) : DealInput :=
  {| vehicleId := "stock-1";
     vehicleYear := year;
     vehicleMake := make;
     vehicleMileage := 45000;
     vehiclePrice := 18995;
     vehicleCost := 17000;
     taxRate := 0.09;
     fees := 799;
     downPayment := 3000;
     tradeAllowance := 5000;
     tradePayoff := 3000;
     backendProducts := {| gap := false; vsc := false; otherProductsTotal := 0 |};
     customerCreditTier := subprime;
     targetPayment := 450;
     paymentTolerance := 50;
     preferredTermMonths := None;
     monthlyIncome := None |}.

(** A lender with the given vehicle preferences and no other restriction. *)
Definition lenderWith (preferences : list VehiclePreference.t) : LenderConfig :=
  {| id := "test";
     name := "Test Lender";
     active := true;
     allowedTerms := [60]%Z;
     minAmountFinanced := 0;
     maxAmountFinanced := 100000;
     maxBackendTotal := 5000;
     maxBackendPercentOfAmount := 100;
     maxVehicleAgeYears := 30;
     maxMiles := 300000;
     lenderFeePercent := 0;
     pricingGrid := [ tierPricing subprime 18 23 0.1 115 140 140 ];
     vehicleRestrictions :=
       {| maxAge := 30; maxMileage := 300000; excludedMakes := [] |};
     vehiclePreferences := preferences;
     validateDeal := fun _ _ => constraintResult [] |}.

(** A nearly new vehicle, for which the shipped lenders return candidates. *)
Definition lateModelDeal (make : string) : DealInput :=
  {| vehicleId := "stock-2";
     vehicleYear := 2024;
     vehicleMake := make;
     vehicleMileage := 10000;
     vehiclePrice := 20000;
     vehicleCost := 17000;
     taxRate := 0.09;
     fees := 799;
     downPayment := 3000;
     tradeAllowance := 5000;
     tradePayoff := 3000;
     backendProducts := {| gap := false; vsc := false; otherProductsTotal := 0 |};
     customerCreditTier := subprime;
     targetPayment := 450;
     paymentTolerance := 50;
     preferredTermMonths := None;
     monthlyIncome := Some 4000 |}.

(* ================================================================= *)
(** ** The specification's wording, as definitions *)

(** Age factor as the specification gives it: ages 0 to 10 are explicit and
    older vehicles use the factor of age 10. *)
Definition specAgeFactor (age : Z) : Q :=
  if (age =? 0)%Z then 1.00
  else if (age =? 1)%Z then 0.85
  else if (age =? 2)%Z then 0.78
  else if (age =? 3)%Z then 0.72
  else if (age =? 4)%Z then 0.66
  else if (age =? 5)%Z then 0.60
  else if (age =? 6)%Z then 0.55
  else if (age =? 7)%Z then 0.50
  else if (age =? 8)%Z then 0.46
  else if (age =? 9)%Z then 0.42
  else 0.38.

(** Mileage factor as the specification gives it: brackets of 30,000 miles
    from 1.00 down to 0.75 at 150,000 to 180,000, and 0.70 above. *)
Definition specMileageFactor (mileage : Q) : Q :=
  if Qleb mileage 30000 then 1.00
  else if Qleb mileage 60000 then 0.95
  else if Qleb mileage 90000 then 0.90
  else if Qleb mileage 120000 then 0.85
  else if Qleb mileage 150000 then 0.80
  else if Qleb mileage 180000 then 0.75
  else 0.70.

(** [x] floored at 0. *)
Definition flooredAtZero (x : Q) : Q := if Qltb x 0 then 0 else x.

(** A preference applies to a deal when its make equals the deal's make
    without regard to case (the check first strips surrounding white space
    from the deal's make) and its year range, if it has one, contains the
    vehicle year, both ends included. *)
Definition preferenceApplies (deal : DealInput) (p : VehiclePreference.t) : bool :=
  sameMake (VehiclePreference.make p) (trim (vehicleMake deal))
  && match VehiclePreference.yearRange p with
     | Some r => inYearRange (vehicleYear deal) r
     | None => true
     end.

(** The least element of a list of multipliers, if it has one. *)
Fixpoint minimumOf (l : list Q) : option Q :=
  match l with
  | [] => None
  | x :: r =>
      match minimumOf r with
      | None => Some x
      | Some m => Some (Qmin x m)
      end
  end.

(** The minimum multiplier among the applicable preferences, 1.0 if none. *)
Definition minimumApplicableMultiplier (deal : DealInput) (lender : LenderConfig)
    : Q :=
  match minimumOf (map VehiclePreference.multiplier
                       (filter (preferenceApplies deal) (vehiclePreferences lender)))
  with
  | Some m => m
  | None => 1
  end.

(** The make is Kia or Hyundai, case ignored. *)
Definition isTheftRiskMake (make : string) : Prop :=
  toLowerCase make = toLowerCase "Kia" \/ toLowerCase make = toLowerCase "Hyundai".

Definition isTheftRiskYear (year : Z) : Prop := (2011 <= year <= 2021)%Z.

(** A preference of the same make whose year range covers the vehicle year. *)
Definition coversYear (deal : DealInput) (p : VehiclePreference.t) : Prop :=
  toLowerCase (VehiclePreference.make p) = toLowerCase (trim (vehicleMake deal))
  /\ exists r, VehiclePreference.yearRange p = Some r
               /\ (range_start r <= vehicleYear deal <= range_end r)%Z.



(** Ranking order: larger net check first; on equal net check the payment
    closer to the target first. *)
Definition rankedBefore (deal : DealInput) (a b : DealCandidate.t) : Prop :=
  DealCandidate.netCheckToDealer b < DealCandidate.netCheckToDealer a
  \/ (DealCandidate.netCheckToDealer a == DealCandidate.netCheckToDealer b
      /\ Qabs (DealCandidate.payment a - targetPayment deal)
         <= Qabs (DealCandidate.payment b - targetPayment deal)).

(** The payment lies in the window around the target. *)
Definition paymentInWindow (deal : DealInput) (c : DealCandidate.t) : Prop :=
  targetPayment deal - paymentTolerance deal <= DealCandidate.payment c
  /\ DealCandidate.payment c <= targetPayment deal + paymentTolerance deal.

(** The warning one applicable preference contributes: a penalty line below
    1.0, a bonus line above, nothing at exactly 1.0. *)
Definition preferenceWarnings (deal : DealInput) (p : VehiclePreference.t)
    : list VehicleWarning :=
  let m := VehiclePreference.multiplier p in
  if Qltb m 1 then
    [PenaltyWarning (orDefault (VehiclePreference.reason p) "Risk Adjustment")
                    (trim (vehicleMake deal)) (vehicleYear deal) ((1 - m) * 100)]
  else if Qgtb m 1 then
    [BonusWarning (orDefault (VehiclePreference.reason p) "Preferred Make")
                  (trim (vehicleMake deal)) ((m - 1) * 100)]
  else [].


(** The theft-risk rule fires: Kia or Hyundai, model year 2011 to 2021, no
    preference of that make with a year range covering the year, and the
    preferences left the multiplier at 1.0. *)
Definition theftRuleApplies (deal : DealInput) (lender : LenderConfig) : Prop :=
  isTheftRiskMake (trim (vehicleMake deal))
  /\ isTheftRiskYear (vehicleYear deal)
  /\ ~ (exists p, In p (vehiclePreferences lender) /\ coversYear deal p)
  /\ minimumApplicableMultiplier deal lender == 1.

(** The string that names a credit tier in [CreditTier]. *)
Definition tierName (tier : CreditTier) : string :=
  match tier with
  | deep_subprime => "deep_subprime"
  | subprime => "subprime"
  | near_prime => "near_prime"
  | prime => "prime"
  end.

(** The LTV cap of each credit tier in the compliance table. *)
Definition specLtvCap (tier : CreditTier) : Q :=
  match tier with
  | prime => 130
  | near_prime => 125
  | subprime => 120
  | deep_subprime => 115
  end.

(** A candidate passes the compliance filter: no violation was collected. *)
Definition isCompliant (rules : BankRules) (c : DealCandidate.t) : bool :=
  Nat.eqb (List.length (dealViolations rules c)) 0.

(** A one-dollar vehicle, fifteen years old in 2025 with 200,000 miles: its
    book value rounds to 0. *)
Definition worthlessVehicleDeal : DealInput :=
  {| vehicleId := "stock-3";
     vehicleYear := 2010;
     vehicleMake := "Saturn";
     vehicleMileage := 200000;
     vehiclePrice := 1;
     vehicleCost := 1;
     taxRate := 0.09;
     fees := 799;
     downPayment := 0;
     tradeAllowance := 0;
     tradePayoff := 0;
     backendProducts := {| gap := false; vsc := false; otherProductsTotal := 0 |};
     customerCreditTier := subprime;
     targetPayment := 100;
     paymentTolerance := 50;
     preferredTermMonths := None;
     monthlyIncome := None |}.

(** A candidate with the given LTV and product flags, for the compliance
    filter. *)
Definition candidateWith (ltv : Q) (hasGap hasVsc : bool) : DealCandidate.t :=
  DealCandidate.mk "westlake" "Westlake Financial" 60 20.5 16000 428 15000
    1995 0 1000 5000 0 ltv true [] [] hasGap hasVsc [] None all_stripped []
    1 None None false None.

(* ================================================================= *)
(** ** The inputs on which the strings and tables above are JavaScript's *)

(** Every character of the string is an ASCII character.  On such strings
    [trim] and [toLowerCase] above are those of JavaScript; beyond ASCII,
    JavaScript strips further white space (U+00A0, U+2028, U+FEFF, ...) and
    pairs further letters (U+212A with k), which this file does not model. *)
Definition isAsciiText (s : string) : bool :=
  forallb (fun c => (N_of_ascii c <? 128)%N) (list_ascii_of_string s).

(** The property names an object literal inherits from [Object.prototype]:
    [table[key]] with one of them finds the inherited member, where [lookupS]
    finds nothing. *)
Definition objectPrototypeKeys : list string :=
  ["constructor"; "__defineGetter__"; "__defineSetter__"; "hasOwnProperty";
   "__lookupGetter__"; "__lookupSetter__"; "isPrototypeOf";
   "propertyIsEnumerable"; "toString"; "valueOf"; "__proto__";
   "toLocaleString"].

(* ================================================================= *)
(** ** The book value in binary64 arithmetic

    [calculateBookValue] once more, with its [number]s as the IEEE 754
    binary64 values JavaScript computes with: every literal is the double
    nearest to it, every product is rounded to nearest (ties to even), and
    [Math.round] is exact.  The arithmetic is the one [SpecFloat] specifies
    (precision 53, exponents up to 1024), NaN, the infinities and the signed
    zeros included.  The vehicle age stays an integer, as above. *)

Module Binary64.

Definition prec : Z := 53.
Definition emax : Z := 1024.

Definition number : Type := spec_float.

(** The double that holds the integer [n] (exactly, up to 2^53). *)
Definition ofZ (n : Z) : number := binary_normalize prec emax n 0 false.

(** The literal [digits] / 10^[places]: the double nearest to it. *)
Definition decimal (digits places : Z) : number :=
  SFdiv prec emax (ofZ digits) (ofZ (10 ^ places)).

(** [x * y] *)
Definition mul (x y : number) : number := SFmul prec emax x y.

(** [x <= y]; false when either side is NaN. *)
Definition leb (x y : number) : bool := SFleb x y.

(** [x < 0] *)
Definition isNegative (x : number) : bool := SFltb x (S754_zero false).

(** The number is an integer (an "integral Number"). *)
Definition isIntegral (x : number) : bool :=
  match x with
  | S754_zero _ => true
  | S754_finite _ m e => ((0 <=? e) || (Z.pos m mod 2 ^ (- e) =? 0))%Z
  | _ => false
  end.

(** [Math.round(x)]: NaN, the infinities and integers are returned as they
    are; otherwise the nearest integer, the larger one on a tie, computed
    exactly as floor(x + 1/2); a result of zero keeps the sign of [x]. *)
Definition Math_round (x : number) : number :=
  match x with
  | S754_finite s m e =>
      if isIntegral x then x
      else
        let twice := (2 * (if s then Z.neg m else Z.pos m) + 2 ^ (- e))%Z in
        match Z.shiftr twice (- e + 1) with
        | Z0 => S754_zero s
        | n => ofZ n
        end
  | _ => x
  end.

Definition DEPRECIATION_SCHEDULE : list (Z * number) :=
  [ (0%Z, decimal 100 2); (1%Z, decimal 85 2); (2%Z, decimal 78 2);
    (3%Z, decimal 72 2); (4%Z, decimal 66 2); (5%Z, decimal 60 2);
    (6%Z, decimal 55 2); (7%Z, decimal 50 2); (8%Z, decimal 46 2);
    (9%Z, decimal 42 2); (10%Z, decimal 38 2) ].

Record MileageBracket := { maxMiles : number; factor : number }.

Definition MILEAGE_DEPRECIATION_BRACKETS : list MileageBracket :=
  [ {| maxMiles := ofZ 30000; factor := decimal 100 2 |};
    {| maxMiles := ofZ 60000; factor := decimal 95 2 |};
    {| maxMiles := ofZ 90000; factor := decimal 90 2 |};
    {| maxMiles := ofZ 120000; factor := decimal 85 2 |};
    {| maxMiles := ofZ 150000; factor := decimal 80 2 |};
    {| maxMiles := ofZ 180000; factor := decimal 75 2 |} ].

(** [DEPRECIATION_SCHEDULE[key]] *)
Fixpoint lookup (key : Z) (table : list (Z * number)) : option number :=
  match table with
  | [] => None
  | (k, v) :: rest => if (k =? key)%Z then Some v else lookup key rest
  end.

Definition calculateBookValue (retailPrice : number) (vehicleAge : Z)
    (mileage : number) : number :=
  let ageYears := Z.min vehicleAge 10 in
  let ageFactor :=
    match lookup ageYears DEPRECIATION_SCHEDULE with
    | Some f => f
    | None => decimal 35 2
    end in
  let mileageBracket :=
    find (fun b => leb mileage (maxMiles b)) MILEAGE_DEPRECIATION_BRACKETS in
  let mileageFactor :=
    match mileageBracket with
    | Some b => factor b
    | None => decimal 70 2
    end in
  let bookValue := mul (mul retailPrice ageFactor) mileageFactor in
  Math_round bookValue.

(** The age factor as the specification gives it. *)
Definition specAgeFactor (age : Z) : number :=
  if (age =? 0)%Z then decimal 100 2
  else if (age =? 1)%Z then decimal 85 2
  else if (age =? 2)%Z then decimal 78 2
  else if (age =? 3)%Z then decimal 72 2
  else if (age =? 4)%Z then decimal 66 2
  else if (age =? 5)%Z then decimal 60 2
  else if (age =? 6)%Z then decimal 55 2
  else if (age =? 7)%Z then decimal 50 2
  else if (age =? 8)%Z then decimal 46 2
  else if (age =? 9)%Z then decimal 42 2
  else decimal 38 2.

(** The mileage factor as the specification gives it. *)
Definition specMileageFactor (mileage : number) : number :=
  if leb mileage (ofZ 30000) then decimal 100 2
  else if leb mileage (ofZ 60000) then decimal 95 2
  else if leb mileage (ofZ 90000) then decimal 90 2
  else if leb mileage (ofZ 120000) then decimal 85 2
  else if leb mileage (ofZ 150000) then decimal 80 2
  else if leb mileage (ofZ 180000) then decimal 75 2
  else decimal 70 2.

End Binary64.

(** A number whose sign bit is clear, a zero of either sign, or NaN. *)
Definition signClear (x : Binary64.number) : bool :=
  match x with
  | S754_infinity s | S754_finite s _ _ => negb s
  | _ => true
  end.

(* ================================================================= *)
(** ** The triage hook ([client/src/hooks/useBankFirstTriage.ts])

    The bodies of the hook's [useMemo] calls and the deterministic fallback
    of its [catch] branch, as functions of the values they read. *)

Inductive TriageMode := mode_profit | mode_survival.

(** The [reason] templates of the fallback with the payment they quote. *)
Inductive TriageReason :=
| ReasonWithinTarget (payment : Q)
| ReasonLowestPayment (payment : Q).

Module TriageResponse.
Record t := mk {
  mode : TriageMode;
  bestDealId : string;
  reason : TriageReason;
  badge : string
}.
End TriageResponse.

(** [`${n}`] for an integer. *)
Definition numberText (n : Z) : string := NilZero.string_of_int (Z.to_int n).

(** [s.split(sep)] for a one-character separator: the piece before the first
    separator and the pieces after it. *)
Fixpoint splitPieces (sep : ascii) (s : string) : string * list string :=
  match s with
  | EmptyString => (EmptyString, [])
  | String c r =>
      let '(h, t) := splitPieces sep r in
      if Ascii.eqb c sep then (EmptyString, h :: t) else (String c h, t)
  end.

Definition split (sep : ascii) (s : string) : list string :=
  let '(h, t) := splitPieces sep s in h :: t.

Definition digitValue (c : ascii) : option Z :=
  let n := N_of_ascii c in
  if ((48 <=? n) && (n <=? 57))%N then Some (Z.of_N n - 48)%Z else None.

(** The value of the longest prefix of decimal digits, if there is a digit. *)
Fixpoint digitsPrefix (s : string) (acc : option Z) : option Z :=
  match s with
  | EmptyString => acc
  | String c r =>
      match digitValue c with
      | Some d =>
          digitsPrefix r (Some (10 * match acc with Some a => a | None => 0 end
                                + d)%Z)
      | None => acc
      end
  end.

(** [parseInt(s, 10)]; [None] stands for NaN. *)
Definition parseInt (s : string) : option Z :=
  match trimStart s with
  | String "-"%char r => option_map Z.opp (digitsPrefix r None)
  | String "+"%char r => digitsPrefix r None
  | r => digitsPrefix r None
  end.

(** The [bankRules] memo. *)
Definition triageBankRules (vehicleMileage : Q) (creditTier : string)
    (riskAssessment : option RiskAssessment.t) : option BankRules :=
  match riskAssessment with
  | None => None
  | Some ra =>
      Some (determineBankRules vehicleMileage (RiskAssessment.ltvPercent ra)
                               creditTier)
  end.

(** The memo that yields [validDeals] and [rejectedCount]. *)
Definition triagePhase1 (allCandidates : list DealCandidate.t)
    (bankRules : option BankRules) : list DealCandidate.t * nat :=
  match bankRules with
  | None => (allCandidates, 0%nat)
  | Some rules =>
      if Nat.eqb (List.length allCandidates) 0 then (allCandidates, 0%nat)
      else
        let result := filterCompliantDeals allCandidates rules in
        (ComplianceResult.validDeals result,
         List.length (ComplianceResult.rejectedDeals result))
  end.

(** The [mandatoryProducts] memo. *)
Definition mandatoryProducts (bankRules : option BankRules) : list string :=
  match bankRules with
  | None => []
  | Some rules =>
      (if mandatoryVsc rules then ["VSC"] else [])
      ++ (if mandatoryGap rules then ["GAP"] else [])
  end.

(** The fallback of the [catch] branch; [None] stands for the [TypeError] of
    reading [sorted[0]] of an empty list, which the effect's guard on
    [validDeals.length] excludes. *)
Definition fallbackTriage (validDeals : list DealCandidate.t) (targetPayment : Q)
    : option TriageResponse.t :=
  let closeThreshold := targetPayment * 1.1 in
  let closeDeals :=
    filter (fun d => Qleb (DealCandidate.payment d) closeThreshold) validDeals in
  if (0 <? List.length closeDeals)%nat then
    let sorted :=
      Array_sort (fun a b => DealCandidate.netCheckToDealer b
                             - DealCandidate.netCheckToDealer a) closeDeals in
    match nth_error sorted 0 with
    | Some first =>
        Some (TriageResponse.mk mode_profit
                ("deal-0-" ++ DealCandidate.lenderId first ++ "-"
                 ++ numberText (DealCandidate.termMonths first))
                (ReasonWithinTarget (DealCandidate.payment first))
                "💰 Max Profit")
    | None => None
    end
  else
    let sorted :=
      Array_sort (fun a b => DealCandidate.payment a - DealCandidate.payment b)
                 validDeals in
    match nth_error sorted 0 with
    | Some first =>
        Some (TriageResponse.mk mode_survival
                ("deal-0-" ++ DealCandidate.lenderId first ++ "-"
                 ++ numberText (DealCandidate.termMonths first))
                (ReasonLowestPayment (DealCandidate.payment first))
                "⚠️ Lowest Possible")
    | None => None
    end.

(** The [bestDeal] memo: the deal at the index written in the id, or the
    first valid deal. *)
Definition triageBestDeal (triageResult : option TriageResponse.t)
    (validDeals : list DealCandidate.t) : option DealCandidate.t :=
  let firstValid := nth_error validDeals 0 in
  match triageResult with
  | None => firstValid
  | Some response =>
      if String.eqb (TriageResponse.bestDealId response) ""
         || Nat.eqb (List.length validDeals) 0
      then firstValid
      else
        let idParts := split "-" (TriageResponse.bestDealId response) in
        if (4 <=? List.length idParts)%nat then
          match parseInt (nth 1 idParts "") with
          | Some idx =>
              if (idx <? Z.of_nat (List.length validDeals))%Z then
                if (idx <? 0)%Z then None
                else nth_error validDeals (Z.to_nat idx)
              else firstValid
          | None => firstValid
          end
        else firstValid
  end.

(* ================================================================= *)
(** ** Notions used to state further properties *)

(** [{ ...deal, vehicleMake: make }] *)
Definition withMake (deal : DealInput) (make : string) : DealInput :=
  {| vehicleId := vehicleId deal;
     vehicleYear := vehicleYear deal;
     vehicleMake := make;
     vehicleMileage := vehicleMileage deal;
     vehiclePrice := vehiclePrice deal;
     vehicleCost := vehicleCost deal;
     taxRate := taxRate deal;
     fees := fees deal;
     downPayment := downPayment deal;
     tradeAllowance := tradeAllowance deal;
     tradePayoff := tradePayoff deal;
     backendProducts := backendProducts deal;
     customerCreditTier := customerCreditTier deal;
     targetPayment := targetPayment deal;
     paymentTolerance := paymentTolerance deal;
     preferredTermMonths := preferredTermMonths deal;
     monthlyIncome := monthlyIncome deal |}.

(** The bound on the search space: nine structures (three down payments by
    at most three backend scenarios) for each allowed term of each active
    lender. *)
Definition searchSpaceBound (lenders : list LenderConfig) : nat :=
  list_sum (map (fun l => 9 * List.length (allowedTerms l))%nat
                (filter active lenders)).

(* ================================================================= *)
(** * Properties *)

(** ** Arithmetic helpers *)

Lemma Qleb_le (x y : Q) : Qleb x y = true <-> x <= y.
Proof. unfold Qleb. apply Qle_bool_iff. Qed.

Lemma Qleb_gt (x y : Q) : Qleb x y = false <-> y < x.
Proof.
  unfold Qleb. split; intro H.
  - apply Qnot_le_lt. intro Hle. apply Qle_bool_iff in Hle. congruence.
  - destruct (Qle_bool x y) eqn:E; [|reflexivity].
    apply Qle_bool_iff in E. exfalso. apply (Qlt_not_le _ _ H E).
Qed.

Lemma Qltb_lt (x y : Q) : Qltb x y = true <-> x < y.
Proof.
  unfold Qltb. rewrite negb_true_iff. apply (Qleb_gt y x).
Qed.

Lemma Qltb_ge (x y : Q) : Qltb x y = false <-> y <= x.
Proof.
  unfold Qltb. rewrite negb_false_iff. apply (Qleb_le y x).
Qed.

Lemma Qgtb_gt (x y : Q) : Qgtb x y = true <-> y < x.
Proof. unfold Qgtb. apply Qltb_lt. Qed.

Lemma Qgtb_le (x y : Q) : Qgtb x y = false <-> x <= y.
Proof. unfold Qgtb. apply Qltb_ge. Qed.

Lemma Qeqb_eq (x y : Q) : Qeqb x y = true <-> x == y.
Proof. unfold Qeqb. apply Qeq_bool_iff. Qed.

Lemma Qeqb_neq (x y : Q) : Qeqb x y = false <-> ~ x == y.
Proof.
  unfold Qeqb. split; intro H.
  - intro E. apply Qeq_bool_iff in E. congruence.
  - destruct (Qeq_bool x y) eqn:E; [|reflexivity].
    apply Qeq_bool_iff in E. contradiction.
Qed.

Lemma Math_round_nonneg (x : Q) : 0 <= x -> (0 <= Math_round x)%Z.
Proof.
  intro H. unfold Math_round.
  change 0%Z with (Qfloor 0). apply Qfloor_resp_le. lra.
Qed.

Lemma Math_round_integer (p : Z) : Math_round (inject_Z p) = p.
Proof.
  unfold Math_round, Qfloor, Qplus, inject_Z. simpl.
  symmetry. apply (Z.div_unique _ _ p 1); lia.
Qed.

Lemma Math_round_comp (x y : Q) : x == y -> Math_round x = Math_round y.
Proof.
  intro H. unfold Math_round. apply Qfloor_comp. rewrite H. reflexivity.
Qed.

(* ================================================================= *)
(** ** Valuation: [calculateBookValue] *)

Lemma specAgeFactor_pos (age : Z) : 0 < specAgeFactor age.
Proof.
  unfold specAgeFactor.
  repeat match goal with |- context [if ?b then _ else _] => destruct b end;
    reflexivity.
Qed.

Lemma specMileageFactor_pos (mileage : Q) : 0 < specMileageFactor mileage.
Proof.
  unfold specMileageFactor.
  repeat match goal with |- context [if ?b then _ else _] => destruct b end;
    reflexivity.
Qed.

(** The schedule lookup of the code agrees with the specification's table on
    every age from 0 upwards; the clamp [Math.min(vehicleAge, 10)] is what
    makes ages above 10 share the factor of age 10. *)
Lemma ageFactor_schedule (age : Z) :
  (0 <= age)%Z ->
  match lookupZ (Z.min age 10) DEPRECIATION_SCHEDULE with
  | Some f => f
  | None => 0.35
  end = specAgeFactor age.
Proof.
  intro Hage.
  destruct (Z_lt_le_dec age 10) as [Hlt | Hge].
  - rewrite Z.min_l by lia.
    assert (Hcases : (age = 0 \/ age = 1 \/ age = 2 \/ age = 3 \/ age = 4 \/
                      age = 5 \/ age = 6 \/ age = 7 \/ age = 8 \/ age = 9)%Z)
      by lia.
    repeat (destruct Hcases as [-> | Hcases]; [reflexivity|]).
    subst age. reflexivity.
  - rewrite Z.min_r by lia. unfold specAgeFactor.
    repeat match goal with
           | |- context [(age =? ?k)%Z] =>
               destruct (Z.eqb_spec age k); [lia|]
           end.
    reflexivity.
Qed.

Lemma bookValue_formula (retailPrice : Q) (age : Z) (mileage : Q) :
  (0 <= age)%Z ->
  calculateBookValue retailPrice age mileage
  = Math_round (retailPrice * specAgeFactor age * specMileageFactor mileage).
Proof.
  intro Hage. unfold calculateBookValue.
  rewrite (ageFactor_schedule age Hage).
  unfold specMileageFactor, MILEAGE_DEPRECIATION_BRACKETS. cbn [find maxMiles_b].
  repeat match goal with
         | |- context [Qleb mileage ?k] => destruct (Qleb mileage k)
         end; reflexivity.
Qed.

(* ================================================================= *)
(** ** The book value in binary64 arithmetic *)

Lemma signClear_isNegative (x : Binary64.number) :
  signClear x = true <-> Binary64.isNegative x = false.
Proof.
  destruct x as [s | s | | s m e]; try destruct s; cbn; split; intro H;
    (reflexivity || discriminate).
Qed.

Lemma binary_round_aux_signClear (m e : Z) (l : location) :
  signClear (binary_round_aux Binary64.prec Binary64.emax false m e l) = true.
Proof.
  unfold binary_round_aux.
  destruct (shr_fexp _ _ m e l) as [mrs1 e1].
  destruct (shr_fexp _ _ _ e1 loc_Exact) as [mrs2 e2].
  destruct (shr_m mrs2); [reflexivity | | reflexivity].
  destruct (_ <=? _)%Z; reflexivity.
Qed.

Lemma mul_signClear (x : Binary64.number) (m : positive) (e : Z) :
  signClear x = true ->
  signClear (Binary64.mul x (S754_finite false m e)) = true.
Proof.
  destruct x as [s | s | | s mx ex]; cbn; intro H; try reflexivity.
  - destruct s; [discriminate | reflexivity].
  - destruct s; [discriminate|]. apply binary_round_aux_signClear.
Qed.

Lemma ofZ_signClear (n : Z) : (0 <= n)%Z -> signClear (Binary64.ofZ n) = true.
Proof.
  intro Hn. destruct n as [|p|p]; [reflexivity | | lia].
  unfold Binary64.ofZ, binary_normalize, binary_round.
  destruct (shl_align _ _ _) as [mz ez]. apply binary_round_aux_signClear.
Qed.

Lemma Math_round_signClear (x : Binary64.number) :
  signClear x = true -> signClear (Binary64.Math_round x) = true.
Proof.
  destruct x as [s | s | | s m e]; cbn [Binary64.Math_round]; intro H;
    try exact H.
  destruct (Binary64.isIntegral _); [exact H|].
  destruct s; [discriminate H|].
  assert (Hn : (0 <= Z.shiftr (2 * Z.pos m + 2 ^ (- e)) (- e + 1))%Z).
  { apply Z.shiftr_nonneg.
    assert (0 <= 2 ^ (- e))%Z by (apply Z.pow_nonneg; lia). lia. }
  destruct (Z.shiftr _ _) as [|n|n] eqn:E; [reflexivity | | lia].
  apply ofZ_signClear. lia.
Qed.

(** The factors of both tables are positive finite numbers. *)
Lemma specAgeFactor_finite (age : Z) :
  exists m e, Binary64.specAgeFactor age = S754_finite false m e.
Proof.
  unfold Binary64.specAgeFactor.
  repeat match goal with
         | |- context [(age =? ?k)%Z] => destruct (age =? k)%Z
         end; vm_compute; eauto.
Qed.

Lemma specMileageFactor_finite (mileage : Binary64.number) :
  exists m e, Binary64.specMileageFactor mileage = S754_finite false m e.
Proof.
  unfold Binary64.specMileageFactor.
  repeat match goal with
         | |- context [Binary64.leb mileage ?k] => destruct (Binary64.leb mileage k)
         end; vm_compute; eauto.
Qed.

Lemma bookValue_binary64_formula (retailPrice : Binary64.number) (age : Z)
    (mileage : Binary64.number) :
  (0 <= age)%Z ->
  Binary64.calculateBookValue retailPrice age mileage
  = Binary64.Math_round
      (Binary64.mul (Binary64.mul retailPrice (Binary64.specAgeFactor age))
                    (Binary64.specMileageFactor mileage)).
Proof.
  intro Hage. unfold Binary64.calculateBookValue.
  assert (Hage_factor :
            match Binary64.lookup (Z.min age 10) Binary64.DEPRECIATION_SCHEDULE with
            | Some f => f
            | None => Binary64.decimal 35 2
            end = Binary64.specAgeFactor age).
  { unfold Binary64.specAgeFactor.
    destruct (Z_le_gt_dec 10 age) as [Hold | Hyoung].
    - rewrite Z.min_r by exact Hold.
      repeat match goal with
             | |- context [(age =? ?k)%Z] =>
                 destruct (Z.eqb_spec age k); [lia|]
             end.
      reflexivity.
    - rewrite Z.min_l by lia.
      assert (Hcases : (age = 0 \/ age = 1 \/ age = 2 \/ age = 3 \/ age = 4
                        \/ age = 5 \/ age = 6 \/ age = 7 \/ age = 8 \/ age = 9)%Z)
        by lia.
      repeat (destruct Hcases as [-> | Hcases]; [reflexivity|]).
      subst age. reflexivity. }
  assert (Hmileage_factor :
            match find (fun b => Binary64.leb mileage (Binary64.maxMiles b))
                       Binary64.MILEAGE_DEPRECIATION_BRACKETS with
            | Some b => Binary64.factor b
            | None => Binary64.decimal 70 2
            end = Binary64.specMileageFactor mileage).
  { unfold Binary64.specMileageFactor, Binary64.MILEAGE_DEPRECIATION_BRACKETS.
    cbn [find Binary64.maxMiles].
    repeat match goal with
           | |- context [Binary64.leb mileage ?k] => destruct (Binary64.leb mileage k)
           end; reflexivity. }
  cbv zeta. rewrite Hage_factor, Hmileage_factor. reflexivity.
Qed.

(** Shifting right undoes a shift to the left, and nothing is lost. *)
Lemma shr_1_double (m : positive) :
  shr_1 (Build_shr_record (Z.pos m~0) false false)
  = Build_shr_record (Z.pos m) false false.
Proof. reflexivity. Qed.

Lemma digits2_pos_double (m : positive) :
  Z.pos (digits2_pos (m~0)) = (Z.pos (digits2_pos m) + 1)%Z.
Proof. cbn [digits2_pos]. lia. Qed.

(** Multiplying a number of the format by 1.0 returns it. *)
Lemma mul_one (x : Binary64.number) :
  valid_binary Binary64.prec Binary64.emax x = true ->
  Binary64.mul x (Binary64.decimal 100 2) = x.
Proof.
  change (Binary64.decimal 100 2) with (S754_finite false 4503599627370496 (-52)).
  destruct x as [s | s | | s m e]; intro Hvalid;
    try (destruct s; reflexivity); try reflexivity.
  cbn [valid_binary] in Hvalid. unfold bounded, canonical_mantissa in Hvalid.
  apply andb_true_iff in Hvalid. destruct Hvalid as [Hcanon Hbound].
  apply Z.eqb_eq in Hcanon.
  unfold Binary64.mul, SFmul. rewrite xorb_false_r, Pos.mul_comm.
  cbn [Pos.mul].
  unfold binary_round_aux, shr_fexp.
  cbn [Zdigits2].
  rewrite !digits2_pos_double.
  replace (fexp Binary64.prec Binary64.emax
             (Z.pos (digits2_pos m) + 1 + 1 + 1 + 1 + 1 + 1 + 1 + 1 + 1 + 1 + 1
              + 1 + 1 + 1 + 1 + 1 + 1 + 1 + 1 + 1 + 1 + 1 + 1 + 1 + 1 + 1 + 1
              + 1 + 1 + 1 + 1 + 1 + 1 + 1 + 1 + 1 + 1 + 1 + 1 + 1 + 1 + 1 + 1
              + 1 + 1 + 1 + 1 + 1 + 1 + 1 + 1 + 1 + (e + -52))
           - (e + -52))%Z with 52%Z.
  2:{ replace (Z.pos (digits2_pos m) + 1 + 1 + 1 + 1 + 1 + 1 + 1 + 1 + 1 + 1 + 1
              + 1 + 1 + 1 + 1 + 1 + 1 + 1 + 1 + 1 + 1 + 1 + 1 + 1 + 1 + 1 + 1
              + 1 + 1 + 1 + 1 + 1 + 1 + 1 + 1 + 1 + 1 + 1 + 1 + 1 + 1 + 1 + 1
              + 1 + 1 + 1 + 1 + 1 + 1 + 1 + 1 + 1 + (e + -52))%Z
        with (Z.pos (digits2_pos m) + e)%Z by lia.
      rewrite Hcanon. lia. }
  cbn [shr shr_record_of_loc iter_pos shr_1 orb].
  cbn [shr_m loc_of_shr_record round_nearest_even Zdigits2].
  replace (e + -52 + 52)%Z with e by lia.
  rewrite Hcanon, Z.sub_diag. cbn [shr shr_record_of_loc shr_m].
  rewrite Hbound. reflexivity.
Qed.
(** Rounding a number that is already in the format changes nothing. *)
Lemma binary_round_aux_canonical (s : bool) (m : positive) (e : Z) :
  bounded Binary64.prec Binary64.emax m e = true ->
  binary_round_aux Binary64.prec Binary64.emax s (Z.pos m) e loc_Exact
  = S754_finite s m e.
Proof.
  unfold bounded, canonical_mantissa. intro H.
  apply andb_true_iff in H. destruct H as [Hcanon Hbound].
  apply Z.eqb_eq in Hcanon.
  unfold binary_round_aux, shr_fexp. cbn [Zdigits2].
  rewrite Hcanon, Z.sub_diag.
  cbn [shr shr_record_of_loc shr_m loc_of_shr_record round_nearest_even Zdigits2].
  rewrite Hcanon, Z.sub_diag. cbn [shr shr_record_of_loc shr_m].
  rewrite Hbound. reflexivity.
Qed.

Lemma digits2_pos_shift (n : positive) (k : positive) :
  Z.pos (digits2_pos (Pos.iter xO n k)) = (Z.pos (digits2_pos n) + Z.pos k)%Z.
Proof.
  induction k as [|k IH] using Pos.peano_ind.
  - cbn [Pos.iter digits2_pos]. lia.
  - rewrite Pos.iter_succ. cbn [digits2_pos]. lia.
Qed.

Lemma pos_shift_value (n : positive) (k : positive) :
  Z.pos (Pos.iter xO n k) = (Z.pos n * 2 ^ Z.pos k)%Z.
Proof.
  induction k as [|k IH] using Pos.peano_ind.
  - cbn [Pos.iter]. lia.
  - rewrite Pos.iter_succ, Pos2Z.inj_succ, Z.pow_succ_r by lia.
    rewrite Pos2Z.inj_xO, IH. lia.
Qed.

Lemma digits2_pos_bound (n : positive) :
  (Z.pos n < 2 ^ Z.pos (digits2_pos n))%Z.
Proof.
  induction n as [n IH | n IH |]; cbn [digits2_pos];
    rewrite ?Pos2Z.inj_succ, ?Z.pow_succ_r by lia; lia.
Qed.

Lemma digits2_pos_le (n : positive) (d : Z) :
  (0 <= d)%Z -> (Z.pos n < 2 ^ d)%Z -> (Z.pos (digits2_pos n) <= d)%Z.
Proof.
  revert d. induction n as [n IH | n IH |]; intros d Hd H; cbn [digits2_pos].
  - destruct (Z.eq_dec d 0) as [-> | Hne]; [cbn in H; lia|].
    rewrite Pos2Z.inj_succ. specialize (IH (d - 1)%Z).
    replace d with (Z.succ (d - 1)) in H by lia.
    rewrite Z.pow_succ_r in H by lia. lia.
  - destruct (Z.eq_dec d 0) as [-> | Hne]; [cbn in H; lia|].
    rewrite Pos2Z.inj_succ. specialize (IH (d - 1)%Z).
    replace d with (Z.succ (d - 1)) in H by lia.
    rewrite Z.pow_succ_r in H by lia. lia.
  - destruct (Z.eq_dec d 0) as [-> | Hne]; [cbn in H; lia | lia].
Qed.

(** An integer below 2^53 is held exactly: its double is a number of the
    format and an integer. *)
Lemma ofZ_integer (n : Z) :
  (0 <= n < 2 ^ 53)%Z ->
  valid_binary Binary64.prec Binary64.emax (Binary64.ofZ n) = true
  /\ Binary64.isIntegral (Binary64.ofZ n) = true
  /\ Binary64.isNegative (Binary64.ofZ n) = false.
Proof.
  intros [Hn Hlt]. destruct n as [|n|n]; [repeat split | | lia].
  assert (Hd := digits2_pos_le n 53 ltac:(lia) Hlt).
  assert (Hd0 : (0 < Z.pos (digits2_pos n))%Z) by lia.
  unfold Binary64.ofZ, binary_normalize, binary_round, shl_align.
  unfold fexp, emin, Binary64.prec, Binary64.emax.
  replace (Z.max (Z.pos (digits2_pos n) + 0 - 53) (3 - 1024 - 53) - 0)%Z
    with (Z.pos (digits2_pos n) - 53)%Z by lia.
  destruct (Z.pos (digits2_pos n) - 53)%Z as [|k|k] eqn:Ek; [ | lia | ].
  - fold Binary64.prec Binary64.emax.
    rewrite binary_round_aux_canonical.
    + repeat split. unfold valid_binary, bounded, canonical_mantissa, fexp, emin,
        Binary64.prec, Binary64.emax.
      apply andb_true_iff. split; [apply Z.eqb_eq | apply Z.leb_le]; lia.
    + unfold bounded, canonical_mantissa, fexp, emin, Binary64.prec, Binary64.emax.
      apply andb_true_iff. split; [apply Z.eqb_eq | apply Z.leb_le]; lia.
  - replace (Z.max (Z.pos (digits2_pos n) + 0 - 53) (3 - 1024 - 53))%Z
      with (Z.neg k) by lia.
    fold Binary64.prec Binary64.emax.
    assert (Hb : bounded Binary64.prec Binary64.emax (Pos.iter xO n k) (Z.neg k)
                 = true).
    { unfold bounded, canonical_mantissa, fexp, emin, Binary64.prec, Binary64.emax.
      rewrite digits2_pos_shift.
      apply andb_true_iff. split; [apply Z.eqb_eq | apply Z.leb_le]; lia. }
    rewrite (binary_round_aux_canonical false _ _ Hb).
    split; [exact Hb|]. split; [|reflexivity].
    cbn [Binary64.isIntegral]. apply orb_true_iff. right. apply Z.eqb_eq.
    rewrite pos_shift_value. cbn [Z.opp]. apply Z.mod_mul. 
    apply Z.pow_nonzero; lia.
Qed.
(** At age 0 and mileage 0 both factors are 1.0, and an integer is returned
    as it is. *)
Lemma bookValue_binary64_identity (retailPrice : Binary64.number) :
  valid_binary Binary64.prec Binary64.emax retailPrice = true ->
  Binary64.isIntegral retailPrice = true ->
  Binary64.calculateBookValue retailPrice 0 (Binary64.ofZ 0) = retailPrice.
Proof.
  intros Hvalid Hint.
  rewrite (bookValue_binary64_formula retailPrice 0 (Binary64.ofZ 0)) by lia.
  change (Binary64.specAgeFactor 0) with (Binary64.decimal 100 2).
  change (Binary64.specMileageFactor (Binary64.ofZ 0))
    with (Binary64.decimal 100 2).
  rewrite (mul_one retailPrice Hvalid), (mul_one retailPrice Hvalid).
  destruct retailPrice as [s | s | | s m e]; try reflexivity.
  cbn [Binary64.Math_round]. rewrite Hint. reflexivity.
Qed.

(** C7. For every non-negative retail price and age and every mileage,
    [calculateBookValue] returns round(retail x ageFactor x mileageFactor),
    the products being those of binary64 numbers as the code computes them,
    with the age factor of the fixed schedule (ages above 10 clamped to the
    factor of age 10, so every age of 10 or more gives the result of age 10)
    and the mileage factor of the ordered brackets (0.70 above the top one);
    the result is never negative, and a price that is an integer (every
    integer from 0 to 2^53 is a binary64 number) is returned unchanged at age
    0 and mileage 0. *)
Theorem calculateBookValue_binary64 (retailPrice : Binary64.number) (age : Z)
    (mileage : Binary64.number) :
  Binary64.isNegative retailPrice = false -> (0 <= age)%Z ->
  Binary64.calculateBookValue retailPrice age mileage
  = Binary64.Math_round
      (Binary64.mul (Binary64.mul retailPrice (Binary64.specAgeFactor age))
                    (Binary64.specMileageFactor mileage))
  /\ ((10 <= age)%Z ->
      Binary64.specAgeFactor age = Binary64.specAgeFactor 10
      /\ Binary64.calculateBookValue retailPrice age mileage
         = Binary64.calculateBookValue retailPrice 10 mileage)
  /\ Binary64.isNegative (Binary64.calculateBookValue retailPrice age mileage)
     = false
  /\ (valid_binary Binary64.prec Binary64.emax retailPrice = true ->
      Binary64.isIntegral retailPrice = true ->
      Binary64.calculateBookValue retailPrice 0 (Binary64.ofZ 0) = retailPrice)
  /\ (forall p : Z,
        (0 <= p < 2 ^ 53)%Z ->
        Binary64.calculateBookValue (Binary64.ofZ p) 0 (Binary64.ofZ 0)
        = Binary64.ofZ p).
Proof.
  intros Hprice Hage.
  assert (Hformula := bookValue_binary64_formula retailPrice age mileage Hage).
  split; [exact Hformula|]. split; [|split; [|split]].
  - intro Hold.
    assert (Hfactor : Binary64.specAgeFactor age = Binary64.specAgeFactor 10).
    { unfold Binary64.specAgeFactor.
      repeat match goal with
             | |- context [(age =? ?k)%Z] =>
                 destruct (Z.eqb_spec age k); [lia|]
             end.
      reflexivity. }
    split; [exact Hfactor|].
    rewrite Hformula, (bookValue_binary64_formula retailPrice 10 mileage) by lia.
    rewrite Hfactor. reflexivity.
  - rewrite Hformula. apply signClear_isNegative, Math_round_signClear.
    destruct (specAgeFactor_finite age) as (ma & ea & ->).
    destruct (specMileageFactor_finite mileage) as (mm & em & ->).
    apply mul_signClear, mul_signClear, signClear_isNegative, Hprice.
  - apply bookValue_binary64_identity.
  - intros p Hp. destruct (ofZ_integer p Hp) as (Hvalid & Hint & _).
    apply bookValue_binary64_identity; assumption.
Qed.

Lemma calculateBookValue_binary64_witness :
  Binary64.isNegative (Binary64.ofZ 18997) = false /\ (0 <= 14)%Z
  /\ Binary64.calculateBookValue (Binary64.ofZ 18997) 14 (Binary64.ofZ 45000)
     = Binary64.ofZ 6858
  /\ Binary64.calculateBookValue (Binary64.ofZ 18997) 14 (Binary64.ofZ 45000)
     = Binary64.calculateBookValue (Binary64.ofZ 18997) 10 (Binary64.ofZ 45000)
  /\ Binary64.isNegative
       (Binary64.calculateBookValue (Binary64.ofZ 18997) 14 (Binary64.ofZ 45000))
     = false
  /\ Binary64.calculateBookValue (Binary64.ofZ 18997) 0 (Binary64.ofZ 0)
     = Binary64.ofZ 18997.
Proof.
  assert (Hp : Binary64.isNegative (Binary64.ofZ 18997) = false) by reflexivity.
  assert (Ha : (0 <= 14)%Z) by lia.
  destruct (calculateBookValue_binary64 (Binary64.ofZ 18997) 14
              (Binary64.ofZ 45000) Hp Ha)
    as (Hformula & Hclamp & Hpos & _ & Hid).
  split; [exact Hp|]. split; [exact Ha|].
  split; [rewrite Hformula; reflexivity|].
  split; [apply Hclamp; lia|].
  split; [exact Hpos|].
  apply Hid. lia.
Defined.

(** The product of doubles can fall on the other side of a half: in real
    numbers 6750 x 0.38 x 0.70 is 1795.5, which rounds to 1796, but the
    product the code computes is the double just below 1795.5, and the book
    value is 1795.  The book value in exact arithmetic, [calculateBookValue]
    above, is 1796 there. *)
Example bookValue_binary64_below_half :
  Binary64.mul (Binary64.mul (Binary64.ofZ 6750) (Binary64.decimal 38 2))
               (Binary64.decimal 70 2)
  = S754_finite false 7896692510687231 (-42)
  /\ Binary64.calculateBookValue (Binary64.ofZ 6750) 10 (Binary64.ofZ 200000)
     = Binary64.ofZ 1795
  /\ calculateBookValue 6750 10 200000 = 1796%Z.
Proof. repeat split; reflexivity. Qed.

(* ================================================================= *)
(** ** Amount financed *)

Lemma flooredAtZero_max (x : Q) : Math_max x 0 == flooredAtZero x.
Proof.
  unfold Math_max, flooredAtZero.
  destruct (Qltb x 0) eqn:E.
  - apply Qltb_lt in E. apply Q.max_r. lra.
  - apply Qltb_ge in E. apply Q.max_l. exact E.
Qed.

(** C9. For every deal input, whatever the signs of price, tax rate, fees,
    backend total, down payment, trade allowance and trade payoff, the amount
    financed equals (price + price x taxRate + fees + backendTotal) -
    (downPayment + tradeAllowance - tradePayoff) floored at 0, and so is
    never negative. *)
Theorem computeAmountFinanced_spec (deal : DealInput) (backendTotal : Q) :
  computeAmountFinanced deal backendTotal
  == flooredAtZero
       ((vehiclePrice deal + vehiclePrice deal * taxRate deal + fees deal
         + backendTotal)
        - (downPayment deal + tradeAllowance deal - tradePayoff deal))
  /\ 0 <= computeAmountFinanced deal backendTotal.
Proof.
  unfold computeAmountFinanced. split.
  - apply flooredAtZero_max.
  - apply Q.le_max_r.
Qed.

(* ================================================================= *)
(** ** Makes: case folding and trimming *)







Lemma theftRiskMake_code (make : string) :
  existsb (fun m => sameMake m make) THEFT_RISK_MAKES = true
  <-> isTheftRiskMake make.
Proof.
  unfold THEFT_RISK_MAKES, isTheftRiskMake, sameMake. cbn [existsb].
  rewrite orb_false_r, orb_true_iff, !String.eqb_eq.
  split; intros [H | H]; auto.
Qed.

Lemma theftRiskYear_code (year : Z) :
  ((THEFT_RISK_YEAR_START <=? year) && (year <=? THEFT_RISK_YEAR_END))%Z = true
  <-> isTheftRiskYear year.
Proof.
  unfold THEFT_RISK_YEAR_START, THEFT_RISK_YEAR_END, isTheftRiskYear.
  rewrite andb_true_iff, !Z.leb_le. reflexivity.
Qed.

(* ================================================================= *)
(** ** The preference scan of [isVehicleEligible] *)

Section PreferenceScan.

Variable deal : DealInput.

Let nm := trim (vehicleMake deal).
Let multiplierOf := VehiclePreference.multiplier.

Lemma preferenceStep_applies (a : Q) (w : list VehicleWarning)
    (p : VehiclePreference.t) :
  preferenceStep deal nm (a, w) p
  = if preferenceApplies deal p
    then (Math_min a (multiplierOf p), w ++ preferenceWarnings deal p)
    else (a, w).
Proof.
  unfold preferenceStep, preferenceApplies, preferenceWarnings, multiplierOf.
  fold nm.
  destruct (sameMake (VehiclePreference.make p) nm); simpl; [|reflexivity].
  destruct (match VehiclePreference.yearRange p with
            | Some r => inYearRange (vehicleYear deal) r
            | None => true
            end); [|reflexivity].
  destruct (Qltb (VehiclePreference.multiplier p) 1); [reflexivity|].
  destruct (Qgtb (VehiclePreference.multiplier p) 1); [reflexivity|].
  rewrite app_nil_r. reflexivity.
Qed.

(** The loop keeps a running minimum over the applicable preferences and
    appends their warnings in order. *)
Lemma applyPreferences_from (prefs : list VehiclePreference.t) (a : Q)
    (w : list VehicleWarning) :
  fold_left (preferenceStep deal nm) prefs (a, w)
  = (fold_left (fun acc p => Math_min acc (multiplierOf p))
               (filter (preferenceApplies deal) prefs) a,
     w ++ flat_map (preferenceWarnings deal)
                   (filter (preferenceApplies deal) prefs)).
Proof.
  revert a w. induction prefs as [|p prefs IH]; intros a w;
    cbn [fold_left filter].
  - cbn [flat_map]. rewrite app_nil_r. reflexivity.
  - rewrite preferenceStep_applies.
    destruct (preferenceApplies deal p); cbn [fold_left flat_map].
    + rewrite IH, <- app_assoc. reflexivity.
    + apply IH.
Qed.

Lemma runningMin_le (l : list VehiclePreference.t) (a : Q) :
  fold_left (fun acc p => Math_min acc (multiplierOf p)) l a <= a.
Proof.
  revert a. induction l as [|p l IH]; intro a; simpl.
  - apply Qle_refl.
  - eapply Qle_trans; [apply IH|]. apply Q.le_min_l.
Qed.

Lemma runningMin_minimumOf (l : list VehiclePreference.t) (a : Q) :
  fold_left (fun acc p => Math_min acc (multiplierOf p)) l a
  == match minimumOf (map multiplierOf l) with
     | Some m => Qmin a m
     | None => a
     end.
Proof.
  revert a. induction l as [|p l IH]; intro a; simpl.
  - reflexivity.
  - rewrite IH. unfold Math_min.
    destruct (minimumOf (map multiplierOf l)) as [m|].
    + symmetry. apply Q.min_assoc.
    + reflexivity.
Qed.


Lemma minimumOf_attained (l : list Q) (m : Q) :
  minimumOf l = Some m -> exists x, In x l /\ m == x.
Proof.
  revert m. induction l as [|y l IH]; intros m Hm; [discriminate|].
  simpl in Hm. destruct (minimumOf l) as [m'|] eqn:E.
  - injection Hm as <-.
    destruct (Q.min_dec y m') as [H | H].
    + exists y. split; [left; reflexivity | exact H].
    + destruct (IH m' eq_refl) as (x & Hx & Hmx).
      exists x. split; [right; exact Hx | rewrite H; exact Hmx].
  - injection Hm as <-. exists y. split; [left|]; reflexivity.
Qed.

Variable year : Z.
Variable lender : LenderConfig.

Let prefs := vehiclePreferences lender.
Let scanned := applyPreferences deal nm prefs.

Lemma scanned_multiplier :
  fst scanned == Qmin 1 (minimumApplicableMultiplier deal lender)
  /\ fst scanned <= 1.
Proof.
  unfold scanned, applyPreferences. rewrite applyPreferences_from. simpl.
  split; [|apply runningMin_le].
  rewrite runningMin_minimumOf. unfold minimumApplicableMultiplier.
  fold prefs multiplierOf.
  destruct (minimumOf _); [reflexivity|].
  symmetry. apply Q.min_l. apply Qle_refl.
Qed.

Lemma scanned_warnings :
  snd scanned
  = flat_map (preferenceWarnings deal) (filter (preferenceApplies deal) prefs).
Proof.
  unfold scanned, applyPreferences. rewrite applyPreferences_from. reflexivity.
Qed.

(** With no bonus among the applicable preferences the scan returns their
    minimum, 1.0 when there is none. *)
Lemma scanned_minimum :
  (forall p, In p prefs -> preferenceApplies deal p = true ->
             multiplierOf p <= 1) ->
  fst scanned == minimumApplicableMultiplier deal lender.
Proof.
  intro Hcap. destruct scanned_multiplier as [Hs _]. rewrite Hs.
  unfold minimumApplicableMultiplier. fold prefs multiplierOf.
  destruct (minimumOf _) as [m|] eqn:E; [|reflexivity].
  apply Q.min_r.
  destruct (minimumOf_attained _ _ E) as (x & Hx & Hmx).
  apply in_map_iff in Hx. destruct Hx as (p & <- & Hp).
  apply filter_In in Hp. destruct Hp as [Hin Happ].
  rewrite Hmx. apply Hcap; assumption.
Qed.

Lemma hasTheftPenalty_code :
  hasTheftPenalty deal nm prefs = true
  <-> exists p, In p prefs /\ coversYear deal p.
Proof.
  unfold hasTheftPenalty. rewrite existsb_exists.
  split; intros (p & Hin & H); exists p; (split; [exact Hin|]).
  - apply andb_true_iff in H. destruct H as [Hmake Hrange].
    unfold coversYear. fold nm. split.
    + apply String.eqb_eq. exact Hmake.
    + destruct (VehiclePreference.yearRange p) as [r|]; [|discriminate].
      exists r. split; [reflexivity|].
      unfold inYearRange in Hrange. apply andb_true_iff in Hrange.
      rewrite !Z.leb_le in Hrange. exact Hrange.
  - destruct H as (Hmake & r & Hr & Hyears). fold nm in Hmake.
    apply andb_true_iff. split.
    + apply String.eqb_eq. exact Hmake.
    + rewrite Hr. unfold inYearRange. apply andb_true_iff.
      rewrite !Z.leb_le. exact Hyears.
Qed.

(** What [isVehicleEligible] returns, in terms of the scan and of the
    theft-risk test that follows it. *)
Lemma isVehicleEligible_multiplier :
  let fires :=
    existsb (fun m => sameMake m nm) THEFT_RISK_MAKES
    && ((THEFT_RISK_YEAR_START <=? vehicleYear deal)
        && (vehicleYear deal <=? THEFT_RISK_YEAR_END))%Z
    && (negb (hasTheftPenalty deal nm prefs) && Qeqb (fst scanned) 1) in
  VehicleEligibilityResult.advanceMultiplier (isVehicleEligible year deal lender)
  = (if fires then 0.90 else fst scanned)
  /\ VehicleEligibilityResult.warnings (isVehicleEligible year deal lender)
     = (if fires
        then snd scanned ++ [TheftRiskWarning nm (vehicleYear deal)]
        else snd scanned).
Proof.
  unfold isVehicleEligible. fold nm prefs scanned.
  destruct scanned as [am ws]. cbn [fst snd].
  destruct (existsb (fun m => sameMake m nm) THEFT_RISK_MAKES);
    destruct ((THEFT_RISK_YEAR_START <=? vehicleYear deal)
              && (vehicleYear deal <=? THEFT_RISK_YEAR_END))%Z;
    cbn [andb]; try (split; reflexivity).
  destruct (negb (hasTheftPenalty deal nm prefs) && Qeqb am 1);
    split; reflexivity.
Qed.




End PreferenceScan.

(* ================================================================= *)
(** ** The advance multiplier of [isVehicleEligible] *)

(** The theft-risk test of the code fires exactly when the rule, as worded,
    applies, provided the scan returned the minimum of the applicable
    multipliers. *)
Lemma theft_test_fires (deal : DealInput) (lender : LenderConfig) :
  fst (applyPreferences deal (trim (vehicleMake deal)) (vehiclePreferences lender))
  == minimumApplicableMultiplier deal lender ->
  existsb (fun m => sameMake m (trim (vehicleMake deal))) THEFT_RISK_MAKES
  && ((THEFT_RISK_YEAR_START <=? vehicleYear deal)
      && (vehicleYear deal <=? THEFT_RISK_YEAR_END))%Z
  && (negb (hasTheftPenalty deal (trim (vehicleMake deal))
                            (vehiclePreferences lender))
      && Qeqb (fst (applyPreferences deal (trim (vehicleMake deal))
                                     (vehiclePreferences lender))) 1) = true
  <-> theftRuleApplies deal lender.
Proof.
  intro Hscan. unfold theftRuleApplies.
  rewrite !andb_true_iff, negb_true_iff, <- not_true_iff_false.
  rewrite theftRiskMake_code, hasTheftPenalty_code, Qeqb_eq, Hscan.
  rewrite <- (theftRiskYear_code (vehicleYear deal)), andb_true_iff.
  tauto.
Qed.

(** C1 (amended). For every deal and lender configuration, makes written
    in ASCII, in which no applicable preference carries a multiplier above
    1.0, the eligibility check returns the minimum multiplier among the
    applicable preferences (make equal up to case, optional inclusive year
    range containing the vehicle year), 1.0 when none applies, unless the
    theft-risk rule applies, in which case it returns 0.90. *)
Theorem advanceMultiplier_minimum_of_applicable (year : Z) (deal : DealInput)
    (lender : LenderConfig) :
  isAsciiText (vehicleMake deal) = true ->
  (forall p, In p (vehiclePreferences lender) ->
             isAsciiText (VehiclePreference.make p) = true) ->
  (forall p, In p (vehiclePreferences lender) ->
             preferenceApplies deal p = true ->
             VehiclePreference.multiplier p <= 1) ->
  (theftRuleApplies deal lender ->
   VehicleEligibilityResult.advanceMultiplier (isVehicleEligible year deal lender)
   == 0.90)
  /\ (~ theftRuleApplies deal lender ->
      VehicleEligibilityResult.advanceMultiplier
        (isVehicleEligible year deal lender)
      == minimumApplicableMultiplier deal lender).
Proof.
  intros _ _ Hcap.
  assert (Hscan := scanned_minimum deal lender Hcap).
  destruct (isVehicleEligible_multiplier deal year lender) as [Ham _].
  rewrite Ham. clear Ham.
  assert (Hfires := theft_test_fires deal lender Hscan).
  destruct (_ && _ && _).
  - split; [reflexivity|]. intro Hnot. exfalso. apply Hnot, Hfires. reflexivity.
  - split; [|intros _; exact Hscan].
    intro Happ. apply Hfires in Happ. discriminate.
Qed.

Lemma advanceMultiplier_minimum_of_applicable_witness :
  isAsciiText (vehicleMake (sampleDealOf "Nissan" 2019)) = true
  /\ (forall p, In p (vehiclePreferences western_funding) ->
                isAsciiText (VehiclePreference.make p) = true)
  /\ (forall p, In p (vehiclePreferences western_funding) ->
                preferenceApplies (sampleDealOf "Nissan" 2019) p = true ->
                VehiclePreference.multiplier p <= 1)
  /\ ~ theftRuleApplies (sampleDealOf "Nissan" 2019) western_funding
  /\ VehicleEligibilityResult.advanceMultiplier
       (isVehicleEligible 2025 (sampleDealOf "Nissan" 2019) western_funding)
     == 0.90
  /\ minimumApplicableMultiplier (sampleDealOf "Nissan" 2019) western_funding
     == 0.90.
Proof.
  assert (Hmake : isAsciiText (vehicleMake (sampleDealOf "Nissan" 2019)) = true)
    by reflexivity.
  assert (Hprefs : forall p, In p (vehiclePreferences western_funding) ->
                             isAsciiText (VehiclePreference.make p) = true).
  { intros p Hin. simpl in Hin.
    repeat (destruct Hin as [<- | Hin]; [reflexivity|]). contradiction. }
  assert (Hcap : forall p, In p (vehiclePreferences western_funding) ->
                   preferenceApplies (sampleDealOf "Nissan" 2019) p = true ->
                   VehiclePreference.multiplier p <= 1).
  { intros p Hin Happ. simpl in Hin.
    repeat (destruct Hin as [<- | Hin]; [try discriminate Happ; now vm_compute|]).
    contradiction. }
  assert (Hrule : ~ theftRuleApplies (sampleDealOf "Nissan" 2019) western_funding).
  { intros ([H | H] & _); vm_compute in H; discriminate. }
  split; [exact Hmake|]. split; [exact Hprefs|].
  split; [exact Hcap|]. split; [exact Hrule|].
  destruct (advanceMultiplier_minimum_of_applicable
              2025 (sampleDealOf "Nissan" 2019) western_funding Hmake Hprefs Hcap)
    as [_ Hmin].
  split; [|reflexivity].
  rewrite (Hmin Hrule). reflexivity.
Defined.

(** C1, as stated, fails: a 2015 Kia offered to a lender without any vehicle
    preference has no applicable preference, so the stated value is the
    default 1.0, yet the check returns 0.90 (the theft-risk rule). *)
Lemma advanceMultiplier_minimum_counterexample :
  filter (preferenceApplies (sampleDealOf "Kia" 2015))
         (vehiclePreferences (lenderWith [])) = []
  /\ minimumApplicableMultiplier (sampleDealOf "Kia" 2015) (lenderWith []) == 1
  /\ VehicleEligibilityResult.advanceMultiplier
       (isVehicleEligible 2025 (sampleDealOf "Kia" 2015) (lenderWith []))
     == 0.90
  /\ ~ VehicleEligibilityResult.advanceMultiplier
         (isVehicleEligible 2025 (sampleDealOf "Kia" 2015) (lenderWith []))
       == minimumApplicableMultiplier (sampleDealOf "Kia" 2015) (lenderWith []).
Proof.
  split; [reflexivity|]. split; [reflexivity|]. split; [reflexivity|].
  intro H. vm_compute in H. discriminate.
Qed.

(** The single applicable preference of Westlake for a Honda is the 1.08
    bonus; the check announces the bonus and returns 1.0. *)
Example honda_bonus_at_westlake :
  map VehiclePreference.multiplier
      (filter (preferenceApplies (sampleDealOf "Honda" 2019))
              (vehiclePreferences westlake)) = [1.08]
  /\ isVehicleEligible 2025 (sampleDealOf "Honda" 2019) westlake
     = VehicleEligibilityResult.mk true [] 1
         [BonusWarning "Preferred Make Bonus" "Honda" ((1.08 - 1) * 100)].
Proof. split; reflexivity. Qed.



(* ================================================================= *)
(** ** The theft-risk rule *)






(* ================================================================= *)
(** ** Backend scenarios *)

(** C5 (amended). For every lender the scenario builder returns, in this
    order, the optimal scenario, the VSC-stripped scenario only when the
    optimal scenario includes VSC, and the all-stripped scenario: three
    scenarios when the optimal one includes VSC and two otherwise.  The
    VSC-stripped scenario keeps GAP exactly when the optimal one has it and
    drops VSC. *)
Theorem buildSmartScenarios_levels (deal : DealInput)
    (riskAssessment : RiskAssessment.t) (lender : LenderConfig) :
  let optimalGap :=
    RiskAssessment.recommendGap riskAssessment || gap (backendProducts deal) in
  let optimalVsc :=
    RiskAssessment.recommendVsc riskAssessment || vsc (backendProducts deal) in
  let scenarios := buildSmartScenarios deal riskAssessment lender in
  map (fun s => (BackendScenario.optimizationLevel s,
                 BackendScenario.hasGap s, BackendScenario.hasVsc s)) scenarios
  = (if optimalVsc
     then [(optimal, optimalGap, true); (vsc_stripped, optimalGap, false);
           (all_stripped, false, false)]
     else [(optimal, optimalGap, false); (all_stripped, false, false)])
  /\ List.length scenarios = (if optimalVsc then 3 else 2)%nat
  /\ (In vsc_stripped (map BackendScenario.optimizationLevel scenarios)
      <-> optimalVsc = true).
Proof.
  unfold buildSmartScenarios.
  destruct (RiskAssessment.recommendVsc riskAssessment || vsc (backendProducts deal));
    cbn.
  - split; [reflexivity|]. split; [reflexivity|]. split; [reflexivity|].
    intros _. right. left. reflexivity.
  - split; [reflexivity|]. split; [reflexivity|]. split; [|discriminate].
    intros [H | [H | []]]; discriminate.
Qed.

(** C5, as stated, fails: for a one-year-old vehicle with 10,000 miles and
    no VSC requested, Westlake (active, and the vehicle is eligible) gets two
    backend scenarios, not three. *)
Lemma buildSmartScenarios_three_counterexample :
  active westlake = true
  /\ VehicleEligibilityResult.isEligible
       (isVehicleEligible 2025 (lateModelDeal "Honda") westlake) = true
  /\ map BackendScenario.optimizationLevel
         (buildSmartScenarios (lateModelDeal "Honda")
                              (assessRisk 2025 (lateModelDeal "Honda")) westlake)
     = [optimal; all_stripped]
  /\ List.length
       (buildSmartScenarios (lateModelDeal "Honda")
                            (assessRisk 2025 (lateModelDeal "Honda")) westlake)
     <> 3%nat.
Proof.
  split; [reflexivity|]. split; [reflexivity|]. split; [reflexivity|].
  vm_compute. discriminate.
Qed.

(* ================================================================= *)
(** ** Compliance filter *)

Lemma filterCompliantDeals_from (rules : BankRules) (deals : list DealCandidate.t)
    (acc : ComplianceResult.t) :
  fold_left (complianceStep rules) deals acc
  = ComplianceResult.mk
      (ComplianceResult.validDeals acc ++ filter (isCompliant rules) deals)
      (ComplianceResult.rejectedDeals acc
       ++ map (fun d => (d, dealViolations rules d))
              (filter (fun d => negb (isCompliant rules d)) deals)).
Proof.
  revert acc. induction deals as [|d deals IH]; intro acc; cbn [fold_left filter].
  - cbn [map]. rewrite !app_nil_r. destruct acc; reflexivity.
  - rewrite IH. unfold complianceStep, isCompliant.
    destruct (Nat.eqb (List.length (dealViolations rules d)) 0);
      cbn [negb map ComplianceResult.validDeals ComplianceResult.rejectedDeals];
      rewrite <- ?app_assoc; reflexivity.
Qed.

Lemma filter_split_permutation {A : Type} (f : A -> bool) (l : list A) :
  Permutation l (filter f l ++ filter (fun x => negb (f x)) l).
Proof.
  induction l as [|x l IH]; simpl; [constructor|].
  destruct (f x); simpl.
  - constructor. exact IH.
  - apply Permutation_cons_app. exact IH.
Qed.

Lemma ltv_violation_collected (rules : BankRules) (c : DealCandidate.t) :
  ltvCap rules < DealCandidate.ltv c ->
  In (LtvExceedsCap (DealCandidate.ltv c) (ltvCap rules)) (dealViolations rules c)
  /\ isCompliant rules c = false.
Proof.
  intro H. apply Qgtb_gt in H.
  unfold isCompliant, dealViolations. rewrite H.
  split; [left; reflexivity | reflexivity].
Qed.

(** C6. [determineBankRules] makes VSC mandatory exactly above 100,000 miles
    and GAP mandatory exactly above 110% LTV and takes the LTV cap of the
    credit tier from its fixed table; for every candidate list and every
    rules value it produces, [filterCompliantDeals] puts each candidate whose
    LTV exceeds the cap among the rejected deals with an LTV violation,
    whatever its [withinGuidelines] flag, and every candidate is in exactly
    one of [validDeals] and [rejectedDeals]. *)
Theorem filterCompliantDeals_partition (deals : list DealCandidate.t)
    (mileage ltvPercent : Q) (tier : CreditTier) :
  let rules := determineBankRules mileage ltvPercent (tierName tier) in
  let result := filterCompliantDeals deals rules in
  let rejected := map fst (ComplianceResult.rejectedDeals result) in
  (mandatoryVsc rules = true <-> 100000 < mileage)
  /\ (mandatoryGap rules = true <-> 110 < ltvPercent)
  /\ ltvCap rules = specLtvCap tier
  /\ (forall c, In c deals -> ltvCap rules < DealCandidate.ltv c ->
        ~ In c (ComplianceResult.validDeals result)
        /\ exists violations,
             In (c, violations) (ComplianceResult.rejectedDeals result)
             /\ In (LtvExceedsCap (DealCandidate.ltv c) (ltvCap rules)) violations)
  /\ Permutation deals (ComplianceResult.validDeals result ++ rejected)
  /\ (forall c, In c deals ->
        (In c (ComplianceResult.validDeals result) /\ ~ In c rejected)
        \/ (~ In c (ComplianceResult.validDeals result) /\ In c rejected)).
Proof.
  intros rules result rejected.
  assert (Hresult : result
            = ComplianceResult.mk
                (filter (isCompliant rules) deals)
                (map (fun d => (d, dealViolations rules d))
                     (filter (fun d => negb (isCompliant rules d)) deals))).
  { unfold result, filterCompliantDeals. rewrite filterCompliantDeals_from.
    reflexivity. }
  assert (Hrejected : rejected = filter (fun d => negb (isCompliant rules d)) deals).
  { unfold rejected. rewrite Hresult. cbn [ComplianceResult.rejectedDeals].
    rewrite map_map. cbn [fst]. apply map_id. }
  rewrite Hrejected, Hresult.
  cbn [ComplianceResult.validDeals ComplianceResult.rejectedDeals].
  split; [apply Qgtb_gt|]. split; [apply Qgtb_gt|].
  split; [destruct tier; reflexivity|].
  split; [|split].
  - intros c Hin Hltv.
    destruct (ltv_violation_collected rules c Hltv) as [Hv Hc]. split.
    + intro H. apply filter_In in H. destruct H as [_ H]. congruence.
    + exists (dealViolations rules c). split; [|exact Hv].
      apply in_map_iff. exists c. split; [reflexivity|].
      apply filter_In. split; [exact Hin|]. rewrite Hc. reflexivity.
  - apply filter_split_permutation.
  - intros c Hin. rewrite !filter_In.
    destruct (isCompliant rules c); [left | right]; cbn [negb].
    + split; [split; auto | intros [_ H]; discriminate H].
    + split; [intros [_ H]; discriminate H | split; auto].
Qed.

Lemma filterCompliantDeals_partition_witness :
  In (candidateWith 128 true true) [candidateWith 128 true true; candidateWith 95 true true]
  /\ ltvCap (determineBankRules 120000 128 (tierName subprime))
     < DealCandidate.ltv (candidateWith 128 true true)
  /\ DealCandidate.withinGuidelines (candidateWith 128 true true) = true
  /\ filterCompliantDeals [candidateWith 128 true true; candidateWith 95 true true]
       (determineBankRules 120000 128 (tierName subprime))
     = ComplianceResult.mk [candidateWith 95 true true]
         [(candidateWith 128 true true, [LtvExceedsCap 128 120])]
  /\ ~ In (candidateWith 128 true true)
          (ComplianceResult.validDeals
             (filterCompliantDeals
                [candidateWith 128 true true; candidateWith 95 true true]
                (determineBankRules 120000 128 (tierName subprime)))).
Proof.
  assert (Hin : In (candidateWith 128 true true)
                   [candidateWith 128 true true; candidateWith 95 true true])
    by (left; reflexivity).
  assert (Hltv : ltvCap (determineBankRules 120000 128 (tierName subprime))
                 < DealCandidate.ltv (candidateWith 128 true true))
    by reflexivity.
  split; [exact Hin|]. split; [exact Hltv|].
  split; [reflexivity|]. split; [reflexivity|].
  destruct (filterCompliantDeals_partition
              [candidateWith 128 true true; candidateWith 95 true true]
              120000 128 subprime) as (_ & _ & _ & Hrej & _).
  apply (Hrej _ Hin Hltv).
Defined.

(* ================================================================= *)
(** ** LTV when the book value is not positive *)

(** C2. For a deal whose book value is 0 or less no LTV is obtained by
    dividing by the book value.  The candidate filter of the search loop and
    the net-check estimation both report the sentinel 999; the per-deal risk
    assessment reports 0 instead of 999, so that the deal does not count as
    upside down. *)
Theorem ltv_without_book_value (year : Z) (deal : DealInput) :
  (calculateBookValue (vehiclePrice deal) (year - vehicleYear deal)
                      (vehicleMileage deal) <= 0)%Z ->
  RiskAssessment.ltvPercent (assessRisk year deal) = 0
  /\ RiskAssessment.isUpsideDown (assessRisk year deal) = false
  /\ (forall amountFinanced, loopLtv year deal amountFinanced = 999)
  /\ (forall down lender tierRow amountFinanced backendTotal advanceMultiplier,
        NetCheck.ltv
          (estimateNetCheckAndProfit year (withDownPayment deal down) lender
             tierRow amountFinanced backendTotal advanceMultiplier) = 999).
Proof.
  intro Hbook.
  assert (Htest : (calculateBookValue (vehiclePrice deal) (year - vehicleYear deal)
                                      (vehicleMileage deal) >? 0)%Z = false).
  { rewrite Z.gtb_ltb. apply Z.ltb_ge. exact Hbook. }
  split; [|split; [|split]].
  - unfold assessRisk. cbn [RiskAssessment.ltvPercent]. rewrite Htest. reflexivity.
  - unfold assessRisk. cbn [RiskAssessment.isUpsideDown]. rewrite Htest. reflexivity.
  - intro amountFinanced. unfold loopLtv. rewrite Htest. reflexivity.
  - intros down lender tierRow amountFinanced backendTotal advanceMultiplier.
    unfold estimateNetCheckAndProfit.
    cbn [NetCheck.ltv withDownPayment vehiclePrice vehicleYear vehicleMileage].
    rewrite Htest. reflexivity.
Qed.

Lemma ltv_without_book_value_witness :
  (calculateBookValue (vehiclePrice worthlessVehicleDeal)
                      (2025 - vehicleYear worthlessVehicleDeal)
                      (vehicleMileage worthlessVehicleDeal) <= 0)%Z
  /\ computeAmountFinanced worthlessVehicleDeal 0 == 800.09
  /\ RiskAssessment.ltvPercent (assessRisk 2025 worthlessVehicleDeal) = 0
  /\ RiskAssessment.isUpsideDown (assessRisk 2025 worthlessVehicleDeal) = false
  /\ loopLtv 2025 worthlessVehicleDeal 800.09 = 999
  /\ NetCheck.ltv
       (estimateNetCheckAndProfit 2025 (withDownPayment worthlessVehicleDeal 0)
          westlake (tierPricing subprime 18 23 0.1 115 140 140) 800.09 0 1)
     = 999.
Proof.
  assert (Hbook : (calculateBookValue (vehiclePrice worthlessVehicleDeal)
                     (2025 - vehicleYear worthlessVehicleDeal)
                     (vehicleMileage worthlessVehicleDeal) <= 0)%Z)
    by (now vm_compute).
  destruct (ltv_without_book_value 2025 worthlessVehicleDeal Hbook)
    as (Hrisk & Hupside & Hloop & Hest).
  split; [exact Hbook|]. split; [reflexivity|].
  split; [exact Hrisk|]. split; [exact Hupside|].
  split; [apply Hloop | apply Hest].
Defined.

(* ================================================================= *)
(** ** Sorting with a comparator *)

Section StableSort.

Context {A : Type}.
Variable compareFn : A -> A -> Q.
Variable before : A -> A -> Prop.

Hypothesis before_swap : forall x y, 0 < compareFn x y -> before y x.
Hypothesis before_keep : forall x y, compareFn x y <= 0 -> before x y.
Hypothesis before_trans : forall x y z, before x y -> before y z -> before x z.

Lemma sortInsert_permutation (x : A) (l : list A) :
  Permutation (x :: l) (sortInsert compareFn x l).
Proof.
  induction l as [|y l IH]; simpl; [apply Permutation_refl|].
  destruct (Qgtb (compareFn x y) 0).
  - eapply perm_trans; [apply perm_swap|]. apply perm_skip, IH.
  - apply Permutation_refl.
Qed.

Lemma sortInsert_sorted (x : A) (l : list A) :
  StronglySorted before l -> StronglySorted before (sortInsert compareFn x l).
Proof.
  induction l as [|y l IH]; intro Hsorted; simpl.
  - constructor; constructor.
  - inversion Hsorted as [|y' l' Htail Hall]; subst.
    destruct (Qgtb (compareFn x y) 0) eqn:E.
    + apply Qgtb_gt in E. constructor; [apply IH, Htail|].
      apply (Permutation_Forall (sortInsert_permutation x l)).
      constructor; [apply before_swap, E | exact Hall].
    + apply Qgtb_le in E. constructor; [exact Hsorted|].
      constructor; [apply before_keep, E|].
      eapply Forall_impl; [|exact Hall].
      intros z Hz. eapply before_trans; [apply before_keep, E | exact Hz].
Qed.

Lemma Array_sort_permutation (l : list A) :
  Permutation l (Array_sort compareFn l).
Proof.
  induction l as [|x l IH]; simpl; [constructor|].
  eapply perm_trans; [apply perm_skip, IH|]. apply sortInsert_permutation.
Qed.

Lemma Array_sort_sorted (l : list A) :
  StronglySorted before (Array_sort compareFn l).
Proof.
  induction l as [|x l IH]; simpl; [constructor|].
  apply sortInsert_sorted, IH.
Qed.

End StableSort.

(* ================================================================= *)
(** ** Selection and ranking *)

Lemma rankedBefore_swap (deal : DealInput) (x y : DealCandidate.t) :
  0 < compareCandidates deal x y -> rankedBefore deal y x.
Proof.
  unfold compareCandidates, rankedBefore, Math_abs.
  destruct (Qeqb (DealCandidate.netCheckToDealer y)
                 (DealCandidate.netCheckToDealer x)) eqn:E; cbn [negb]; intro H.
  - apply Qeqb_eq in E. right. split; [exact E | lra].
  - left. lra.
Qed.

Lemma rankedBefore_keep (deal : DealInput) (x y : DealCandidate.t) :
  compareCandidates deal x y <= 0 -> rankedBefore deal x y.
Proof.
  unfold compareCandidates, rankedBefore, Math_abs.
  destruct (Qeqb (DealCandidate.netCheckToDealer y)
                 (DealCandidate.netCheckToDealer x)) eqn:E; cbn [negb]; intro H.
  - apply Qeqb_eq in E. right. split; [symmetry; exact E | lra].
  - apply Qeqb_neq in E. left.
    apply Qnot_le_lt. intro Hle. apply E. lra.
Qed.

Lemma rankedBefore_trans (deal : DealInput) (x y z : DealCandidate.t) :
  rankedBefore deal x y -> rankedBefore deal y z -> rankedBefore deal x z.
Proof.
  unfold rankedBefore.
  intros [Hxy | [Exy Gxy]] [Hyz | [Eyz Gyz]].
  - left. lra.
  - left. lra.
  - left. lra.
  - right. split; lra.
Qed.

Lemma withinPaymentWindow_spec (deal : DealInput) (c : DealCandidate.t) :
  withinPaymentWindow deal c = true <-> paymentInWindow deal c.
Proof.
  unfold withinPaymentWindow, paymentInWindow, Qgeb.
  rewrite andb_true_iff, !Qleb_le. reflexivity.
Qed.

(** C3. [runRehash] returns as [allCandidates] the candidates whose payment
    lies in [targetPayment - paymentTolerance, targetPayment +
    paymentTolerance] if there is one, else all candidates, sorted by net
    check to dealer descending and, on equal net check, by distance of the
    payment from the target ascending; [bestDeal] is the first element of
    that list, and is null exactly when the candidate list is empty. *)
Theorem runRehash_ranking (year : Z) (deal : DealInput)
    (lenders : list LenderConfig) :
  let candidates := generateCandidates year deal lenders in
  let result := runRehash year deal lenders in
  let window := filter (withinPaymentWindow deal) candidates in
  (forall c, In c window <-> In c candidates /\ paymentInWindow deal c)
  /\ Permutation (match window with [] => candidates | _ :: _ => window end)
                 (RehashResult.allCandidates result)
  /\ StronglySorted (rankedBefore deal) (RehashResult.allCandidates result)
  /\ RehashResult.bestDeal result = hd_error (RehashResult.allCandidates result)
  /\ (RehashResult.bestDeal result = None
      <-> RehashResult.allCandidates result = [])
  /\ (RehashResult.bestDeal result = None <-> candidates = []).
Proof.
  intros candidates result window.
  assert (Hpool : selectPool deal candidates
                  = match window with [] => candidates | _ :: _ => window end).
  { unfold selectPool. fold window. destruct window; reflexivity. }
  assert (Hall : RehashResult.allCandidates result
                 = Array_sort (compareCandidates deal) (selectPool deal candidates))
    by reflexivity.
  assert (Hperm : Permutation (selectPool deal candidates)
                              (RehashResult.allCandidates result)).
  { rewrite Hall. apply Array_sort_permutation. }
  assert (Hbest : RehashResult.bestDeal result
                  = hd_error (RehashResult.allCandidates result)).
  { unfold result, runRehash.
    cbn [RehashResult.bestDeal RehashResult.allCandidates].
    destruct (Array_sort _ _); reflexivity. }
  assert (Hwindow : forall c, In c window <-> In c candidates /\ paymentInWindow deal c).
  { intro c. unfold window. rewrite filter_In, withinPaymentWindow_spec.
    reflexivity. }
  assert (Hnone : RehashResult.bestDeal result = None
                  <-> RehashResult.allCandidates result = []).
  { rewrite Hbest. destruct (RehashResult.allCandidates result); simpl;
      split; intro H; (reflexivity || discriminate). }
  split; [exact Hwindow|].
  split; [rewrite <- Hpool; exact Hperm|].
  split.
  { rewrite Hall.
    apply (Array_sort_sorted (compareCandidates deal) (rankedBefore deal)
             (rankedBefore_swap deal) (rankedBefore_keep deal)
             (rankedBefore_trans deal)). }
  split; [exact Hbest|]. split; [exact Hnone|].
  rewrite Hnone. rewrite Hpool in Hperm. split; intro H.
  - rewrite H in Hperm. apply Permutation_sym, Permutation_nil in Hperm.
    destruct window as [|c w] eqn:E; [exact Hperm | discriminate].
  - destruct window as [|c w] eqn:E.
    + rewrite H in Hperm. apply Permutation_nil. exact Hperm.
    + exfalso. assert (Hc : In c candidates) by (apply Hwindow; left; reflexivity).
      rewrite H in Hc. exact Hc.
Qed.

(** The ranking on the late-model sample deal: the window holds 38 of the 72
    candidates, the best one is the 72-month United Auto Credit structure, and
    of the two Western Funding structures with the same net check the one
    whose payment is closer to the target of 450 comes first. *)
Example runRehash_ranking_sample :
  List.length (generateCandidates 2025 (lateModelDeal "Honda") LENDERS) = 72%nat
  /\ map (fun c => (DealCandidate.lenderId c, DealCandidate.termMonths c,
                    Qfloor (DealCandidate.netCheckToDealer c),
                    Qfloor (DealCandidate.payment c)))
         (firstn 3 (RehashResult.allCandidates
                      (runRehash 2025 (lateModelDeal "Honda") LENDERS)))
     = [("uac", 72%Z, 13966%Z, 459%Z);
        ("western_funding", 84%Z, 13721%Z, 439%Z);
        ("western_funding", 72%Z, 13721%Z, 470%Z)]
  /\ List.length (RehashResult.allCandidates
                    (runRehash 2025 (lateModelDeal "Honda") LENDERS)) = 38%nat.
Proof. vm_compute. repeat split. Qed.

(* ================================================================= *)
(** ** The clock *)

(** The same deal and the same lender list evaluated when the clock reads
    2025 and when it reads 2026 give different results: the vehicle is a year
    older, its book value is lower, and the LTV of the best deal moves from
    108% to 118%. *)
Example runRehash_depends_on_clock :
  runRehash 2025 (lateModelDeal "Honda") LENDERS
  <> runRehash 2026 (lateModelDeal "Honda") LENDERS
  /\ RiskAssessment.vehicleAgeYears
       (RehashResult.riskAssessment
          (runRehash 2025 (lateModelDeal "Honda") LENDERS)) = 1%Z
  /\ RiskAssessment.vehicleAgeYears
       (RehashResult.riskAssessment
          (runRehash 2026 (lateModelDeal "Honda") LENDERS)) = 2%Z
  /\ option_map (fun c => Qfloor (DealCandidate.ltv c))
                (RehashResult.bestDeal
                   (runRehash 2025 (lateModelDeal "Honda") LENDERS)) = Some 108%Z
  /\ option_map (fun c => Qfloor (DealCandidate.ltv c))
                (RehashResult.bestDeal
                   (runRehash 2026 (lateModelDeal "Honda") LENDERS)) = Some 118%Z.
Proof.
  split.
  { intro H.
    apply (f_equal (fun r => RiskAssessment.vehicleAgeYears
                               (RehashResult.riskAssessment r))) in H.
    vm_compute in H. discriminate. }
  split; [reflexivity|]. split; [reflexivity|].
  split; vm_compute; reflexivity.
Qed.

(* ================================================================= *)
(** * Further properties of the engine *)

(* ================================================================= *)
(** * Further properties of the engine *)

(** ** Valuation *)

Lemma Math_round_le (x y : Q) : x <= y -> (Math_round x <= Math_round y)%Z.
Proof. intro H. unfold Math_round. apply Qfloor_resp_le. lra. Qed.

Lemma specAgeFactor_clamp (age : Z) :
  (0 <= age)%Z -> specAgeFactor age = specAgeFactor (Z.min age 10).
Proof.
  intro H. destruct (Z_lt_le_dec age 10) as [Hlt | Hge].
  - rewrite Z.min_l by lia. reflexivity.
  - rewrite Z.min_r by lia. unfold specAgeFactor.
    repeat match goal with
           | |- context [(age =? ?k)%Z] => destruct (Z.eqb_spec age k); [lia|]
           end.
    reflexivity.
Qed.

Lemma specAgeFactor_antitone (a b : Z) :
  (0 <= a <= b)%Z -> specAgeFactor b <= specAgeFactor a.
Proof.
  intro H.
  rewrite (specAgeFactor_clamp a), (specAgeFactor_clamp b) by lia.
  assert (Ha : (0 <= Z.min a 10 <= 10)%Z) by lia.
  assert (Hb : (Z.min a 10 <= Z.min b 10 <= 10)%Z) by lia.
  revert Ha Hb. generalize (Z.min a 10) (Z.min b 10). clear a b H.
  intros a b Ha Hb.
  assert (Hac : (a = 0 \/ a = 1 \/ a = 2 \/ a = 3 \/ a = 4 \/ a = 5 \/ a = 6
                 \/ a = 7 \/ a = 8 \/ a = 9 \/ a = 10)%Z) by lia.
  assert (Hbc : (b = 0 \/ b = 1 \/ b = 2 \/ b = 3 \/ b = 4 \/ b = 5 \/ b = 6
                 \/ b = 7 \/ b = 8 \/ b = 9 \/ b = 10)%Z) by lia.
  repeat (destruct Hac as [-> | Hac]);
    repeat (destruct Hbc as [-> | Hbc]);
    try subst a; try subst b; try lia; now vm_compute.
Qed.

Lemma specMileageFactor_antitone (m1 m2 : Q) :
  m1 <= m2 -> specMileageFactor m2 <= specMileageFactor m1.
Proof.
  intro H. unfold specMileageFactor.
  repeat match goal with
         | |- context [Qleb m1 ?k] =>
             let E := fresh "E" in
             destruct (Qleb m1 k) eqn:E;
             [apply Qleb_le in E | apply Qleb_gt in E]
         end;
    repeat match goal with
           | |- context [Qleb m2 ?k] =>
               let E := fresh "E" in
               destruct (Qleb m2 k) eqn:E;
               [apply Qleb_le in E | apply Qleb_gt in E]
           end;
    first [now vm_compute | exfalso; lra].
Qed.

Lemma specFactors_at_most_one (age : Z) (mileage : Q) :
  specAgeFactor age <= 1 /\ specMileageFactor mileage <= 1.
Proof.
  split.
  - unfold specAgeFactor.
    repeat match goal with |- context [if ?b then _ else _] => destruct b end;
      now vm_compute.
  - unfold specMileageFactor.
    repeat match goal with |- context [if ?b then _ else _] => destruct b end;
      now vm_compute.
Qed.

(** X1. Depreciation only lowers the value: for a non-negative retail price
    the book value does not grow when the vehicle is older or has more miles,
    and it never exceeds the retail price rounded to the dollar. *)
Theorem calculateBookValue_antitone (retailPrice : Q) (age1 age2 : Z)
    (mileage1 mileage2 : Q) :
  0 <= retailPrice -> (0 <= age1 <= age2)%Z -> mileage1 <= mileage2 ->
  (calculateBookValue retailPrice age2 mileage2
   <= calculateBookValue retailPrice age1 mileage1)%Z
  /\ (calculateBookValue retailPrice age1 mileage1 <= Math_round retailPrice)%Z.
Proof.
  intros Hp Hage Hmiles.
  rewrite !bookValue_formula by lia.
  assert (Ha := specAgeFactor_antitone age1 age2 Hage).
  assert (Hm := specMileageFactor_antitone mileage1 mileage2 Hmiles).
  assert (Ha2 := specAgeFactor_pos age2).
  assert (Hm2 := specMileageFactor_pos mileage2).
  assert (Ha1 := specAgeFactor_pos age1).
  assert (Hm1 := specMileageFactor_pos mileage1).
  destruct (specFactors_at_most_one age1 mileage1) as [Hone Hone'].
  split; apply Math_round_le.
  - apply Qmult_le_compat_nonneg.
    + split; [apply Qmult_le_0_compat; lra|].
      apply Qmult_le_compat_nonneg; split; lra.
    + split; lra.
  - setoid_replace retailPrice with (retailPrice * 1 * 1) at 2 by ring.
    apply Qmult_le_compat_nonneg.
    + split; [apply Qmult_le_0_compat; lra|].
      apply Qmult_le_compat_nonneg; split; lra.
    + split; lra.
Qed.

Lemma calculateBookValue_antitone_witness :
  0 <= 18995 /\ (0 <= 3 <= 6)%Z /\ 45000 <= 95000
  /\ (calculateBookValue 18995 6 95000 <= calculateBookValue 18995 3 45000)%Z
  /\ (calculateBookValue 18995 3 45000 <= Math_round 18995)%Z.
Proof.
  assert (Hp : 0 <= 18995) by (now vm_compute).
  assert (Ha : (0 <= 3 <= 6)%Z) by lia.
  assert (Hm : 45000 <= 95000) by (now vm_compute).
  split; [exact Hp|]. split; [exact Ha|]. split; [exact Hm|].
  exact (calculateBookValue_antitone 18995 3 6 45000 95000 Hp Ha Hm).
Defined.

Lemma lookupZ_schedule_negative (age : Z) :
  (age < 0)%Z -> lookupZ (Z.min age 10) DEPRECIATION_SCHEDULE = None.
Proof.
  intro H. rewrite Z.min_l by lia. unfold DEPRECIATION_SCHEDULE, lookupZ.
  repeat match goal with
         | |- context [(age =? ?k)%Z] => destruct (Z.eqb_spec age k); [lia|]
         end.
  reflexivity.
Qed.

Lemma bookValue_formula_negative (retailPrice : Q) (age : Z) (mileage : Q) :
  (age < 0)%Z ->
  calculateBookValue retailPrice age mileage
  = Math_round (retailPrice * 0.35 * specMileageFactor mileage).
Proof.
  intro Hage.
  unfold calculateBookValue. rewrite (lookupZ_schedule_negative age Hage).
  unfold specMileageFactor, MILEAGE_DEPRECIATION_BRACKETS. cbn [find maxMiles_b].
  repeat match goal with
         | |- context [Qleb mileage ?k] => destruct (Qleb mileage k)
         end; reflexivity.
Qed.

(** X2. A model year later than the current year gives a negative age, which
    is no key of the depreciation schedule: every negative age is valued
    alike, with the fallback factor, and for a non-negative price no higher
    than a ten-year-old vehicle of the same price and mileage (and so no
    higher than a new one). *)
Theorem calculateBookValue_negative_age (retailPrice : Q) (age : Z) (mileage : Q) :
  (age < 0)%Z ->
  calculateBookValue retailPrice age mileage
  = calculateBookValue retailPrice (-1) mileage
  /\ (0 <= retailPrice ->
      (calculateBookValue retailPrice age mileage
       <= calculateBookValue retailPrice 10 mileage)%Z
      /\ (calculateBookValue retailPrice age mileage
          <= calculateBookValue retailPrice 0 mileage)%Z).
Proof.
  intro Hage.
  assert (Hformula := bookValue_formula_negative retailPrice age mileage Hage).
  split.
  { rewrite Hformula.
    rewrite (bookValue_formula_negative retailPrice (-1) mileage) by lia.
    reflexivity. }
  intro Hp.
  assert (Hm := specMileageFactor_pos mileage).
  assert (Hprod : 0 <= retailPrice * 0.35) by (apply Qmult_le_0_compat; lra).
  split; rewrite Hformula.
  - rewrite (bookValue_formula retailPrice 10 mileage) by lia.
    apply Math_round_le.
    change (specAgeFactor 10) with 0.38.
    apply Qmult_le_compat_nonneg; [|split; lra].
    split; [exact Hprod|].
    apply Qmult_le_compat_nonneg; split; lra.
  - rewrite (bookValue_formula retailPrice 0 mileage) by lia.
    apply Math_round_le.
    change (specAgeFactor 0) with 1.00.
    apply Qmult_le_compat_nonneg; [|split; lra].
    split; [exact Hprod|].
    apply Qmult_le_compat_nonneg; split; lra.
Qed.

Lemma calculateBookValue_negative_age_witness :
  (-3 < 0)%Z /\ 0 <= 20000
  /\ calculateBookValue 20000 (-3) 5000 = calculateBookValue 20000 (-1) 5000
  /\ (calculateBookValue 20000 (-3) 5000 <= calculateBookValue 20000 10 5000)%Z
  /\ calculateBookValue 20000 (-3) 5000 = 7000%Z
  /\ calculateBookValue 20000 10 5000 = 7600%Z.
Proof.
  assert (Ha : (-3 < 0)%Z) by lia.
  assert (Hp : 0 <= 20000) by (now vm_compute).
  destruct (calculateBookValue_negative_age 20000 (-3) 5000 Ha) as [Hsame Hle].
  split; [exact Ha|]. split; [exact Hp|]. split; [exact Hsame|].
  split; [apply (Hle Hp)|]. split; reflexivity.
Defined.

(* ================================================================= *)
(** ** Risk score *)

Lemma div_geb_mono (a1 a2 b c : Q) :
  0 <= b -> a1 <= a2 -> div_geb a1 b c = true -> div_geb a2 b c = true.
Proof.
  intros Hb Ha. unfold div_geb.
  destruct (Qeqb b 0) eqn:E.
  - rewrite !Qltb_lt. lra.
  - apply Qeqb_neq in E. unfold Qgeb. rewrite !Qleb_le. intro H.
    eapply Qle_trans; [exact H|].
    apply Qmult_le_compat_r; [exact Ha|].
    apply Qinv_le_0_compat. exact Hb.
Qed.

Lemma div_geb_threshold (a b c1 c2 : Q) :
  c2 <= c1 -> div_geb a b c1 = true -> div_geb a b c2 = true.
Proof.
  intro Hc. unfold div_geb. destruct (Qeqb b 0); [tauto|].
  unfold Qgeb. rewrite !Qleb_le. lra.
Qed.

Lemma clamp_mono (x y : Q) :
  x <= y -> Math_max 0 (Math_min 100 x) <= Math_max 0 (Math_min 100 y).
Proof.
  intro H. unfold Math_max, Math_min.
  apply Q.max_le_compat_l, Q.min_le_compat_l, H.
Qed.

(** X5. The risk score always lies in [0, 100], and for a non-negative
    vehicle price a larger down payment never lowers it. *)
Theorem calculateRiskScore_down_payment (year : Z) (deal : DealInput)
    (lender : LenderConfig) (down : Q) :
  0 <= vehiclePrice deal -> downPayment deal <= down ->
  0 <= calculateRiskScore year deal lender <= 100
  /\ calculateRiskScore year deal lender
     <= calculateRiskScore year (withDownPayment deal down) lender.
Proof.
  intros Hprice Hdown. split.
  - unfold calculateRiskScore, Math_max, Math_min. split.
    + apply Q.le_max_l.
    + apply Q.max_lub; [now vm_compute | apply Q.le_min_l].
  - unfold calculateRiskScore.
    cbn [withDownPayment customerCreditTier downPayment vehiclePrice vehicleYear
         vehicleMileage vehicleMake].
    set (p := vehiclePrice deal) in *. set (d := downPayment deal) in *.
    assert (H20 := div_geb_mono d down p 0.20 Hprice Hdown).
    assert (H15 := div_geb_mono d down p 0.15 Hprice Hdown).
    assert (H10 := div_geb_mono d down p 0.10 Hprice Hdown).
    assert (T1 := div_geb_threshold d p 0.20 0.15 ltac:(now vm_compute)).
    assert (T2 := div_geb_threshold d p 0.15 0.10 ltac:(now vm_compute)).
    set (s := 50 + tierScores (customerCreditTier deal)).
    assert (Hbonus :
      (if div_geb d p 0.20 then s + 15
       else if div_geb d p 0.15 then s + 10
       else if div_geb d p 0.10 then s + 5 else s)
      <= (if div_geb down p 0.20 then s + 15
          else if div_geb down p 0.15 then s + 10
          else if div_geb down p 0.10 then s + 5 else s)).
    { destruct (div_geb d p 0.20); [rewrite (H20 eq_refl); lra|].
      destruct (div_geb d p 0.15);
        [rewrite (H15 eq_refl); destruct (div_geb down p 0.20); lra|].
      destruct (div_geb d p 0.10);
        [rewrite (H10 eq_refl);
         destruct (div_geb down p 0.20); [lra|];
         destruct (div_geb down p 0.15); lra|].
      destruct (div_geb down p 0.20); [lra|].
      destruct (div_geb down p 0.15); [lra|].
      destruct (div_geb down p 0.10); lra. }
    revert Hbonus.
    generalize (if div_geb d p 0.20 then s + 15
                else if div_geb d p 0.15 then s + 10
                else if div_geb d p 0.10 then s + 5 else s).
    generalize (if div_geb down p 0.20 then s + 15
                else if div_geb down p 0.15 then s + 10
                else if div_geb down p 0.10 then s + 5 else s).
    intros s2 s1 Hs. apply clamp_mono.
    repeat match goal with
           | |- context [if ?b then _ else _] => destruct b
           end; lra.
Qed.

Lemma calculateRiskScore_down_payment_witness :
  0 <= vehiclePrice (sampleDealOf "Honda" 2019)
  /\ downPayment (sampleDealOf "Honda" 2019) <= 4000
  /\ calculateRiskScore 2025 (sampleDealOf "Honda" 2019) uac
     <= calculateRiskScore 2025 (withDownPayment (sampleDealOf "Honda" 2019) 4000)
                           uac
  /\ calculateRiskScore 2025 (sampleDealOf "Honda" 2019) uac == 65
  /\ calculateRiskScore 2025 (withDownPayment (sampleDealOf "Honda" 2019) 4000) uac
     == 70.
Proof.
  assert (Hp : 0 <= vehiclePrice (sampleDealOf "Honda" 2019)) by (now vm_compute).
  assert (Hd : downPayment (sampleDealOf "Honda" 2019) <= 4000) by (now vm_compute).
  split; [exact Hp|]. split; [exact Hd|].
  split; [|split; reflexivity].
  apply (calculateRiskScore_down_payment 2025 (sampleDealOf "Honda" 2019) uac
           4000 Hp Hd).
Defined.

(* ================================================================= *)
(** ** Payment to income *)

Lemma getPtiLimit_pos (tier : CreditTier) : 0 < getPtiLimit tier.
Proof. destruct tier; reflexivity. Qed.



(* ================================================================= *)
(** ** Eligibility reasons *)

Lemma isVehicleEligible_reasons_eq (year : Z) (deal : DealInput)
    (lender : LenderConfig) :
  let reasons :=
    (if (year - vehicleYear deal >? maxAge (vehicleRestrictions lender))%Z
     then [VehicleTooOld (year - vehicleYear deal)
                         (maxAge (vehicleRestrictions lender)) (name lender)]
     else [])
    ++ (if Qgtb (vehicleMileage deal) (maxMileage (vehicleRestrictions lender))
        then [MileageTooHigh (vehicleMileage deal)
                             (maxMileage (vehicleRestrictions lender))
                             (name lender)]
        else [])
    ++ (if existsb (fun excluded => sameMake excluded (trim (vehicleMake deal)))
                   (excludedMakes (vehicleRestrictions lender))
        then [MakeNotEligible (trim (vehicleMake deal)) (name lender)]
        else []) in
  VehicleEligibilityResult.reasons (isVehicleEligible year deal lender) = reasons
  /\ VehicleEligibilityResult.isEligible (isVehicleEligible year deal lender)
     = Nat.eqb (List.length reasons) 0.
Proof.
  unfold isVehicleEligible.
  destruct (applyPreferences _ _ _) as [am ws].
  destruct (existsb (fun m => sameMake m (trim (vehicleMake deal))) THEFT_RISK_MAKES
            && _); [|split; reflexivity].
  destruct (negb _ && _); split; reflexivity.
Qed.

(** X8. For makes written in ASCII, [isVehicleEligible] accepts a vehicle
    exactly when its age and mileage are within the lender's restrictions and
    its make (white space stripped, case ignored) is not among the excluded
    makes; each failed test contributes its own reason, none hides another. *)
Theorem isVehicleEligible_reasons (year : Z) (deal : DealInput)
    (lender : LenderConfig) :
  isAsciiText (vehicleMake deal) = true ->
  (forall e, In e (excludedMakes (vehicleRestrictions lender)) ->
             isAsciiText e = true) ->
  let result := isVehicleEligible year deal lender in
  let age := (year - vehicleYear deal)%Z in
  let limits := vehicleRestrictions lender in
  let excluded :=
    exists e, In e (excludedMakes limits)
              /\ toLowerCase e = toLowerCase (trim (vehicleMake deal)) in
  (VehicleEligibilityResult.isEligible result = true
   <-> (age <= maxAge limits)%Z
       /\ vehicleMileage deal <= maxMileage limits
       /\ ~ excluded)
  /\ ((maxAge limits < age)%Z
      <-> In (VehicleTooOld age (maxAge limits) (name lender))
             (VehicleEligibilityResult.reasons result))
  /\ (maxMileage limits < vehicleMileage deal
      <-> In (MileageTooHigh (vehicleMileage deal) (maxMileage limits) (name lender))
             (VehicleEligibilityResult.reasons result))
  /\ (excluded
      <-> In (MakeNotEligible (trim (vehicleMake deal)) (name lender))
             (VehicleEligibilityResult.reasons result)).
Proof.
  intros _ _ result age limits excluded.
  destruct (isVehicleEligible_reasons_eq year deal lender) as [Hr He].
  fold result age limits in Hr, He. rewrite Hr, He. clear Hr He.
  assert (Hx : existsb (fun e => sameMake e (trim (vehicleMake deal)))
                       (excludedMakes limits) = true <-> excluded).
  { rewrite existsb_exists. unfold excluded, sameMake.
    split; intros (e & Hin & H); exists e; (split; [exact Hin|]);
      apply String.eqb_eq; exact H. }
  destruct (age >? maxAge limits)%Z eqn:Ea;
    [apply Z.gtb_lt in Ea | rewrite Z.gtb_ltb in Ea; apply Z.ltb_ge in Ea];
    (destruct (Qgtb (vehicleMileage deal) (maxMileage limits)) eqn:Em;
     [apply Qgtb_gt in Em | apply Qgtb_le in Em]);
    (destruct (existsb _ (excludedMakes limits)) eqn:Ee;
     [assert (Hex : excluded) by (apply Hx; reflexivity)
     |assert (Hex : ~ excluded) by (intro H; apply Hx in H; discriminate)]);
    cbn [app List.length Nat.eqb In];
    (split; [split; [discriminate || (intros _; repeat split; (lia || lra || assumption))
                    | intros (H1 & H2 & H3); first [reflexivity | lia | lra | contradiction]]|]);
    (split; [split; [intro H; first [left; reflexivity | lia]
                    | intro H; first [exact Ea | lia
                                      | repeat (destruct H as [H | H]; try discriminate H);
                                        contradiction]]|]);
    (split; [split; [intro H; first [now (repeat (try (left; reflexivity); right)) | lra]
                    | intro H; first [exact Em
                                      | repeat (destruct H as [H | H]; try discriminate H);
                                        contradiction]]|]);
    (split; [intro H; first [now (repeat (try (left; reflexivity); right)) | contradiction]
            | intro H; first [exact Hex
                              | repeat (destruct H as [H | H]; try discriminate H);
                                contradiction]]).
Qed.

Lemma isVehicleEligible_reasons_witness :
  isAsciiText (vehicleMake (sampleDealOf " ferrari " 2019)) = true
  /\ (forall e, In e (excludedMakes (vehicleRestrictions westlake)) ->
                isAsciiText e = true)
  /\ VehicleEligibilityResult.isEligible
       (isVehicleEligible 2025 (sampleDealOf " ferrari " 2019) westlake) = false
  /\ In (MakeNotEligible "ferrari" (name westlake))
        (VehicleEligibilityResult.reasons
           (isVehicleEligible 2025 (sampleDealOf " ferrari " 2019) westlake)).
Proof.
  assert (Hmake : isAsciiText (vehicleMake (sampleDealOf " ferrari " 2019)) = true)
    by reflexivity.
  assert (Hexcluded : forall e, In e (excludedMakes (vehicleRestrictions westlake)) ->
                                isAsciiText e = true).
  { intros e Hin. cbn in Hin.
    repeat (destruct Hin as [<- | Hin]; [reflexivity|]). contradiction. }
  split; [exact Hmake|]. split; [exact Hexcluded|]. split; [reflexivity|].
  destruct (isVehicleEligible_reasons 2025 (sampleDealOf " ferrari " 2019) westlake
              Hmake Hexcluded) as (_ & _ & _ & Hreason).
  apply Hreason. exists "Ferrari". split; [|reflexivity].
  cbn. tauto.
Defined.

(* ================================================================= *)
(** ** The make is compared without case and surrounding white space *)

Lemma preferenceApplies_withMake (deal : DealInput) (make : string)
    (p : VehiclePreference.t) :
  toLowerCase (trim make) = toLowerCase (trim (vehicleMake deal)) ->
  preferenceApplies (withMake deal make) p = preferenceApplies deal p.
Proof.
  intro H. unfold preferenceApplies, sameMake.
  cbn [withMake vehicleMake vehicleYear]. rewrite H. reflexivity.
Qed.

(** X9. Two ASCII spellings of a make that agree once surrounding white
    space is stripped and case is ignored are treated alike by a lender whose
    makes are written in ASCII: eligibility, the advance multiplier and the
    number of reasons and warnings are the same. *)
Theorem isVehicleEligible_make_spelling (year : Z) (deal : DealInput)
    (lender : LenderConfig) (make : string) :
  isAsciiText make = true -> isAsciiText (vehicleMake deal) = true ->
  (forall e, In e (excludedMakes (vehicleRestrictions lender)) ->
             isAsciiText e = true) ->
  (forall p, In p (vehiclePreferences lender) ->
             isAsciiText (VehiclePreference.make p) = true) ->
  toLowerCase (trim make) = toLowerCase (trim (vehicleMake deal)) ->
  let a := isVehicleEligible year (withMake deal make) lender in
  let b := isVehicleEligible year deal lender in
  VehicleEligibilityResult.isEligible a = VehicleEligibilityResult.isEligible b
  /\ VehicleEligibilityResult.advanceMultiplier a
     = VehicleEligibilityResult.advanceMultiplier b
  /\ List.length (VehicleEligibilityResult.reasons a)
     = List.length (VehicleEligibilityResult.reasons b)
  /\ List.length (VehicleEligibilityResult.warnings a)
     = List.length (VehicleEligibilityResult.warnings b).
Proof.
  intros _ _ _ _ H a b.
  assert (Hfilter : filter (preferenceApplies (withMake deal make))
                           (vehiclePreferences lender)
                    = filter (preferenceApplies deal) (vehiclePreferences lender)).
  { apply filter_ext. intro p. apply preferenceApplies_withMake, H. }
  assert (Hfst : fst (applyPreferences (withMake deal make) (trim make)
                                       (vehiclePreferences lender))
                 = fst (applyPreferences deal (trim (vehicleMake deal))
                                         (vehiclePreferences lender))).
  { unfold applyPreferences.
    rewrite (applyPreferences_from (withMake deal make)), applyPreferences_from.
    cbn [fst]. rewrite Hfilter. reflexivity. }
  assert (Hlen : List.length (snd (applyPreferences (withMake deal make) (trim make)
                                                    (vehiclePreferences lender)))
                 = List.length (snd (applyPreferences deal (trim (vehicleMake deal))
                                                      (vehiclePreferences lender)))).
  { rewrite (scanned_warnings (withMake deal make)), scanned_warnings, Hfilter.
    assert (Hall : forall l,
               List.length (flat_map (preferenceWarnings (withMake deal make)) l)
               = List.length (flat_map (preferenceWarnings deal) l)).
    { induction l as [|p l IH]; [reflexivity|].
      cbn [flat_map]. rewrite !length_app, IH. f_equal.
      unfold preferenceWarnings.
      destruct (Qltb _ 1); [reflexivity|]. destruct (Qgtb _ 1); reflexivity. }
    apply Hall. }
  assert (Hfires :
    existsb (fun m => sameMake m (trim make)) THEFT_RISK_MAKES
    && ((THEFT_RISK_YEAR_START <=? vehicleYear deal)
        && (vehicleYear deal <=? THEFT_RISK_YEAR_END))%Z
    && (negb (hasTheftPenalty (withMake deal make) (trim make)
                              (vehiclePreferences lender))
        && Qeqb (fst (applyPreferences (withMake deal make) (trim make)
                                       (vehiclePreferences lender))) 1)
    = existsb (fun m => sameMake m (trim (vehicleMake deal))) THEFT_RISK_MAKES
      && ((THEFT_RISK_YEAR_START <=? vehicleYear deal)
          && (vehicleYear deal <=? THEFT_RISK_YEAR_END))%Z
      && (negb (hasTheftPenalty deal (trim (vehicleMake deal))
                                (vehiclePreferences lender))
          && Qeqb (fst (applyPreferences deal (trim (vehicleMake deal))
                                         (vehiclePreferences lender))) 1)).
  { rewrite Hfst. unfold hasTheftPenalty, sameMake.
    cbn [withMake vehicleYear]. rewrite H. reflexivity. }
  destruct (isVehicleEligible_multiplier (withMake deal make) year lender)
    as [Ham Hws].
  destruct (isVehicleEligible_multiplier deal year lender) as [Ham' Hws'].
  destruct (isVehicleEligible_reasons_eq year (withMake deal make) lender)
    as [Hr He].
  destruct (isVehicleEligible_reasons_eq year deal lender) as [Hr' He'].
  cbn [withMake vehicleMake vehicleYear vehicleMileage] in *.
  assert (Hreasons : List.length (VehicleEligibilityResult.reasons a)
                     = List.length (VehicleEligibilityResult.reasons b)).
  { unfold a, b. rewrite Hr, Hr'. unfold sameMake. rewrite H.
    repeat match goal with
           | |- context [if ?c then _ else _] => destruct c
           end; reflexivity. }
  split; [|split; [|split]].
  - unfold a, b. rewrite He, He'. unfold sameMake. rewrite H.
    repeat match goal with
           | |- context [if ?c then _ else _] => destruct c
           end; reflexivity.
  - unfold a, b. rewrite Ham, Ham', Hfires, Hfst. reflexivity.
  - exact Hreasons.
  - rewrite Hfires in Hws. unfold a, b. rewrite Hws, Hws'.
    match goal with
    | |- context [if ?c then _ else _] => destruct c
    end; rewrite ?length_app, Hlen; reflexivity.
Qed.

Lemma isVehicleEligible_make_spelling_witness :
  isAsciiText "  hYUNDAI " = true
  /\ isAsciiText (vehicleMake (sampleDealOf "Hyundai" 2015)) = true
  /\ toLowerCase (trim "  hYUNDAI ")
     = toLowerCase (trim (vehicleMake (sampleDealOf "Hyundai" 2015)))
  /\ VehicleEligibilityResult.advanceMultiplier
       (isVehicleEligible 2025 (withMake (sampleDealOf "Hyundai" 2015) "  hYUNDAI ")
                          uac)
     = VehicleEligibilityResult.advanceMultiplier
         (isVehicleEligible 2025 (sampleDealOf "Hyundai" 2015) uac)
  /\ VehicleEligibilityResult.advanceMultiplier
       (isVehicleEligible 2025 (sampleDealOf "Hyundai" 2015) uac) = 0.85.
Proof.
  assert (Hmake : isAsciiText "  hYUNDAI " = true) by reflexivity.
  assert (Hdeal : isAsciiText (vehicleMake (sampleDealOf "Hyundai" 2015)) = true)
    by reflexivity.
  assert (Hexcluded : forall e, In e (excludedMakes (vehicleRestrictions uac)) ->
                                isAsciiText e = true).
  { intros e Hin. cbn in Hin.
    repeat (destruct Hin as [<- | Hin]; [reflexivity|]). contradiction. }
  assert (Hprefs : forall p, In p (vehiclePreferences uac) ->
                             isAsciiText (VehiclePreference.make p) = true).
  { intros p Hin. cbn in Hin.
    repeat (destruct Hin as [<- | Hin]; [reflexivity|]). contradiction. }
  assert (H : toLowerCase (trim "  hYUNDAI ")
              = toLowerCase (trim (vehicleMake (sampleDealOf "Hyundai" 2015))))
    by reflexivity.
  split; [exact Hmake|]. split; [exact Hdeal|]. split; [exact H|].
  split; [|reflexivity].
  apply (isVehicleEligible_make_spelling 2025 (sampleDealOf "Hyundai" 2015) uac
           "  hYUNDAI " Hmake Hdeal Hexcluded Hprefs H).
Defined.

(* ================================================================= *)
(** ** Risk assessment *)

Lemma assessRisk_warranty_reason (year : Z) (deal : DealInput) :
  RiskAssessment.outOfWarrantyReason (assessRisk year deal) = None
  <-> RiskAssessment.isOutOfWarranty (assessRisk year deal) = false.
Proof.
  unfold assessRisk.
  cbn [RiskAssessment.isOutOfWarranty RiskAssessment.outOfWarrantyReason].
  destruct (_ >? _)%Z; destruct (Qgtb _ _);
    cbn; split; intro H; (reflexivity || discriminate).
Qed.

(** X10. [assessRisk] flags a deal as upside down exactly when the LTV
    percentage it reports exceeds 100, which needs a positive book value; it
    flags the vehicle as out of warranty exactly when it is older than 3
    years or has more than 36,000 miles; the warranty reason is null exactly
    when the vehicle is in warranty and "both" exactly when both thresholds
    are passed; GAP is recommended exactly when upside down and VSC exactly
    when out of warranty. *)
Theorem assessRisk_flags (year : Z) (deal : DealInput) :
  let result := assessRisk year deal in
  let age := (year - vehicleYear deal)%Z in
  let bookValue :=
    calculateBookValue (vehiclePrice deal) age (vehicleMileage deal) in
  (RiskAssessment.isUpsideDown result = true
   <-> 100 < RiskAssessment.ltvPercent result)
  /\ (RiskAssessment.isUpsideDown result = true -> (0 < bookValue)%Z)
  /\ (RiskAssessment.isOutOfWarranty result = true
      <-> (3 < age)%Z \/ 36000 < vehicleMileage deal)
  /\ (RiskAssessment.outOfWarrantyReason result = None
      <-> RiskAssessment.isOutOfWarranty result = false)
  /\ (RiskAssessment.outOfWarrantyReason result = Some reason_both
      <-> (3 < age)%Z /\ 36000 < vehicleMileage deal)
  /\ RiskAssessment.recommendGap result = RiskAssessment.isUpsideDown result
  /\ RiskAssessment.recommendVsc result = RiskAssessment.isOutOfWarranty result.
Proof.
  intros result age bookValue. unfold result, assessRisk.
  fold age. fold bookValue.
  cbn [RiskAssessment.isUpsideDown RiskAssessment.isOutOfWarranty
       RiskAssessment.outOfWarrantyReason RiskAssessment.recommendGap
       RiskAssessment.recommendVsc RiskAssessment.ltvPercent].
  unfold WARRANTY_AGE_THRESHOLD, WARRANTY_MILEAGE_THRESHOLD.
  split; [apply Qgtb_gt|].
  split; [|split; [|split; [|split; [|split; reflexivity]]]].
  - destruct (bookValue >? 0)%Z eqn:E.
    + intros _. apply Z.gtb_lt, E.
    + intro H. vm_compute in H. discriminate.
  - rewrite orb_true_iff, Z.gtb_lt, Qgtb_gt. reflexivity.
  - destruct (age >? 3)%Z; destruct (Qgtb (vehicleMileage deal) 36000);
      cbn; split; intro H; (reflexivity || discriminate).
  - rewrite <- (Z.gtb_lt age 3), <- (Qgtb_gt (vehicleMileage deal) 36000).
    destruct (age >? 3)%Z; destruct (Qgtb (vehicleMileage deal) 36000);
      cbn; split; intro H; try reflexivity; try discriminate;
      try (destruct H; discriminate); try (split; reflexivity).
Qed.

(* ================================================================= *)
(** ** Smart note *)

(** X11. The smart note always has at least one sentence; a VSC-stripped
    note starts with the removal of VSC and an all-stripped note is the
    single sentence about removed products; and with the risk assessment that
    [assessRisk] produces the generic sentence "Optimal product coverage
    included" is never used. *)
Theorem generateSmartNote_sentences (hasGap hasVsc : bool)
    (riskAssessment : RiskAssessment.t) (level : OptimizationLevel) :
  generateSmartNote hasGap hasVsc riskAssessment level <> []
  /\ (level = vsc_stripped ->
      hd_error (generateSmartNote hasGap hasVsc riskAssessment level)
      = Some NoteRemovedVsc)
  /\ (level = all_stripped ->
      generateSmartNote hasGap hasVsc riskAssessment level = [NoteProductsRemoved])
  /\ (forall year deal,
        riskAssessment = assessRisk year deal ->
        ~ In NoteOptimalCoverage
             (generateSmartNote hasGap hasVsc riskAssessment level)).
Proof.
  split; [|split; [|split]].
  - unfold generateSmartNote.
    destruct level, hasGap, hasVsc,
      (RiskAssessment.isUpsideDown riskAssessment),
      (RiskAssessment.isOutOfWarranty riskAssessment),
      (RiskAssessment.outOfWarrantyReason riskAssessment) as [[]|];
      cbn; discriminate.
  - intros ->. destruct hasGap; reflexivity.
  - intros ->. reflexivity.
  - intros year deal ->.
    assert (Hreason := assessRisk_warranty_reason year deal).
    unfold generateSmartNote.
    destruct (RiskAssessment.outOfWarrantyReason (assessRisk year deal))
      as [[]|] eqn:Er;
      destruct (RiskAssessment.isOutOfWarranty (assessRisk year deal)) eqn:Ew;
      try (destruct Hreason as [Hreason _]; specialize (Hreason eq_refl);
           discriminate Hreason);
      destruct level, hasGap, hasVsc,
        (RiskAssessment.isUpsideDown (assessRisk year deal));
      cbn; intro H;
      repeat (destruct H as [H | H]; [discriminate H|]); exact H.
Qed.

(* ================================================================= *)
(** ** Backend scenario totals *)

(** X12. The totals of the optimal and of the VSC-stripped scenario are
    capped at the lender's [maxBackendTotal], and stripping VSC never raises
    the total; the all-stripped scenario carries the other-products total as
    it is, without the cap, so it exceeds the cap whenever that total does. *)
Theorem buildSmartScenarios_totals (deal : DealInput)
    (riskAssessment : RiskAssessment.t) (lender : LenderConfig) :
  let scenarios := buildSmartScenarios deal riskAssessment lender in
  let other := otherProductsTotal (backendProducts deal) in
  (forall s, In s scenarios ->
             BackendScenario.optimizationLevel s <> all_stripped ->
             BackendScenario.value s <= maxBackendTotal lender)
  /\ (forall s t, In s scenarios -> In t scenarios ->
                  BackendScenario.optimizationLevel s = optimal ->
                  BackendScenario.optimizationLevel t = vsc_stripped ->
                  BackendScenario.value t <= BackendScenario.value s)
  /\ (forall s, In s scenarios ->
                BackendScenario.optimizationLevel s = all_stripped ->
                BackendScenario.value s = other)
  /\ (maxBackendTotal lender < other ->
      exists s, In s scenarios /\ maxBackendTotal lender < BackendScenario.value s).
Proof.
  intros scenarios other. unfold scenarios, buildSmartScenarios. fold other.
  set (g := if RiskAssessment.recommendGap riskAssessment || gap (backendProducts deal)
            then GAP_PRICE else 0).
  assert (Hg : 0 <= g).
  { unfold g, GAP_PRICE. destruct (_ || _); now vm_compute. }
  destruct (RiskAssessment.recommendVsc riskAssessment || vsc (backendProducts deal));
    cbn [app In].
  - split; [|split; [|split]].
    + intros s [<- | [<- | [<- | []]]] Hl; cbn in *;
        try (contradiction Hl; reflexivity); apply Q.le_min_r.
    + intros s t [<- | [<- | [<- | []]]] [<- | [<- | [<- | []]]] Hs Ht;
        cbn in *; try discriminate.
      unfold Math_min, VSC_PRICE. apply Q.min_le_compat_r. lra.
    + intros s [<- | [<- | [<- | []]]] Hl; cbn in *; try discriminate.
      reflexivity.
    + intro H. eexists. split; [right; right; left; reflexivity|]. exact H.
  - split; [|split; [|split]].
    + intros s [<- | [<- | []]] Hl; cbn in *;
        try (contradiction Hl; reflexivity); apply Q.le_min_r.
    + intros s t [<- | [<- | []]] [<- | [<- | []]] Hs Ht; cbn in *; discriminate.
    + intros s [<- | [<- | []]] Hl; cbn in *; try discriminate. reflexivity.
    + intro H. eexists. split; [right; left; reflexivity|]. exact H.
Qed.

Lemma buildSmartScenarios_totals_witness :
  let deal := withDownPayment (sampleDealOf "Honda" 2019) 3000 in
  let lender := lenderWith [] in
  In (BackendScenario.mk "Optimal Coverage" 2700 true true optimal)
     (buildSmartScenarios deal (assessRisk 2025 deal) lender)
  /\ BackendScenario.optimizationLevel
       (BackendScenario.mk "Optimal Coverage" 2700 true true optimal)
     <> all_stripped
  /\ 2700 <= maxBackendTotal lender.
Proof.
  intros deal lender.
  assert (Hin : In (BackendScenario.mk "Optimal Coverage" 2700 true true optimal)
                   (buildSmartScenarios deal (assessRisk 2025 deal) lender))
    by (left; reflexivity).
  assert (Hl : BackendScenario.optimizationLevel
                 (BackendScenario.mk "Optimal Coverage" 2700 true true optimal)
               <> all_stripped) by discriminate.
  split; [exact Hin|]. split; [exact Hl|].
  destruct (buildSmartScenarios_totals deal (assessRisk 2025 deal) lender)
    as (Hcap & _).
  apply (Hcap _ Hin Hl).
Defined.

(* ================================================================= *)
(** ** Net check *)

Lemma lookupS_In {V : Type} (k : string) (m : list (string * V)) (v : V) :
  lookupS k m = Some v -> In (k, v) m.
Proof.
  induction m as [|[k' v'] m IH]; simpl; [discriminate|].
  destruct (String.eqb_spec k k') as [-> | Hne].
  - intro H. injection H as <-. left. reflexivity.
  - intro H. right. apply IH, H.
Qed.

Lemma Qmult_le_nonneg_l (c a b : Q) : 0 <= c -> a <= b -> c * a <= c * b.
Proof.
  intros Hc Hab.
  assert (H : 0 <= c * (b - a)) by (apply Qmult_le_0_compat; lra).
  lra.
Qed.

Lemma advance_config_fees (k : string) (cfg : LenderAdvanceConfig) :
  lookupS k LENDER_ADVANCE_CONFIGS = Some cfg ->
  0 <= docFee cfg + originationFee cfg + miscFees cfg
  /\ 0 <= holdbackPercent cfg <= 1.
Proof.
  intro H. apply lookupS_In in H. simpl in H.
  destruct H as [H | [H | [H | []]]]; injection H as _ <-; cbn;
    repeat split; now vm_compute.
Qed.

Lemma grossAdvanceFor_le (year : Z) (deal : DealInput) (lender : LenderConfig)
    (cfg : LenderAdvanceConfig) (amountFinanced advanceMultiplier : Q) :
  grossAdvanceFor year deal lender cfg amountFinanced advanceMultiplier
  <= amountFinanced.
Proof.
  unfold grossAdvanceFor, Math_min.
  destruct (advanceType cfg); apply Q.le_min_l.
Qed.

Lemma netOfHoldback_le (G F h a : Q) :
  G <= a -> 0 <= a -> 0 <= F -> 0 <= h <= 1 -> G - F - G * h <= a.
Proof.
  intros HG Ha HF Hh.
  destruct (Qlt_le_dec G 0) as [Hneg | Hpos].
  - assert (H : 0 <= (- G) * h) by (apply Qmult_le_0_compat; lra).
    assert (H' : G * (1 - h) <= 0).
    { assert (0 <= (- G) * (1 - h)) by (apply Qmult_le_0_compat; lra). lra. }
    lra.
  - assert (H : 0 <= G * h) by (apply Qmult_le_0_compat; lra). lra.
Qed.

(** X13. For a lender whose id is no property name inherited from
    [Object.prototype], the net check to the dealer is never negative, and
    for a non-negative amount financed, trade payoff and lender fee percent
    it never exceeds the amount financed: fees, holdback and the trade payoff
    only reduce what the lender funds. *)
Theorem estimateNetCheckAndProfit_bounds (year : Z) (deal : DealInput)
    (lender : LenderConfig) (tierRow : LenderTierPricing)
    (amountFinanced backendTotal advanceMultiplier : Q) :
  ~ In (id lender) objectPrototypeKeys ->
  0 <= amountFinanced -> 0 <= tradePayoff deal -> 0 <= lenderFeePercent lender ->
  let est := estimateNetCheckAndProfit year deal lender tierRow amountFinanced
               backendTotal advanceMultiplier in
  0 <= NetCheck.netCheckToDealer est
  /\ NetCheck.netCheckToDealer est <= amountFinanced.
Proof.
  intros _ Ha Hp Hf est. unfold est, estimateNetCheckAndProfit.
  cbn [NetCheck.netCheckToDealer]. unfold Math_max.
  split; [apply Q.le_max_r|].
  apply Q.max_lub; [|exact Ha].
  destruct (lookupS (id lender) LENDER_ADVANCE_CONFIGS) as [cfg|] eqn:E.
  - destruct (advance_config_fees _ _ E) as [HF Hh].
    assert (HG := grossAdvanceFor_le year deal lender cfg amountFinanced
                    advanceMultiplier).
    assert (H := netOfHoldback_le _ _ _ _ HG Ha HF Hh). lra.
  - assert (HG : calculateFallbackAdvance deal tierRow amountFinanced
                   (calculateBookValue (vehiclePrice deal)
                      (year - vehicleYear deal) (vehicleMileage deal))
                   advanceMultiplier <= amountFinanced).
    { unfold calculateFallbackAdvance, Math_min.
      eapply Qle_trans; [apply Q.le_min_l|]. apply Q.le_min_l. }
    assert (Hfee : 0 <= lenderFeePercent lender / 100 * amountFinanced).
    { apply Qmult_le_0_compat; [|exact Ha].
      apply Qle_shift_div_l; [reflexivity | lra]. }
    lra.
Qed.

Lemma estimateNetCheckAndProfit_bounds_witness :
  ~ In (id westlake) objectPrototypeKeys
  /\ 0 <= 16000 /\ 0 <= tradePayoff (lateModelDeal "Honda")
  /\ 0 <= lenderFeePercent westlake
  /\ NetCheck.netCheckToDealer
       (estimateNetCheckAndProfit 2025 (lateModelDeal "Honda") westlake
          (tierPricing subprime 18 23 0.1 115 140 140) 16000 0 1) <= 16000
  /\ Qfloor (NetCheck.netCheckToDealer
       (estimateNetCheckAndProfit 2025 (lateModelDeal "Honda") westlake
          (tierPricing subprime 18 23 0.1 115 140 140) 16000 0 1)) = 11136%Z.
Proof.
  assert (Hid : ~ In (id westlake) objectPrototypeKeys).
  { cbn. intro H. repeat (destruct H as [H | H]; [discriminate H|]). exact H. }
  assert (Ha : 0 <= 16000) by (now vm_compute).
  assert (Hp : 0 <= tradePayoff (lateModelDeal "Honda")) by (now vm_compute).
  assert (Hf : 0 <= lenderFeePercent westlake) by (now vm_compute).
  split; [exact Hid|]. split; [exact Ha|]. split; [exact Hp|]. split; [exact Hf|].
  split; [|now vm_compute].
  apply (estimateNetCheckAndProfit_bounds 2025 (lateModelDeal "Honda") westlake
           (tierPricing subprime 18 23 0.1 115 140 140) 16000 0 1 Hid Ha Hp Hf).
Defined.

Lemma netOfHoldback_mono (G1 G2 F h p : Q) :
  G1 <= G2 -> h <= 1 ->
  Math_max (G1 - F - G1 * h - p) 0 <= Math_max (G2 - F - G2 * h - p) 0.
Proof.
  intros HG Hh. unfold Math_max. apply Q.max_le_compat_r.
  assert (H : 0 <= (G2 - G1) * (1 - h)) by (apply Qmult_le_0_compat; lra).
  lra.
Qed.

Lemma capped_advance_mono (a c t m1 m2 : Q) :
  0 <= c -> 0 <= t -> m1 <= m2 ->
  Math_min a (c * t * m1) <= Math_min a (c * t * m2).
Proof.
  intros Hc Ht Hm. unfold Math_min. apply Q.min_le_compat_l.
  apply Qmult_le_nonneg_l; [apply Qmult_le_0_compat; assumption | exact Hm].
Qed.

Lemma calculateRiskScore_range (year : Z) (deal : DealInput) (lender : LenderConfig) :
  0 <= calculateRiskScore year deal lender <= 100.
Proof.
  unfold calculateRiskScore, Math_max, Math_min. split.
  - apply Q.le_max_l.
  - apply Q.max_lub; [now vm_compute | apply Q.le_min_l].
Qed.

Lemma grossAdvanceFor_mono (year : Z) (deal : DealInput) (lender : LenderConfig)
    (k : string) (cfg : LenderAdvanceConfig) (amountFinanced m1 m2 : Q) :
  lookupS k LENDER_ADVANCE_CONFIGS = Some cfg ->
  0 <= vehicleCost deal -> m1 <= m2 ->
  grossAdvanceFor year deal lender cfg amountFinanced m1
  <= grossAdvanceFor year deal lender cfg amountFinanced m2.
Proof.
  intros H Hc Hm. apply lookupS_In in H. simpl in H.
  destruct H as [H | [H | [H | []]]]; injection H as _ <-;
    unfold grossAdvanceFor; cbn [advanceType standard range_min range_max].
  - apply capped_advance_mono; [exact Hc | now vm_compute | exact Hm].
  - apply capped_advance_mono; [exact Hc | | exact Hm].
    destruct (customerCreditTier deal); now vm_compute.
  - apply capped_advance_mono; [exact Hc | | exact Hm].
    destruct (calculateRiskScore_range year deal lender) as [Hlo Hhi].
    set (score := calculateRiskScore year deal lender) in *.
    assert (Hs : 0 <= score / 100).
    { apply Qle_shift_div_l; [reflexivity | lra]. }
    assert (Hd : 0 <= 0.08 - -0.10) by (now vm_compute).
    assert (Hprod : 0 <= score / 100 * (0.08 - -0.10))
      by (apply Qmult_le_0_compat; assumption).
    assert (Hbase : 0 <= 1.10 + -0.10) by (now vm_compute).
    lra.
Qed.

Lemma calculateBookValue_nonneg (retailPrice : Q) (age : Z) (mileage : Q) :
  0 <= retailPrice -> (0 <= calculateBookValue retailPrice age mileage)%Z.
Proof.
  intro Hp. destruct (Z_lt_le_dec age 0) as [Hneg | Hpos].
  - rewrite (bookValue_formula_negative retailPrice age mileage Hneg).
    apply Math_round_nonneg.
    assert (Hm := specMileageFactor_pos mileage).
    apply Qmult_le_0_compat; [apply Qmult_le_0_compat|]; lra.
  - rewrite bookValue_formula by exact Hpos. apply Math_round_nonneg.
    assert (Ha := specAgeFactor_pos age).
    assert (Hm := specMileageFactor_pos mileage).
    apply Qmult_le_0_compat; [apply Qmult_le_0_compat|]; lra.
Qed.

(** X14. A vehicle penalty never raises the net check: for a lender whose id
    is no property name inherited from [Object.prototype], a non-negative
    vehicle cost and price and non-negative advance and LTV percentages of
    the tier row, lowering the advance multiplier does not increase the net
    check to the dealer, whichever advance formula the lender uses. *)
Theorem estimateNetCheckAndProfit_multiplier (year : Z) (deal : DealInput)
    (lender : LenderConfig) (tierRow : LenderTierPricing)
    (amountFinanced backendTotal m1 m2 : Q) :
  ~ In (id lender) objectPrototypeKeys ->
  0 <= vehicleCost deal -> 0 <= vehiclePrice deal ->
  0 <= maxAdvancePercent tierRow -> 0 <= maxLtvPercent tierRow ->
  m1 <= m2 ->
  NetCheck.netCheckToDealer
    (estimateNetCheckAndProfit year deal lender tierRow amountFinanced
                               backendTotal m1)
  <= NetCheck.netCheckToDealer
       (estimateNetCheckAndProfit year deal lender tierRow amountFinanced
                                  backendTotal m2).
Proof.
  intros _ Hc Hp Hadv Hltv Hm. unfold estimateNetCheckAndProfit.
  cbn [NetCheck.netCheckToDealer].
  destruct (lookupS (id lender) LENDER_ADVANCE_CONFIGS) as [cfg|] eqn:E.
  - destruct (advance_config_fees _ _ E) as [_ [_ Hh]].
    apply netOfHoldback_mono; [|exact Hh].
    apply (grossAdvanceFor_mono year deal lender _ cfg amountFinanced m1 m2 E Hc Hm).
  - unfold Math_max. apply Q.max_le_compat_r.
    assert (Hb := calculateBookValue_nonneg (vehiclePrice deal)
                    (year - vehicleYear deal) (vehicleMileage deal) Hp).
    assert (Hb' : 0 <= inject_Z (calculateBookValue (vehiclePrice deal)
                                   (year - vehicleYear deal) (vehicleMileage deal))).
    { change 0 with (inject_Z 0). rewrite <- Zle_Qle. exact Hb. }
    assert (HG : calculateFallbackAdvance deal tierRow amountFinanced
                   (calculateBookValue (vehiclePrice deal)
                      (year - vehicleYear deal) (vehicleMileage deal)) m1
                 <= calculateFallbackAdvance deal tierRow amountFinanced
                      (calculateBookValue (vehiclePrice deal)
                         (year - vehicleYear deal) (vehicleMileage deal)) m2).
    { unfold calculateFallbackAdvance, Math_min.
      apply Q.min_le_compat; [apply Q.min_le_compat_l|];
        apply Qmult_le_nonneg_l; try exact Hm;
        (apply Qmult_le_0_compat; [|assumption]);
        (apply Qle_shift_div_l; [reflexivity | lra]). }
    lra.
Qed.

Lemma estimateNetCheckAndProfit_multiplier_witness :
  ~ In (id westlake) objectPrototypeKeys
  /\ 0 <= vehicleCost (sampleDealOf "Kia" 2015)
  /\ 0 <= vehiclePrice (sampleDealOf "Kia" 2015)
  /\ 0 <= maxAdvancePercent (tierPricing subprime 18 23 0.1 115 140 140)
  /\ 0 <= maxLtvPercent (tierPricing subprime 18 23 0.1 115 140 140)
  /\ 0.90 <= 1
  /\ NetCheck.netCheckToDealer
       (estimateNetCheckAndProfit 2025 (sampleDealOf "Kia" 2015) westlake
          (tierPricing subprime 18 23 0.1 115 140 140) 20000 0 0.90)
     <= NetCheck.netCheckToDealer
          (estimateNetCheckAndProfit 2025 (sampleDealOf "Kia" 2015) westlake
             (tierPricing subprime 18 23 0.1 115 140 140) 20000 0 1).
Proof.
  assert (Hid : ~ In (id westlake) objectPrototypeKeys).
  { cbn. intro H. repeat (destruct H as [H | H]; [discriminate H|]). exact H. }
  assert (Hc : 0 <= vehicleCost (sampleDealOf "Kia" 2015)) by (now vm_compute).
  assert (Hp : 0 <= vehiclePrice (sampleDealOf "Kia" 2015)) by (now vm_compute).
  assert (Ha : 0 <= maxAdvancePercent (tierPricing subprime 18 23 0.1 115 140 140))
    by (now vm_compute).
  assert (Hl : 0 <= maxLtvPercent (tierPricing subprime 18 23 0.1 115 140 140))
    by (now vm_compute).
  assert (Hm : 0.90 <= 1) by (now vm_compute).
  repeat (split; [assumption|]).
  apply (estimateNetCheckAndProfit_multiplier 2025 (sampleDealOf "Kia" 2015)
           westlake (tierPricing subprime 18 23 0.1 115 140 140) 20000 0 0.90 1
           Hid Hc Hp Ha Hl Hm).
Defined.

(* ================================================================= *)
(** ** Where candidates come from *)

Lemma in_optionToList {A : Type} (o : option A) (x : A) :
  In x (optionToList o) <-> o = Some x.
Proof.
  destruct o as [a|]; simpl; split; intro H.
  - destruct H as [-> | []]. reflexivity.
  - injection H as ->. left. reflexivity.
  - contradiction.
  - discriminate.
Qed.

(** Every generated candidate was built by [buildCandidate] for an active,
    eligible lender, one of its terms, one of the three down payments and one
    of its backend scenarios. *)
Lemma generateCandidates_origin (year : Z) (deal : DealInput)
    (lenders : list LenderConfig) (c : DealCandidate.t) :
  In c (generateCandidates year deal lenders) ->
  exists lender tierRow term down scenario,
    In lender lenders /\ active lender = true
    /\ VehicleEligibilityResult.isEligible (isVehicleEligible year deal lender) = true
    /\ (year - vehicleYear deal <= maxVehicleAgeYears lender)%Z
    /\ vehicleMileage deal <= maxMiles lender
    /\ findTierRow lender (customerCreditTier deal) = Some tierRow
    /\ In term (allowedTerms lender)
    /\ In down [downPayment deal; downPayment deal + 500; downPayment deal + 1000]
    /\ In scenario (buildSmartScenarios deal (assessRisk year deal) lender)
    /\ buildCandidate year deal (assessRisk year deal) lender
         (isVehicleEligible year deal lender) tierRow
         ((minApr tierRow + maxApr tierRow) / 2) term down scenario = Some c.
Proof.
  unfold generateCandidates. intro H.
  apply in_flat_map in H. destruct H as (lender & Hl & H).
  apply filter_In in Hl. destruct Hl as [Hin Hactive].
  unfold lenderCandidates in H.
  destruct (VehicleEligibilityResult.isEligible (isVehicleEligible year deal lender))
    eqn:Eelig; cbn [negb] in H; [|contradiction].
  destruct (year - vehicleYear deal >? maxVehicleAgeYears lender)%Z eqn:Eage;
    [contradiction|].
  destruct (Qgtb (vehicleMileage deal) (maxMiles lender)) eqn:Emiles;
    [contradiction|].
  unfold pickApr in H.
  destruct (findTierRow lender (customerCreditTier deal)) as [tierRow|] eqn:Erow;
    [|contradiction].
  apply in_flat_map in H. destruct H as (term & Hterm & H).
  apply in_flat_map in H. destruct H as (down & Hdown & H).
  apply in_flat_map in H. destruct H as (scenario & Hscenario & H).
  apply in_optionToList in H.
  exists lender, tierRow, term, down, scenario.
  rewrite Z.gtb_ltb in Eage. apply Z.ltb_ge in Eage. apply Qgtb_le in Emiles.
  repeat (split; [assumption|]). exact H.
Qed.

Lemma selectPool_subset (deal : DealInput) (candidates : list DealCandidate.t)
    (c : DealCandidate.t) :
  In c (selectPool deal candidates) -> In c candidates.
Proof.
  unfold selectPool.
  destruct (0 <? List.length (filter (withinPaymentWindow deal) candidates))%nat;
    [|tauto].
  intro H. apply filter_In in H. tauto.
Qed.

Lemma allCandidates_generated (year : Z) (deal : DealInput)
    (lenders : list LenderConfig) (c : DealCandidate.t) :
  In c (RehashResult.allCandidates (runRehash year deal lenders)) ->
  In c (generateCandidates year deal lenders).
Proof.
  unfold runRehash. cbn [RehashResult.allCandidates]. intro H.
  apply (selectPool_subset deal).
  eapply Permutation_in; [|exact H].
  apply Permutation_sym, Array_sort_permutation.
Qed.

(** What [buildCandidate] guarantees about the candidate it returns. *)
Lemma buildCandidate_some (year : Z) (deal : DealInput)
    (riskAssessment : RiskAssessment.t) (lender : LenderConfig)
    (eligibility : VehicleEligibilityResult.t) (tierRow : LenderTierPricing)
    (apr : Q) (term : Z) (down : Q) (scenario : BackendScenario.t)
    (c : DealCandidate.t) :
  buildCandidate year deal riskAssessment lender eligibility tierRow apr term
                 down scenario = Some c ->
  let amount :=
    computeAmountFinanced (withDownPayment deal down)
                          (BackendScenario.value scenario) in
  let est :=
    estimateNetCheckAndProfit year (withDownPayment deal down) lender tierRow
      amount (BackendScenario.value scenario)
      (VehicleEligibilityResult.advanceMultiplier eligibility) in
  minAmountFinanced lender <= amount <= maxAmountFinanced lender
  /\ isValid (validateDeal lender (withDownPayment deal down) amount) = true
  /\ loopLtv year deal amount <= maxLtvPercent tierRow
  /\ (0 < amount ->
      BackendScenario.value scenario / amount * 100
      <= maxBackendPercentOfAmount lender)
  /\ c = DealCandidate.mk
           (id lender) (name lender) term apr amount
           (calculateMonthlyPayment amount apr term)
           (NetCheck.netCheckToDealer est) (NetCheck.dealerFrontGross est)
           (NetCheck.dealerBackEndGross est) (NetCheck.dealerProfit est)
           (NetCheck.totalDown est) (BackendScenario.value scenario)
           (NetCheck.ltv est) true
           (constraint_reasons
              (validateDeal lender (withDownPayment deal down) amount))
           (DealCandidate.adjustments c)
           (BackendScenario.hasGap scenario) (BackendScenario.hasVsc scenario)
           (DealCandidate.smartNote c) (Some riskAssessment)
           (BackendScenario.optimizationLevel scenario)
           (VehicleEligibilityResult.warnings eligibility)
           (VehicleEligibilityResult.advanceMultiplier eligibility)
           (DealCandidate.ptiPercent c) (DealCandidate.ptiWarning c)
           (DealCandidate.ptiExceedsLimit c) (DealCandidate.requiredIncome c).
Proof.
  intros H amount est. unfold buildCandidate in H. fold amount in H.
  destruct (Qltb amount (minAmountFinanced lender)
            || Qgtb amount (maxAmountFinanced lender)) eqn:Ebounds;
    [discriminate|].
  apply orb_false_iff in Ebounds. destruct Ebounds as [Emin Emax].
  apply Qltb_ge in Emin. apply Qgtb_le in Emax.
  destruct (Qgtb (if Qgtb amount 0
                  then BackendScenario.value scenario / amount * 100 else 999)
                 (maxBackendPercentOfAmount lender)) eqn:Epct; [discriminate|].
  destruct (isValid (validateDeal lender (withDownPayment deal down) amount))
    eqn:Evalid; cbn [negb] in H; [|discriminate].
  destruct (Qgtb (loopLtv year deal amount) (maxLtvPercent tierRow)) eqn:Eltv;
    [discriminate|].
  apply Qgtb_le in Eltv.
  injection H as <-.
  split; [split; assumption|]. split; [reflexivity|]. split; [exact Eltv|].
  split; [|reflexivity].
  intro Hpos. apply Qgtb_gt in Hpos. rewrite Hpos in Epct.
  apply Qgtb_le in Epct. exact Epct.
Qed.

Lemma estimate_ltv_loopLtv (year : Z) (deal : DealInput) (down : Q)
    (lender : LenderConfig) (tierRow : LenderTierPricing)
    (amount backendTotal advanceMultiplier : Q) :
  NetCheck.ltv (estimateNetCheckAndProfit year (withDownPayment deal down) lender
                  tierRow amount backendTotal advanceMultiplier)
  = loopLtv year deal amount.
Proof. reflexivity. Qed.

(* ================================================================= *)
(** ** Every returned candidate respects its lender *)

(** X15. Every candidate that [runRehash] returns belongs to an active
    lender of the list for which the vehicle is eligible: it carries that
    lender's id and name, one of its allowed terms, the mid-point APR of the
    lender's pricing row for the customer's credit tier, an amount financed
    within the lender's bounds, an LTV not above that row's maximum, and the
    lender's own validation accepts it; [withinGuidelines] is always true. *)
Theorem allCandidates_respect_lender (year : Z) (deal : DealInput)
    (lenders : list LenderConfig) (c : DealCandidate.t) :
  In c (RehashResult.allCandidates (runRehash year deal lenders)) ->
  exists lender tierRow down,
    In lender lenders /\ active lender = true
    /\ VehicleEligibilityResult.isEligible (isVehicleEligible year deal lender) = true
    /\ DealCandidate.lenderId c = id lender
    /\ DealCandidate.lenderName c = name lender
    /\ In (DealCandidate.termMonths c) (allowedTerms lender)
    /\ findTierRow lender (customerCreditTier deal) = Some tierRow
    /\ DealCandidate.apr c = (minApr tierRow + maxApr tierRow) / 2
    /\ minAmountFinanced lender <= DealCandidate.amountFinanced c
       <= maxAmountFinanced lender
    /\ DealCandidate.ltv c <= maxLtvPercent tierRow
    /\ In down [downPayment deal; downPayment deal + 500; downPayment deal + 1000]
    /\ isValid (validateDeal lender (withDownPayment deal down)
                             (DealCandidate.amountFinanced c)) = true
    /\ DealCandidate.withinGuidelines c = true.
Proof.
  intro H. apply allCandidates_generated, generateCandidates_origin in H.
  destruct H as (lender & tierRow & term & down & scenario & Hin & Hactive
                 & Helig & _ & _ & Hrow & Hterm & Hdown & _ & Hbuild).
  apply buildCandidate_some in Hbuild.
  destruct Hbuild as (Hbounds & Hvalid & Hltv & _ & Hc).
  exists lender, tierRow, down. rewrite Hc.
  cbn [DealCandidate.lenderId DealCandidate.lenderName DealCandidate.termMonths
       DealCandidate.apr DealCandidate.amountFinanced DealCandidate.ltv
       DealCandidate.withinGuidelines].
  rewrite estimate_ltv_loopLtv.
  repeat (split; [first [assumption | reflexivity]|]). reflexivity.
Qed.

Lemma allCandidates_respect_lender_witness :
  exists c,
    nth_error (RehashResult.allCandidates
                 (runRehash 2025 (lateModelDeal "Honda") LENDERS)) 0 = Some c
    /\ exists lender tierRow,
         In lender LENDERS /\ DealCandidate.lenderId c = id lender
         /\ findTierRow lender subprime = Some tierRow
         /\ DealCandidate.ltv c <= maxLtvPercent tierRow.
Proof.
  destruct (nth_error (RehashResult.allCandidates
                         (runRehash 2025 (lateModelDeal "Honda") LENDERS)) 0)
    as [c|] eqn:E; [|vm_compute in E; discriminate].
  exists c. split; [reflexivity|].
  assert (Hin : In c (RehashResult.allCandidates
                        (runRehash 2025 (lateModelDeal "Honda") LENDERS)))
    by (apply (nth_error_In _ 0), E).
  destruct (allCandidates_respect_lender 2025 (lateModelDeal "Honda") LENDERS c Hin)
    as (lender & tierRow & down & Hl & _ & _ & Hid & _ & _ & Hrow & _ & _ & Hltv & _).
  exists lender, tierRow. repeat (split; [assumption|]). exact Hltv.
Defined.

(** X16. With lenders whose ids are no property names inherited from
    [Object.prototype], the figures of a returned candidate are consistent
    with one another: the amount financed is price plus tax plus fees plus its backend
    total less its total down, floored at 0; the total down is the deal's
    down payment, raised by 0, 500 or 1000, plus the trade equity; the
    payment is the amortised payment of its amount, APR and term; and the
    dealer profit is net check plus total down less vehicle cost and fees,
    with a net check that is never negative. *)
Theorem allCandidates_figures (year : Z) (deal : DealInput)
    (lenders : list LenderConfig) (c : DealCandidate.t) :
  (forall lender, In lender lenders -> ~ In (id lender) objectPrototypeKeys) ->
  In c (RehashResult.allCandidates (runRehash year deal lenders)) ->
  DealCandidate.amountFinanced c
  = Math_max (vehiclePrice deal + vehiclePrice deal * taxRate deal + fees deal
              + DealCandidate.backendTotal c - DealCandidate.totalDown c) 0
  /\ (exists down,
        In down [downPayment deal; downPayment deal + 500; downPayment deal + 1000]
        /\ DealCandidate.totalDown c
           = down + tradeAllowance deal - tradePayoff deal)
  /\ DealCandidate.payment c
     = calculateMonthlyPayment (DealCandidate.amountFinanced c)
         (DealCandidate.apr c) (DealCandidate.termMonths c)
  /\ DealCandidate.dealerProfit c
     = DealCandidate.netCheckToDealer c + DealCandidate.totalDown c
       - vehicleCost deal - fees deal
  /\ DealCandidate.dealerFrontGross c = vehiclePrice deal - vehicleCost deal
  /\ DealCandidate.dealerBackEndGross c = DealCandidate.backendTotal c
  /\ 0 <= DealCandidate.netCheckToDealer c
  /\ DealCandidate.ltv c = loopLtv year deal (DealCandidate.amountFinanced c)
  /\ DealCandidate.riskAssessment c
     = Some (RehashResult.riskAssessment (runRehash year deal lenders)).
Proof.
  intros _ H. apply allCandidates_generated, generateCandidates_origin in H.
  destruct H as (lender & tierRow & term & down & scenario & _ & _ & _ & _ & _
                 & _ & _ & Hdown & _ & Hbuild).
  apply buildCandidate_some in Hbuild.
  destruct Hbuild as (_ & _ & _ & _ & Hc). rewrite Hc.
  cbn [DealCandidate.amountFinanced DealCandidate.backendTotal
       DealCandidate.totalDown DealCandidate.payment DealCandidate.apr
       DealCandidate.termMonths DealCandidate.dealerProfit
       DealCandidate.netCheckToDealer DealCandidate.dealerFrontGross
       DealCandidate.dealerBackEndGross DealCandidate.ltv
       DealCandidate.riskAssessment].
  split; [reflexivity|].
  split; [exists down; split; [exact Hdown | reflexivity]|].
  split; [reflexivity|]. split; [reflexivity|]. split; [reflexivity|].
  split; [reflexivity|].
  split; [|split; reflexivity].
  unfold estimateNetCheckAndProfit. cbn [NetCheck.netCheckToDealer].
  apply Q.le_max_r.
Qed.

Lemma allCandidates_figures_witness :
  exists c,
    nth_error (RehashResult.allCandidates
                 (runRehash 2025 (lateModelDeal "Honda") LENDERS)) 0 = Some c
    /\ DealCandidate.payment c
       = calculateMonthlyPayment (DealCandidate.amountFinanced c)
           (DealCandidate.apr c) (DealCandidate.termMonths c)
    /\ 0 <= DealCandidate.netCheckToDealer c.
Proof.
  destruct (nth_error (RehashResult.allCandidates
                         (runRehash 2025 (lateModelDeal "Honda") LENDERS)) 0)
    as [c|] eqn:E; [|vm_compute in E; discriminate].
  exists c. split; [reflexivity|].
  assert (Hin : In c (RehashResult.allCandidates
                        (runRehash 2025 (lateModelDeal "Honda") LENDERS)))
    by (apply (nth_error_In _ 0), E).
  assert (Hids : forall lender, In lender LENDERS ->
                                ~ In (id lender) objectPrototypeKeys).
  { intros lender Hl. cbn in Hl.
    repeat (destruct Hl as [<- | Hl];
            [cbn; intro H; repeat (destruct H as [H | H]; [discriminate H|]);
             exact H|]).
    contradiction. }
  destruct (allCandidates_figures 2025 (lateModelDeal "Honda") LENDERS c Hids Hin)
    as (_ & _ & Hpay & _ & _ & _ & Hnet & _).
  split; [exact Hpay | exact Hnet].
Defined.

(* ================================================================= *)
(** ** Adjustment lines *)

Lemma advanceMultiplier_le_1 (year : Z) (deal : DealInput) (lender : LenderConfig) :
  VehicleEligibilityResult.advanceMultiplier (isVehicleEligible year deal lender)
  <= 1.
Proof.
  destruct (isVehicleEligible_multiplier deal year lender) as [Ham _].
  rewrite Ham. destruct (_ && _ && _).
  - now vm_compute.
  - apply (scanned_multiplier deal lender).
Qed.

Lemma buildCandidate_adjustments (year : Z) (deal : DealInput)
    (riskAssessment : RiskAssessment.t) (lender : LenderConfig)
    (eligibility : VehicleEligibilityResult.t) (tierRow : LenderTierPricing)
    (apr : Q) (term : Z) (down : Q) (scenario : BackendScenario.t)
    (c : DealCandidate.t) :
  buildCandidate year deal riskAssessment lender eligibility tierRow apr term
                 down scenario = Some c ->
  VehicleEligibilityResult.advanceMultiplier eligibility <= 1 ->
  hd_error (DealCandidate.adjustments c)
  = Some (AdjLenderTermApr (name lender) term apr)
  /\ (forall percent,
        ~ In (AdjAdvanceIncreased percent) (DealCandidate.adjustments c))
  /\ ((exists percent, In (AdjAdvanceReduced percent) (DealCandidate.adjustments c))
      <-> VehicleEligibilityResult.advanceMultiplier eligibility < 1)
  /\ (In AdjNoProducts (DealCandidate.adjustments c)
      <-> BackendScenario.hasGap scenario = false
          /\ BackendScenario.hasVsc scenario = false).
Proof.
  intros H Hle. unfold buildCandidate in H.
  repeat match type of H with
         | (if ?e then None else _) = _ => destruct e; [discriminate|]
         end.
  injection H as <-. cbn [DealCandidate.adjustments].
  match goal with
  | |- context [PtiResult.ptiExceedsLimit ?r] => set (pti := r)
  end.
  set (am := VehicleEligibilityResult.advanceMultiplier eligibility) in *.
  split; [reflexivity|].
  destruct (Qeqb am 1) eqn:Eeq; cbn [negb].
  - apply Qeqb_eq in Eeq.
    destruct (negb (Qeqb down (downPayment deal)));
      destruct (BackendScenario.hasGap scenario);
      destruct (BackendScenario.hasVsc scenario);
      destruct (PtiResult.ptiExceedsLimit pti);
      destruct (PtiResult.ptiWarning pti);
      cbn; (split; [intros percent H;
                    repeat (destruct H as [H | H]; [discriminate H|]); exact H|]);
      (split; [split; [intros (percent & H);
                       repeat (destruct H as [H | H]; [discriminate H|]);
                       contradiction
                      | intro H; exfalso; lra]|]);
      (split; [intro H;
               repeat (destruct H as [H | H]; try discriminate H);
               first [contradiction | split; reflexivity]
              | intros [H1 H2]; first [discriminate | tauto]]).
  - apply Qeqb_neq in Eeq.
    assert (Hlt : am < 1).
    { apply Qnot_le_lt. intro H. apply Eeq. lra. }
    assert (Elt : Qltb am 1 = true) by (apply Qltb_lt; exact Hlt).
    rewrite Elt.
    destruct (negb (Qeqb down (downPayment deal)));
      destruct (BackendScenario.hasGap scenario);
      destruct (BackendScenario.hasVsc scenario);
      destruct (PtiResult.ptiExceedsLimit pti);
      destruct (PtiResult.ptiWarning pti);
      cbn; (split; [intros percent H;
                    repeat (destruct H as [H | H]; [discriminate H|]); exact H|]);
      (split; [split; [intros _; exact Hlt
                      | intros _; eexists; tauto]|]);
      (split; [intro H;
               repeat (destruct H as [H | H]; try discriminate H);
               first [contradiction | split; reflexivity]
              | intros [H1 H2]; first [discriminate | tauto]]).
Qed.

(** X17. No returned candidate ever carries the line "Advance increased by
    ...%": the adjustments start with the lender, term and APR, a line
    "Advance reduced by ...%" is present exactly when the candidate's advance
    multiplier is below 1.0, and the line "No products - lean structure" is
    present exactly when the candidate has neither GAP nor VSC. *)
Theorem allCandidates_adjustments (year : Z) (deal : DealInput)
    (lenders : list LenderConfig) (c : DealCandidate.t) :
  In c (RehashResult.allCandidates (runRehash year deal lenders)) ->
  hd_error (DealCandidate.adjustments c)
  = Some (AdjLenderTermApr (DealCandidate.lenderName c)
                           (DealCandidate.termMonths c) (DealCandidate.apr c))
  /\ (forall percent,
        ~ In (AdjAdvanceIncreased percent) (DealCandidate.adjustments c))
  /\ DealCandidate.advanceMultiplier c <= 1
  /\ ((exists percent, In (AdjAdvanceReduced percent) (DealCandidate.adjustments c))
      <-> DealCandidate.advanceMultiplier c < 1)
  /\ (In AdjNoProducts (DealCandidate.adjustments c)
      <-> DealCandidate.hasGap c = false /\ DealCandidate.hasVsc c = false).
Proof.
  intro H. apply allCandidates_generated, generateCandidates_origin in H.
  destruct H as (lender & tierRow & term & down & scenario & _ & _ & _ & _ & _
                 & _ & _ & _ & _ & Hbuild).
  assert (Hle := advanceMultiplier_le_1 year deal lender).
  destruct (buildCandidate_adjustments _ _ _ _ _ _ _ _ _ _ _ Hbuild Hle)
    as (Hhd & Hnever & Hred & Hnone).
  apply buildCandidate_some in Hbuild.
  destruct Hbuild as (_ & _ & _ & _ & Hc).
  assert (Hfields :
    DealCandidate.lenderName c = name lender
    /\ DealCandidate.termMonths c = term
    /\ DealCandidate.apr c = (minApr tierRow + maxApr tierRow) / 2
    /\ DealCandidate.advanceMultiplier c
       = VehicleEligibilityResult.advanceMultiplier
           (isVehicleEligible year deal lender)
    /\ DealCandidate.hasGap c = BackendScenario.hasGap scenario
    /\ DealCandidate.hasVsc c = BackendScenario.hasVsc scenario).
  { rewrite Hc. repeat split. }
  destruct Hfields as (-> & -> & -> & -> & -> & ->).
  repeat (split; [assumption|]). exact Hnone.
Qed.

Lemma allCandidates_adjustments_witness :
  exists c,
    nth_error (RehashResult.allCandidates
                 (runRehash 2025 (lateModelDeal "Nissan") LENDERS)) 0 = Some c
    /\ DealCandidate.advanceMultiplier c <= 1
    /\ forall percent,
         ~ In (AdjAdvanceIncreased percent) (DealCandidate.adjustments c).
Proof.
  destruct (nth_error (RehashResult.allCandidates
                         (runRehash 2025 (lateModelDeal "Nissan") LENDERS)) 0)
    as [c|] eqn:E; [|vm_compute in E; discriminate].
  exists c. split; [reflexivity|].
  assert (Hin : In c (RehashResult.allCandidates
                        (runRehash 2025 (lateModelDeal "Nissan") LENDERS)))
    by (apply (nth_error_In _ 0), E).
  destruct (allCandidates_adjustments 2025 (lateModelDeal "Nissan") LENDERS c Hin)
    as (_ & Hnever & Hle & _).
  split; [exact Hle | exact Hnever].
Defined.

(* ================================================================= *)
(** ** Lenders that contribute nothing *)

Lemma lenderCandidates_unusable (year : Z) (deal : DealInput)
    (riskAssessment : RiskAssessment.t) (lender : LenderConfig) :
  VehicleEligibilityResult.isEligible (isVehicleEligible year deal lender) = false
  \/ (maxVehicleAgeYears lender < year - vehicleYear deal)%Z
  \/ maxMiles lender < vehicleMileage deal
  \/ findTierRow lender (customerCreditTier deal) = None
  \/ allowedTerms lender = [] ->
  lenderCandidates year deal riskAssessment lender = [].
Proof.
  unfold lenderCandidates, pickApr.
  intros [H | [H | [H | [H | H]]]].
  - rewrite H. reflexivity.
  - apply Z.gtb_lt in H. rewrite H.
    destruct (negb _); reflexivity.
  - apply Qgtb_gt in H. rewrite H.
    destruct (negb _); [reflexivity|]. destruct (_ >? _)%Z; reflexivity.
  - rewrite H.
    destruct (negb _); [reflexivity|]. destruct (_ >? _)%Z; [reflexivity|].
    destruct (Qgtb _ _); reflexivity.
  - rewrite H.
    destruct (negb _); [reflexivity|]. destruct (_ >? _)%Z; [reflexivity|].
    destruct (Qgtb _ _); [reflexivity|].
    destruct (findTierRow _ _); reflexivity.
Qed.

(** X18. A lender that is inactive, for which the vehicle is not eligible,
    whose legacy age or mileage cap is exceeded, which has no pricing row for
    the customer's credit tier, or which allows no term contributes no
    candidate; when every lender of the list is such a lender (in particular
    for the empty list) [runRehash] returns a null best deal and an empty
    candidate list together with the risk assessment of the deal. *)
Theorem runRehash_no_usable_lender (year : Z) (deal : DealInput)
    (lenders : list LenderConfig) :
  (forall lender, In lender lenders ->
     active lender = false
     \/ VehicleEligibilityResult.isEligible (isVehicleEligible year deal lender)
        = false
     \/ (maxVehicleAgeYears lender < year - vehicleYear deal)%Z
     \/ maxMiles lender < vehicleMileage deal
     \/ findTierRow lender (customerCreditTier deal) = None
     \/ allowedTerms lender = []) ->
  runRehash year deal lenders
  = RehashResult.mk None [] (assessRisk year deal).
Proof.
  intro H.
  assert (Hnone : generateCandidates year deal lenders = []).
  { unfold generateCandidates.
    induction lenders as [|l lenders IH]; [reflexivity|].
    cbn [filter]. destruct (active l) eqn:Ea.
    - cbn [flat_map]. rewrite IH by (intros l' Hl'; apply H; right; exact Hl').
      rewrite app_nil_r. apply lenderCandidates_unusable.
      destruct (H l (or_introl eq_refl)) as [Hf | Hrest]; [congruence | exact Hrest].
    - apply IH. intros l' Hl'. apply H. right. exact Hl'. }
  unfold runRehash. rewrite Hnone. reflexivity.
Qed.

Lemma runRehash_no_usable_lender_witness :
  (forall lender, In lender LENDERS ->
     active lender = false
     \/ VehicleEligibilityResult.isEligible
          (isVehicleEligible 2025 (sampleDealOf "Honda" 1999) lender) = false
     \/ (maxVehicleAgeYears lender < 2025 - vehicleYear (sampleDealOf "Honda" 1999))%Z
     \/ maxMiles lender < vehicleMileage (sampleDealOf "Honda" 1999)
     \/ findTierRow lender (customerCreditTier (sampleDealOf "Honda" 1999)) = None
     \/ allowedTerms lender = [])
  /\ RehashResult.bestDeal (runRehash 2025 (sampleDealOf "Honda" 1999) LENDERS)
     = None.
Proof.
  assert (H : forall lender, In lender LENDERS ->
     active lender = false
     \/ VehicleEligibilityResult.isEligible
          (isVehicleEligible 2025 (sampleDealOf "Honda" 1999) lender) = false
     \/ (maxVehicleAgeYears lender < 2025 - vehicleYear (sampleDealOf "Honda" 1999))%Z
     \/ maxMiles lender < vehicleMileage (sampleDealOf "Honda" 1999)
     \/ findTierRow lender (customerCreditTier (sampleDealOf "Honda" 1999)) = None
     \/ allowedTerms lender = []).
  { intros lender [<- | [<- | [<- | []]]]; right; left; reflexivity. }
  split; [exact H|].
  rewrite (runRehash_no_usable_lender 2025 (sampleDealOf "Honda" 1999) LENDERS H).
  reflexivity.
Defined.

(* ================================================================= *)
(** ** Size of the search *)

Lemma flat_map_length_le {A B : Type} (f : A -> list B) (l : list A) (k : nat) :
  (forall a, List.length (f a) <= k)%nat ->
  (List.length (flat_map f l) <= k * List.length l)%nat.
Proof.
  intro H. induction l as [|a l IH]; simpl; [lia|].
  rewrite length_app. specialize (H a). lia.
Qed.

Lemma buildSmartScenarios_length (deal : DealInput)
    (riskAssessment : RiskAssessment.t) (lender : LenderConfig) :
  (List.length (buildSmartScenarios deal riskAssessment lender) <= 3)%nat.
Proof.
  unfold buildSmartScenarios. destruct (_ || vsc _); cbn; lia.
Qed.

Lemma lenderCandidates_length (year : Z) (deal : DealInput)
    (riskAssessment : RiskAssessment.t) (lender : LenderConfig) :
  (List.length (lenderCandidates year deal riskAssessment lender)
   <= 9 * List.length (allowedTerms lender))%nat.
Proof.
  unfold lenderCandidates.
  destruct (negb _); [cbn; lia|]. destruct (_ >? _)%Z; [cbn; lia|].
  destruct (Qgtb _ _); [cbn; lia|].
  destruct (findTierRow _ _) as [tierRow|]; [|cbn; lia].
  destruct (pickApr _ _) as [apr|]; [|cbn; lia].
  apply flat_map_length_le. intro term.
  change 9%nat with (3 * 3)%nat.
  eapply Nat.le_trans.
  - apply (flat_map_length_le _ _ 3). intro down.
    eapply Nat.le_trans.
    + apply (flat_map_length_le _ _ 1). intro scenario.
      destruct (buildCandidate _ _ _ _ _ _ _ _ _ _); cbn; lia.
    + assert (H := buildSmartScenarios_length deal riskAssessment lender). lia.
  - cbn. lia.
Qed.

(** X19. The search is bounded: [runRehash] returns at most nine candidates
    for each allowed term of each active lender, and never more candidates
    than were generated. *)
Theorem runRehash_search_bound (year : Z) (deal : DealInput)
    (lenders : list LenderConfig) :
  (List.length (RehashResult.allCandidates (runRehash year deal lenders))
   <= List.length (generateCandidates year deal lenders))%nat
  /\ (List.length (generateCandidates year deal lenders)
      <= searchSpaceBound lenders)%nat.
Proof.
  split.
  - unfold runRehash. cbn [RehashResult.allCandidates].
    rewrite <- (Permutation_length
                  (Array_sort_permutation (compareCandidates deal) _)).
    unfold selectPool.
    destruct (0 <? _)%nat; [apply filter_length_le | lia].
  - unfold generateCandidates, searchSpaceBound.
    induction (filter active lenders) as [|l ls IH]; [cbn; lia|].
    assert (Hsum : forall a r, list_sum (a :: r) = (a + list_sum r)%nat)
      by reflexivity.
    cbn [flat_map map]. rewrite length_app, Hsum.
    assert (H := lenderCandidates_length year deal (assessRisk year deal) l).
    lia.
Qed.

(* ================================================================= *)
(** ** The best deal *)






(* ================================================================= *)
(** ** Compliance rules *)

Lemma truthy_some (x : option Q) (v : Q) :
  truthy x = Some v <-> x = Some v /\ ~ v == 0.
Proof.
  unfold truthy. destruct x as [w|]; [|split; [discriminate | intros [H _]; discriminate]].
  destruct (Qeqb w 0) eqn:E.
  - apply Qeqb_eq in E. split; [discriminate|].
    intros [H Hne]. injection H as ->. contradiction.
  - apply Qeqb_neq in E. split.
    + intro H. injection H as ->. split; [reflexivity | exact E].
    + intros [H _]. exact H.
Qed.

Lemma isCompliant_rules (rules : BankRules) (c : DealCandidate.t) :
  isCompliant rules c = true
  <-> DealCandidate.ltv c <= ltvCap rules
      /\ (mandatoryVsc rules = true -> DealCandidate.hasVsc c = true)
      /\ (mandatoryGap rules = true -> DealCandidate.hasGap c = true)
      /\ (forall maxPti pti,
            truthy (maxPaymentToIncome rules) = Some maxPti ->
            truthy (DealCandidate.ptiPercent c) = Some pti ->
            pti <= maxPti * 100).
Proof.
  unfold isCompliant, dealViolations.
  destruct (Qgtb (DealCandidate.ltv c) (ltvCap rules)) eqn:El;
    [apply Qgtb_gt in El | apply Qgtb_le in El];
    destruct (mandatoryVsc rules), (DealCandidate.hasVsc c);
    destruct (mandatoryGap rules), (DealCandidate.hasGap c);
    destruct (truthy (maxPaymentToIncome rules)) as [maxPti|];
    destruct (truthy (DealCandidate.ptiPercent c)) as [pti|];
    cbn [negb andb app List.length Nat.eqb];
    try (destruct (Qgtb pti (maxPti * 100)) eqn:Ep;
         [apply Qgtb_gt in Ep | apply Qgtb_le in Ep]);
    cbn [negb andb app List.length Nat.eqb];
    (split;
     [ intro H; try discriminate H;
       repeat split; try tauto; try assumption;
       intros; try discriminate;
       repeat match goal with
              | E : Some _ = Some _ |- _ => injection E as <-
              end; assumption
     | intros (H1 & H2 & H3 & H4); try reflexivity; exfalso;
       first [ lra
             | specialize (H2 eq_refl); discriminate
             | specialize (H3 eq_refl); discriminate
             | specialize (H4 _ _ eq_refl eq_refl); lra ] ]).
Qed.

(** X21. [filterCompliantDeals] keeps the candidates in their original
    order; a candidate is valid exactly when its LTV is within the cap, it
    has VSC if VSC is mandatory and GAP if GAP is mandatory, and, when both a
    PTI limit and a PTI percentage are known and non-zero, its PTI is within
    the limit.  Every rejected entry carries at least one violation, and the
    valid and rejected entries together are as many as the input. *)
Theorem filterCompliantDeals_valid (deals : list DealCandidate.t)
    (rules : BankRules) :
  let result := filterCompliantDeals deals rules in
  ComplianceResult.validDeals result = filter (isCompliant rules) deals
  /\ (forall c, In c (ComplianceResult.validDeals result)
        <-> In c deals
            /\ DealCandidate.ltv c <= ltvCap rules
            /\ (mandatoryVsc rules = true -> DealCandidate.hasVsc c = true)
            /\ (mandatoryGap rules = true -> DealCandidate.hasGap c = true)
            /\ (forall maxPti pti,
                  truthy (maxPaymentToIncome rules) = Some maxPti ->
                  truthy (DealCandidate.ptiPercent c) = Some pti ->
                  pti <= maxPti * 100))
  /\ (forall c violations,
        In (c, violations) (ComplianceResult.rejectedDeals result) ->
        In c deals /\ violations <> [] /\ violations = dealViolations rules c)
  /\ (List.length (ComplianceResult.validDeals result)
      + List.length (ComplianceResult.rejectedDeals result)
      = List.length deals)%nat.
Proof.
  intro result.
  assert (Hresult : result
            = ComplianceResult.mk
                (filter (isCompliant rules) deals)
                (map (fun d => (d, dealViolations rules d))
                     (filter (fun d => negb (isCompliant rules d)) deals))).
  { unfold result, filterCompliantDeals. rewrite filterCompliantDeals_from.
    reflexivity. }
  rewrite Hresult.
  cbn [ComplianceResult.validDeals ComplianceResult.rejectedDeals].
  split; [reflexivity|]. split; [|split].
  - intro c. rewrite filter_In, isCompliant_rules. reflexivity.
  - intros c violations H. apply in_map_iff in H.
    destruct H as (d & Hd & H). injection Hd as <- <-.
    apply filter_In in H. destruct H as [Hin Hc].
    split; [exact Hin|]. split; [|reflexivity].
    unfold isCompliant in Hc. intro Hnil. rewrite Hnil in Hc. discriminate.
  - rewrite length_map, <- length_app.
    symmetry. apply Permutation_length, filter_split_permutation.
Qed.

Lemma filterCompliantDeals_valid_witness :
  In (candidateWith 95 false true)
     (ComplianceResult.validDeals
        (filterCompliantDeals
           [candidateWith 128 true true; candidateWith 95 false true]
           (determineBankRules 120000 100 "subprime")))
  /\ DealCandidate.hasVsc (candidateWith 95 false true) = true.
Proof.
  assert (Hin : In (candidateWith 95 false true)
     (ComplianceResult.validDeals
        (filterCompliantDeals
           [candidateWith 128 true true; candidateWith 95 false true]
           (determineBankRules 120000 100 "subprime"))))
    by (left; reflexivity).
  split; [exact Hin|].
  destruct (filterCompliantDeals_valid
              [candidateWith 128 true true; candidateWith 95 false true]
              (determineBankRules 120000 100 "subprime")) as (_ & Hvalid & _).
  apply Hvalid in Hin. destruct Hin as (_ & _ & Hvsc & _).
  apply Hvsc. reflexivity.
Defined.

(** X22. [determineBankRules] on a credit tier that is none of the four
    known names, and no property name inherited from [Object.prototype],
    falls back to an LTV cap of 120 and leaves the PTI limit undefined; on a known tier its PTI limit is the one [evaluatePTI] uses
    for that tier, and the LTV cap lies between 115 and 130. *)
Theorem determineBankRules_tiers (mileage ltvPercent : Q) :
  (forall tier : string,
     ~ In tier ["prime"; "near_prime"; "subprime"; "deep_subprime"] ->
     ~ In tier objectPrototypeKeys ->
     ltvCap (determineBankRules mileage ltvPercent tier) = 120
     /\ maxPaymentToIncome (determineBankRules mileage ltvPercent tier) = None)
  /\ (forall tier : CreditTier,
        maxPaymentToIncome (determineBankRules mileage ltvPercent (tierName tier))
        = Some (getPtiLimit tier)
        /\ 115 <= ltvCap (determineBankRules mileage ltvPercent (tierName tier))
           <= 130).
Proof.
  split.
  - intros tier Hnot _. unfold determineBankRules, ltvCaps, ptiLimits.
    cbn [ltvCap maxPaymentToIncome lookupS].
    destruct (String.eqb_spec tier "prime") as [-> | _];
      [exfalso; apply Hnot; simpl; tauto|].
    destruct (String.eqb_spec tier "near_prime") as [-> | _];
      [exfalso; apply Hnot; simpl; tauto|].
    destruct (String.eqb_spec tier "subprime") as [-> | _];
      [exfalso; apply Hnot; simpl; tauto|].
    destruct (String.eqb_spec tier "deep_subprime") as [-> | _];
      [exfalso; apply Hnot; simpl; tauto|].
    split; reflexivity.
  - intro tier. destruct tier; (split; [reflexivity | split; now vm_compute]).
Qed.

Lemma determineBankRules_tiers_witness :
  ~ In "super_prime" ["prime"; "near_prime"; "subprime"; "deep_subprime"]
  /\ ~ In "super_prime" objectPrototypeKeys
  /\ ltvCap (determineBankRules 50000 90 "super_prime") = 120
  /\ maxPaymentToIncome (determineBankRules 50000 90 "super_prime") = None.
Proof.
  assert (H : ~ In "super_prime" ["prime"; "near_prime"; "subprime"; "deep_subprime"]).
  { intros [H | [H | [H | [H | []]]]]; discriminate H. }
  assert (H' : ~ In "super_prime" objectPrototypeKeys).
  { cbn. intro K. repeat (destruct K as [K | K]; [discriminate K|]). exact K. }
  split; [exact H|]. split; [exact H'|].
  destruct (determineBankRules_tiers 50000 90) as [Hunknown _].
  apply Hunknown; [exact H | exact H'].
Defined.

(* ================================================================= *)
(** ** PTI: the engine's flag and the compliance filter agree *)

Lemma buildCandidate_pti (year : Z) (deal : DealInput)
    (riskAssessment : RiskAssessment.t) (lender : LenderConfig)
    (eligibility : VehicleEligibilityResult.t) (tierRow : LenderTierPricing)
    (apr : Q) (term : Z) (down : Q) (scenario : BackendScenario.t)
    (c : DealCandidate.t) :
  buildCandidate year deal riskAssessment lender eligibility tierRow apr term
                 down scenario = Some c ->
  let pti := evaluatePTI (DealCandidate.payment c) (monthlyIncome deal)
                         (customerCreditTier deal) in
  DealCandidate.ptiPercent c = PtiResult.ptiPercent pti
  /\ DealCandidate.ptiWarning c = PtiResult.ptiWarning pti
  /\ DealCandidate.ptiExceedsLimit c = PtiResult.ptiExceedsLimit pti
  /\ DealCandidate.requiredIncome c = PtiResult.requiredIncome pti.
Proof.
  intro H. unfold buildCandidate in H.
  repeat match type of H with
         | (if ?e then None else _) = _ => destruct e; [discriminate|]
         end.
  injection H as <-. repeat split.
Qed.

Lemma pti_violation_flag (payment : Q) (income : option Q) (tier : CreditTier)
    (mileage ltvPercent : Q) (c : DealCandidate.t) :
  DealCandidate.ptiPercent c
  = PtiResult.ptiPercent (evaluatePTI payment income tier) ->
  (exists pti limit,
     In (PtiExceedsLimit pti limit)
        (dealViolations (determineBankRules mileage ltvPercent (tierName tier)) c))
  <-> PtiResult.ptiExceedsLimit (evaluatePTI payment income tier) = true.
Proof.
  intro Hpct.
  assert (Hlimit : truthy (maxPaymentToIncome
                             (determineBankRules mileage ltvPercent (tierName tier)))
                   = Some (getPtiLimit tier)) by (destruct tier; reflexivity).
  assert (Hpos := getPtiLimit_pos tier).
  unfold dealViolations. rewrite Hlimit, Hpct.
  set (rules := determineBankRules mileage ltvPercent (tierName tier)).
  assert (Hother : forall (rest : list Violation),
    (exists pti limit,
       In (PtiExceedsLimit pti limit)
          ((if Qgtb (DealCandidate.ltv c) (ltvCap rules)
            then [LtvExceedsCap (DealCandidate.ltv c) (ltvCap rules)] else [])
           ++ (if mandatoryVsc rules && negb (DealCandidate.hasVsc c)
               then [MandatoryVscMissing] else [])
           ++ (if mandatoryGap rules && negb (DealCandidate.hasGap c)
               then [MandatoryGapMissing] else [])
           ++ rest))
    <-> exists pti limit, In (PtiExceedsLimit pti limit) rest).
  { intro rest.
    destruct (Qgtb _ _), (mandatoryVsc rules && _), (mandatoryGap rules && _);
      cbn [app In]; split; intros (p & l & H); exists p, l;
      repeat (destruct H as [H | H]; try discriminate H); tauto. }
  rewrite Hother. clear Hother.
  unfold evaluatePTI.
  destruct income as [inc|]; cbn [PtiResult.ptiPercent PtiResult.ptiExceedsLimit];
    [|cbn; split; [intros (p & l & []) | discriminate]].
  destruct (Qeqb inc 0 || Qleb inc 0) eqn:E;
    cbn [PtiResult.ptiPercent PtiResult.ptiExceedsLimit truthy];
    [split; [intros (p & l & []) | discriminate]|].
  set (pti := calculatePTI payment inc).
  destruct (Qeqb (pti * 100) 0) eqn:Ez.
  - apply Qeqb_eq in Ez. split; [intros (p & l & []) |].
    intro H. apply Qgtb_gt in H. exfalso. lra.
  - destruct (Qgtb (pti * 100) (getPtiLimit tier * 100)) eqn:Eg.
    + apply Qgtb_gt in Eg. split.
      * intros _. apply Qgtb_gt. lra.
      * intros _. eexists. eexists. left. reflexivity.
    + apply Qgtb_le in Eg. split; [intros (p & l & [])|].
      intro H. apply Qgtb_gt in H. exfalso. lra.
Qed.

(** X23. For every candidate returned by [runRehash], the compliance filter
    with the bank rules of the customer's credit tier raises a PTI violation
    exactly when the candidate is flagged [ptiExceedsLimit]: the two PTI
    tables and the two comparisons agree. *)
Theorem allCandidates_pti_violation (year : Z) (deal : DealInput)
    (lenders : list LenderConfig) (mileage ltvPercent : Q) (c : DealCandidate.t) :
  In c (RehashResult.allCandidates (runRehash year deal lenders)) ->
  ((exists pti limit,
      In (PtiExceedsLimit pti limit)
         (dealViolations
            (determineBankRules mileage ltvPercent
                                (tierName (customerCreditTier deal))) c))
   <-> DealCandidate.ptiExceedsLimit c = true)
  /\ (DealCandidate.ptiExceedsLimit c = true <-> DealCandidate.ptiWarning c <> None)
  /\ DealCandidate.requiredIncome c
     = Some (Math_ceil (DealCandidate.payment c
                        / getPtiLimit (customerCreditTier deal))).
Proof.
  intro H. apply allCandidates_generated, generateCandidates_origin in H.
  destruct H as (lender & tierRow & term & down & scenario & _ & _ & _ & _ & _
                 & _ & _ & _ & _ & Hbuild).
  apply buildCandidate_pti in Hbuild.
  destruct Hbuild as (Hpct & Hwarn & Hflag & Hreq).
  rewrite Hflag, Hwarn, Hreq. split; [|split].
  - apply pti_violation_flag, Hpct.
  - unfold evaluatePTI.
    destruct (monthlyIncome deal) as [inc|];
      [|cbn; split; [discriminate | intro H; contradiction H; reflexivity]].
    destruct (Qeqb inc 0 || Qleb inc 0);
      [cbn; split; [discriminate | intro H; contradiction H; reflexivity]|].
    cbn [PtiResult.ptiExceedsLimit PtiResult.ptiWarning].
    destruct (Qgtb _ _);
      split; first [discriminate | reflexivity
                    | intro H; contradiction H; reflexivity].
  - unfold evaluatePTI, calculateRequiredIncome.
    assert (E : Qleb (getPtiLimit (customerCreditTier deal)) 0 = false)
      by (apply Qleb_gt, getPtiLimit_pos).
    rewrite E.
    destruct (monthlyIncome deal) as [inc|]; [|reflexivity].
    destruct (Qeqb inc 0 || Qleb inc 0); reflexivity.
Qed.

Lemma allCandidates_pti_violation_witness :
  exists c,
    nth_error (RehashResult.allCandidates
                 (runRehash 2025 (lateModelDeal "Honda") LENDERS)) 0 = Some c
    /\ (DealCandidate.ptiExceedsLimit c = true
        <-> DealCandidate.ptiWarning c <> None).
Proof.
  destruct (nth_error (RehashResult.allCandidates
                         (runRehash 2025 (lateModelDeal "Honda") LENDERS)) 0)
    as [c|] eqn:E; [|vm_compute in E; discriminate].
  exists c. split; [reflexivity|].
  assert (Hin : In c (RehashResult.allCandidates
                        (runRehash 2025 (lateModelDeal "Honda") LENDERS)))
    by (apply (nth_error_In _ 0), E).
  destruct (allCandidates_pti_violation 2025 (lateModelDeal "Honda") LENDERS
              10000 108 c Hin) as (_ & Hwarn & _).
  exact Hwarn.
Defined.

(* ================================================================= *)
(** ** The triage hook *)

Section SortedHead.

Context {A : Type}.
Variable compareFn : A -> A -> Q.
Variable before : A -> A -> Prop.

Hypothesis before_swap : forall x y, 0 < compareFn x y -> before y x.
Hypothesis before_keep : forall x y, compareFn x y <= 0 -> before x y.
Hypothesis before_trans : forall x y z, before x y -> before y z -> before x z.
Hypothesis before_refl : forall x, before x x.

(** The first element of the sorted list comes before every element. *)
Lemma Array_sort_head (l : list A) :
  l <> [] ->
  exists first, nth_error (Array_sort compareFn l) 0 = Some first
                /\ In first l /\ forall x, In x l -> before first x.
Proof.
  intro Hne.
  assert (Hperm := Array_sort_permutation compareFn l).
  assert (Hsorted := Array_sort_sorted compareFn before before_swap before_keep
                       before_trans l).
  destruct (Array_sort compareFn l) as [|first rest].
  - apply Permutation_sym, Permutation_nil in Hperm. contradiction.
  - exists first. split; [reflexivity|].
    split; [apply (Permutation_in _ (Permutation_sym Hperm)); left; reflexivity|].
    intros x Hx. apply (Permutation_in _ Hperm) in Hx.
    inversion Hsorted as [|f r _ Hall]; subst.
    destruct Hx as [<- | Hx]; [apply before_refl|].
    rewrite Forall_forall in Hall. apply Hall, Hx.
Qed.

End SortedHead.

Lemma splitPieces_after_separator (sep : ascii) (x y : string) :
  (1 <= List.length (snd (splitPieces sep (x ++ String sep y)%string)))%nat.
Proof.
  induction x as [|c x IH]; cbn [append splitPieces].
  - destruct (splitPieces sep y) as [h t]. rewrite Ascii.eqb_refl. cbn. lia.
  - destruct (splitPieces sep (x ++ String sep y)%string) as [h t].
    cbn [snd] in IH. destruct (Ascii.eqb c sep); cbn; lia.
Qed.

Lemma fallback_id_parts (lenderId termText : string) :
  let parts := split "-" ("deal-0-" ++ lenderId ++ "-" ++ termText)%string in
  (4 <= List.length parts)%nat /\ nth 1 parts "" = "0".
Proof.
  assert (H := splitPieces_after_separator "-" lenderId termText).
  unfold split. cbn [append splitPieces].
  change (String.append "-" termText) with (String "-" termText).
  destruct (splitPieces "-" (lenderId ++ String "-" termText)%string) as [h t].
  cbn in *. split; [lia | reflexivity].
Qed.

(** X24. When the triage call fails and there is a valid deal, the fallback
    chooses the profit mode exactly when some valid deal pays at most 110% of
    the target; it then names the valid deal with the largest net check among
    those, and otherwise the valid deal with the lowest payment.  The id it
    writes always carries index 0, so the best deal the hook returns is the
    first valid deal, whichever deal the fallback named. *)
Theorem fallbackTriage_selection (validDeals : list DealCandidate.t)
    (targetPayment : Q) :
  validDeals <> [] ->
  exists response chosen,
    fallbackTriage validDeals targetPayment = Some response
    /\ In chosen validDeals
    /\ TriageResponse.bestDealId response
       = ("deal-0-" ++ DealCandidate.lenderId chosen ++ "-"
          ++ numberText (DealCandidate.termMonths chosen))%string
    /\ (TriageResponse.mode response = mode_profit
        <-> exists d, In d validDeals
                      /\ DealCandidate.payment d <= targetPayment * 1.1)
    /\ (TriageResponse.mode response = mode_profit ->
        DealCandidate.payment chosen <= targetPayment * 1.1
        /\ forall d, In d validDeals ->
             DealCandidate.payment d <= targetPayment * 1.1 ->
             DealCandidate.netCheckToDealer d
             <= DealCandidate.netCheckToDealer chosen)
    /\ (TriageResponse.mode response = mode_survival ->
        forall d, In d validDeals ->
          DealCandidate.payment chosen <= DealCandidate.payment d)
    /\ triageBestDeal (Some response) validDeals = nth_error validDeals 0.
Proof.
  intro Hne. unfold fallbackTriage.
  set (close := filter (fun d => Qleb (DealCandidate.payment d) (targetPayment * 1.1))
                       validDeals).
  assert (Hclose : forall d, In d close
            <-> In d validDeals /\ DealCandidate.payment d <= targetPayment * 1.1).
  { intro d. unfold close. rewrite filter_In, Qleb_le. reflexivity. }
  assert (Hbest : forall response chosen,
            TriageResponse.bestDealId response
            = ("deal-0-" ++ DealCandidate.lenderId chosen ++ "-"
               ++ numberText (DealCandidate.termMonths chosen))%string ->
            triageBestDeal (Some response) validDeals = nth_error validDeals 0).
  { intros response chosen Hid. unfold triageBestDeal. rewrite Hid.
    destruct (fallback_id_parts (DealCandidate.lenderId chosen)
                (numberText (DealCandidate.termMonths chosen))) as [Hlen Hnth].
    cbv zeta in Hlen, Hnth.
    apply Nat.leb_le in Hlen. rewrite Hlen, Hnth.
    change (parseInt "0") with (Some 0%Z).
    destruct validDeals as [|v vs]; [contradiction|]. reflexivity. }
  destruct close as [|c0 cs] eqn:Ec.
  - cbn [List.length Nat.ltb Nat.leb].
    destruct (Array_sort_head
                (fun a b => DealCandidate.payment a - DealCandidate.payment b)
                (fun a b => DealCandidate.payment a <= DealCandidate.payment b))
      with (l := validDeals) as (first & Hfirst & Hin & Hmin); try exact Hne.
    { intros x y H. lra. } { intros x y H. lra. }
    { intros x y z H1 H2. lra. } { intro x. lra. }
    rewrite Hfirst. eexists. exists first.
    split; [reflexivity|]. split; [exact Hin|]. split; [reflexivity|].
    cbn [TriageResponse.mode]. split; [|split; [|split]].
    + split; [discriminate|]. intros (d & Hd). apply Hclose in Hd. contradiction.
    + discriminate.
    + intros _. exact Hmin.
    + apply (Hbest _ first). reflexivity.
  - assert (Hne' : c0 :: cs <> []) by discriminate.
    cbn [List.length Nat.ltb Nat.leb].
    destruct (Array_sort_head
                (fun a b => DealCandidate.netCheckToDealer b
                            - DealCandidate.netCheckToDealer a)
                (fun a b => DealCandidate.netCheckToDealer b
                            <= DealCandidate.netCheckToDealer a))
      with (l := c0 :: cs) as (first & Hfirst & Hin & Hmax); try exact Hne'.
    { intros x y H. lra. } { intros x y H. lra. }
    { intros x y z H1 H2. lra. } { intro x. lra. }
    rewrite Hfirst. apply Hclose in Hin. destruct Hin as [Hin Hpay].
    eexists. exists first.
    split; [reflexivity|]. split; [exact Hin|]. split; [reflexivity|].
    cbn [TriageResponse.mode]. split; [|split; [|split]].
    + split; [|reflexivity]. intros _. exists first. split; assumption.
    + intros _. split; [exact Hpay|].
      intros d Hd Hdp. apply Hmax, Hclose. split; assumption.
    + discriminate.
    + apply (Hbest _ first). reflexivity.
Qed.

Lemma fallbackTriage_selection_witness :
  exists response chosen,
    fallbackTriage [candidateWith 128 true true; candidateWith 95 false true] 400
    = Some response
    /\ In chosen [candidateWith 128 true true; candidateWith 95 false true]
    /\ triageBestDeal (Some response)
         [candidateWith 128 true true; candidateWith 95 false true]
       = Some (candidateWith 128 true true).
Proof.
  destruct (fallbackTriage_selection
              [candidateWith 128 true true; candidateWith 95 false true] 400)
    as (response & chosen & Hres & Hin & _ & _ & _ & _ & Hbest);
    [discriminate|].
  exists response, chosen. split; [exact Hres|]. split; [exact Hin|].
  exact Hbest.
Defined.

(** X25. The first phase of the hook accounts for every candidate: the valid
    deals and the rejected count add up to the number of candidates.  Without
    a risk assessment nothing is filtered and no product is mandatory.  With
    one, VSC is listed exactly when the vehicle has more than 100,000 miles
    and GAP exactly when the assessed LTV is above 110%, and every valid deal
    carries each listed product. *)
Theorem triagePhase1_mandatory_products (allCandidates : list DealCandidate.t)
    (vehicleMileage : Q) (creditTier : string)
    (riskAssessment : option RiskAssessment.t) :
  let bankRules := triageBankRules vehicleMileage creditTier riskAssessment in
  let products := mandatoryProducts bankRules in
  let validDeals := fst (triagePhase1 allCandidates bankRules) in
  let rejectedCount := snd (triagePhase1 allCandidates bankRules) in
  (List.length validDeals + rejectedCount = List.length allCandidates)%nat
  /\ (riskAssessment = None ->
      validDeals = allCandidates /\ rejectedCount = 0%nat /\ products = [])
  /\ (forall ra, riskAssessment = Some ra ->
        (In "VSC" products <-> 100000 < vehicleMileage)
        /\ (In "GAP" products <-> 110 < RiskAssessment.ltvPercent ra))
  /\ (forall d, In d validDeals ->
        In d allCandidates
        /\ (In "VSC" products -> DealCandidate.hasVsc d = true)
        /\ (In "GAP" products -> DealCandidate.hasGap d = true)).
Proof.
  intros bankRules products validDeals rejectedCount.
  destruct riskAssessment as [ra|].
  - set (rules := determineBankRules vehicleMileage (RiskAssessment.ltvPercent ra)
                    creditTier).
    assert (Hproducts :
              (In "VSC" products <-> mandatoryVsc rules = true)
              /\ (In "GAP" products <-> mandatoryGap rules = true)).
    { unfold products, bankRules, triageBankRules, mandatoryProducts.
      fold rules. destruct (mandatoryVsc rules), (mandatoryGap rules); cbn;
        repeat split; intros; try reflexivity; try tauto;
        repeat match goal with
               | H : _ \/ _ |- _ => destruct H
               | H : False |- _ => destruct H
               | H : _ = _ |- _ => discriminate H
               end. }
    destruct Hproducts as [Hvsc Hgap].
    assert (Hvalid : validDeals = filter (isCompliant rules) allCandidates
                     /\ (List.length validDeals + rejectedCount
                         = List.length allCandidates)%nat).
    { unfold validDeals, rejectedCount, bankRules, triageBankRules, triagePhase1.
      fold rules.
      destruct allCandidates as [|c cs]; [split; reflexivity|].
      cbn [List.length Nat.eqb fst snd].
      unfold filterCompliantDeals. rewrite filterCompliantDeals_from.
      cbn [ComplianceResult.validDeals ComplianceResult.rejectedDeals app].
      split; [reflexivity|].
      rewrite length_map, <- length_app.
      symmetry. apply (Permutation_length (filter_split_permutation _ (c :: cs))). }
    destruct Hvalid as [Hvalid Hcount].
    split; [exact Hcount|]. split; [discriminate|]. split.
    + intros ra' Hra. injection Hra as <-.
      rewrite Hvsc, Hgap. unfold rules, determineBankRules.
      cbn [mandatoryVsc mandatoryGap]. rewrite !Qgtb_gt. split; reflexivity.
    + intros d Hd. rewrite Hvalid in Hd. apply filter_In in Hd.
      destruct Hd as [Hin Hd]. apply isCompliant_rules in Hd.
      destruct Hd as (_ & Hv & Hg & _).
      split; [exact Hin|]. rewrite Hvsc, Hgap. split; assumption.
  - split; [|split; [|split]].
    + unfold validDeals, rejectedCount. cbn. lia.
    + intros _. repeat split.
    + intros ra Hra. discriminate Hra.
    + intros d Hd. split; [exact Hd|]. split; intros [].
Qed.

(* ================================================================= *)
(** ** The year in the result *)

(** X26. The result of [runRehash] carries the vehicle's age, so it fixes the
    year the clock showed: one deal (its model year an integer of at most 52
    bits, so that the age is computed exactly) evaluated in two different
    calendar years never gives the same result, whatever the lender lists. *)
Theorem runRehash_fixes_year (year1 year2 : Z) (deal : DealInput)
    (lenders1 lenders2 : list LenderConfig) :
  (Z.abs (vehicleYear deal) <= 2 ^ 52)%Z ->
  (Z.abs year1 <= 2 ^ 52)%Z -> (Z.abs year2 <= 2 ^ 52)%Z ->
  runRehash year1 deal lenders1 = runRehash year2 deal lenders2 ->
  year1 = year2.
Proof.
  intros _ _ _ H.
  apply (f_equal (fun r => RiskAssessment.vehicleAgeYears
                             (RehashResult.riskAssessment r))) in H.
  unfold runRehash, assessRisk in H.
  cbn [RehashResult.riskAssessment RiskAssessment.vehicleAgeYears] in H.
  lia.
Qed.

Lemma runRehash_fixes_year_witness :
  (Z.abs (vehicleYear (lateModelDeal "Honda")) <= 2 ^ 52)%Z
  /\ (Z.abs 2025 <= 2 ^ 52)%Z
  /\ runRehash 2025 (lateModelDeal "Honda") LENDERS
     = runRehash 2025 (lateModelDeal "Honda") [westlake; western_funding; uac]
  /\ 2025%Z = 2025%Z.
Proof.
  assert (Hv : (Z.abs (vehicleYear (lateModelDeal "Honda")) <= 2 ^ 52)%Z)
    by (cbn; lia).
  assert (Hy : (Z.abs 2025 <= 2 ^ 52)%Z) by (cbn; lia).
  assert (H : runRehash 2025 (lateModelDeal "Honda") LENDERS
              = runRehash 2025 (lateModelDeal "Honda")
                          [westlake; western_funding; uac]) by reflexivity.
  split; [exact Hv|]. split; [exact Hy|]. split; [exact H|].
  apply (runRehash_fixes_year 2025 2025 (lateModelDeal "Honda") LENDERS
           [westlake; western_funding; uac] Hv Hy Hy H).
Defined.
